(** * HWPX slot filler: text injection, image replacement and container rewrite

    Shallow embedding of
      - [week03a_insert_HWPX_images_into_an_HTML_template/main.py]  (module [Week03a])
      - [week02c_populate_HWPX_slots with_data/main.py]             (module [Week02c])

    The XML trees handled through lxml are modelled as rose trees of element
    objects.  Every element carries the identity of the Python object
    ([uid]), its tag, its attributes, its [text], its children and its
    [tail]; comments and processing instructions are not modelled.  Values
    written with [el.text = v] are taken to be XML-compatible strings. *)

From Stdlib Require Import List String Ascii Bool Arith Lia PeanoNat.
Import ListNotations.
Set Warnings "-register-all".
Open Scope string_scope.
Open Scope list_scope.

(* ------------------------------------------------------------------------- *)
(** ** Python strings and bytes *)
(* ------------------------------------------------------------------------- *)

(** [bytes] and [str] are both sequences of octets here: a [str] stands for
    its UTF-8 encoding, so that [s.encode("utf-8")] is the identity. *)
Definition bytes := string.

Definition startswith (s p : string) : bool := String.prefix p s.

Definition endswith (s suf : string) : bool :=
  Nat.leb (String.length suf) (String.length s) &&
  String.eqb (substring (String.length s - String.length suf) (String.length suf) s) suf.

(** [sub in s] *)
Fixpoint contains (s sub : string) : bool :=
  startswith s sub ||
  match s with
  | EmptyString => false
  | String _ s' => contains s' sub
  end.

Definition is_upper (c : ascii) : bool :=
  Nat.leb 65 (nat_of_ascii c) && Nat.leb (nat_of_ascii c) 90.

Definition lower_ascii (c : ascii) : ascii :=
  if is_upper c then ascii_of_nat (nat_of_ascii c + 32) else c.

(** [s.lower()] on the ASCII range. *)
Fixpoint lower (s : string) : string :=
  match s with
  | EmptyString => EmptyString
  | String c s' => String (lower_ascii c) (lower s')
  end.

Definition is_space (c : ascii) : bool :=
  let n := nat_of_ascii c in
  (Nat.leb 9 n && Nat.leb n 13) || (Nat.leb 28 n && Nat.leb n 32).

Fixpoint lstrip (s : string) : string :=
  match s with
  | EmptyString => EmptyString
  | String c s' => if is_space c then lstrip s' else s
  end.

(** [rstrip] drops the trailing run of blanks. *)
Fixpoint rstrip (s : string) : string :=
  match s with
  | EmptyString => EmptyString
  | String c s' =>
      match rstrip s' with
      | EmptyString => if is_space c then EmptyString else String c EmptyString
      | r => String c r
      end
  end.

Definition strip (s : string) : string := rstrip (lstrip s).

(** [s.replace("\\", "/")] *)
Fixpoint replace_backslash (s : string) : string :=
  match s with
  | EmptyString => EmptyString
  | String c s' =>
      String (if Ascii.eqb c "\"%char then "/"%char else c) (replace_backslash s')
  end.

(** Truthiness of a [str]. *)
Definition nonempty (s : string) : bool := negb (String.eqb s EmptyString).

(** [x or empty] for an optional string. *)
Definition or_empty (o : option string) : string :=
  match o with Some s => s | None => EmptyString end.

(* ------------------------------------------------------------------------- *)
(** ** Python dictionaries (insertion ordered) *)
(* ------------------------------------------------------------------------- *)

Section Dict.
Context {V : Type}.

Definition dict := list (string * V).

Fixpoint dict_get (d : dict) (k : string) : option V :=
  match d with
  | [] => None
  | (k', v) :: d' => if String.eqb k' k then Some v else dict_get d' k
  end.

Definition dict_mem (d : dict) (k : string) : bool :=
  match dict_get d k with Some _ => true | None => false end.

(** [d[k] = v]: an existing key keeps its position, a new key goes last. *)
Fixpoint dict_set (d : dict) (k : string) (v : V) : dict :=
  match d with
  | [] => [(k, v)]
  | (k', v') :: d' =>
      if String.eqb k' k then (k', v) :: d' else (k', v') :: dict_set d' k v
  end.

Definition dict_keys (d : dict) : list string := map fst d.
End Dict.
Arguments dict V : clear implicits.

(* ------------------------------------------------------------------------- *)
(** ** lxml element trees *)
(* ------------------------------------------------------------------------- *)

Inductive element : Type :=
  Element (uid : nat) (tag : string) (attrib : list (string * string))
          (text : option string) (children : list element)
          (tail : option string).

Definition uid (e : element) : nat := let 'Element u _ _ _ _ _ := e in u.
Definition tag (e : element) : string := let 'Element _ t _ _ _ _ := e in t.
Definition attrib (e : element) : list (string * string) :=
  let 'Element _ _ a _ _ _ := e in a.
Definition text (e : element) : option string := let 'Element _ _ _ x _ _ := e in x.
Definition children (e : element) : list element :=
  let 'Element _ _ _ _ c _ := e in c.
Definition tail (e : element) : option string := let 'Element _ _ _ _ _ x := e in x.

(** [el.get(name)] *)
Definition get (e : element) (name : string) : option string :=
  dict_get (attrib e) name.

Definition has_attr (e : element) (name : string) : bool :=
  match get e name with Some _ => true | None => false end.

(** XPath [@name = $v] *)
Definition attr_eq (e : element) (name v : string) : bool :=
  match get e name with Some x => String.eqb x v | None => false end.

(** [root.iter()]: the element and its descendants in document order. *)
Fixpoint iter (e : element) : list element :=
  e :: flat_map iter (children e).

(** XPath [.//*]: the proper descendants, in document order. *)
Definition descendants (e : element) : list element :=
  flat_map iter (children e).

(** XPath string-value of an element: all text below it, in document order. *)
Fixpoint string_value (e : element) : string :=
  let 'Element _ _ _ tx cs _ := e in
  (or_empty tx ++
  (fix go (l : list element) : string :=
     match l with
     | [] => EmptyString
     | c :: l' => string_value c ++ or_empty (tail c) ++ go l'
     end) cs)%string.

(** XPath [following::] axis of the element with identity [u], read off the
    document-order listing [l]: everything after the element that is not one
    of its descendants. *)
Fixpoint following_in (u : nat) (l : list element) : list element :=
  match l with
  | [] => []
  | e :: l' =>
      if Nat.eqb (uid e) u then skipn (List.length (descendants e)) l'
      else following_in u l'
  end.

Definition following (root : element) (u : nat) : list element :=
  following_in u (iter root).

(** The live object of identity [u] inside [root]. *)
Definition lookup (root : element) (u : nat) : option element :=
  find (fun e => Nat.eqb (uid e) u) (iter root).

(** [el.text] read through the live object. *)
Definition text_of (root : element) (u : nat) : option string :=
  match lookup root u with Some e => text e | None => None end.

(** [el.text = s] for the object of identity [u]. *)
Fixpoint set_text (u : nat) (s : option string) (e : element) : element :=
  let 'Element i t a x cs tl := e in
  Element i t a (if Nat.eqb i u then s else x) (map (set_text u s) cs) tl.

(** Identities are those of distinct Python objects. *)
Definition wf (root : element) : Prop := NoDup (map uid (iter root)).

(* ------------------------------------------------------------------------- *)
(** ** Namespaces and tags *)
(* ------------------------------------------------------------------------- *)

Definition HP_NS := "http://www.hancom.co.kr/hwpml/2011/paragraph".
Definition HC_NS := "http://www.hancom.co.kr/hwpml/2011/core".

Definition hp (local : string) : string := ("{" ++ HP_NS ++ "}" ++ local)%string.
Definition hc (local : string) : string := ("{" ++ HC_NS ++ "}" ++ local)%string.

Definition is_tag (t : string) (e : element) : bool := String.eqb (tag e) t.

(* ------------------------------------------------------------------------- *)
(** ** External libraries *)
(* ------------------------------------------------------------------------- *)

(** lxml: [etree.fromstring] with a strict parser ([None] when it raises) and
    [etree.tostring] ([None] when serialisation raises). *)
Class Lxml := {
  fromstring : bytes -> option element;
  tostring : element -> option bytes
}.

(** [base64.b64decode] ([None] when it raises [binascii.Error]). *)
Class Base64 := { b64decode : string -> option bytes }.

(** Exceptions that leave [generate_submit_hwpx]. *)
Inductive error : Type :=
| SourceUnreadable
| ValueError (msg : string).

Inductive outcome (A : Type) : Type :=
| Ok (a : A)
| Raise (e : error).
Arguments Ok {A} a.
Arguments Raise {A} e.

(** A JSON value of the submitted payload.  Everything but a [str] carries
    what [str(v)] shows for it. *)
Inductive pyval : Type :=
| PyStr (s : string)
| PyNum (shown : string)
| PyDict (items : list (string * pyval)) (shown : string)
| PyOther (shown : string).

Definition py_str (v : pyval) : string :=
  match v with
  | PyStr s => s
  | PyNum shown | PyDict _ shown | PyOther shown => shown
  end.

(** A zip archive: the entries of [infolist()], in order. *)
Definition zipfile := list (string * bytes).

(** [zf.read(name)]: the name table keeps the last entry of that name. *)
Fixpoint zread (zf : zipfile) (name : string) : option bytes :=
  match zf with
  | [] => None
  | (n, d) :: zf' =>
      match zread zf' name with
      | Some d' => Some d'
      | None => if String.eqb n name then Some d else None
      end
  end.

(** XPath queries shared by both programs. *)

(** [.//hp:fieldBegin[@name][@id]] *)
Definition field_begins (root : element) : list element :=
  filter (fun e => is_tag (hp "fieldBegin") e && has_attr e "name" && has_attr e "id")
         (descendants root).

Definition is_end_for (bid : string) (e : element) : bool :=
  is_tag (hp "fieldEnd") e && attr_eq e "beginIDRef" bid.

(** [fb.xpath("following::hp:fieldEnd[@beginIDRef=$bid][1]")] *)
Definition first_end (root : element) (u : nat) (bid : string) : option element :=
  find (is_end_for bid) (following root u).

(** [fb.xpath("following::hp:t[following::hp:fieldEnd[@beginIDRef=$bid][1] = $end]")]:
    the XPath [=] between node sets compares string-values. *)
Definition t_nodes (root : element) (u : nat) (bid : string) (end_node : element)
  : list element :=
  filter (fun t =>
            is_tag (hp "t") t &&
            match first_end root (uid t) bid with
            | Some e => String.eqb (string_value e) (string_value end_node)
            | None => false
            end)
         (following root u).

(* ------------------------------------------------------------------------- *)
(** ** week02c: text slot filler *)
(* ------------------------------------------------------------------------- *)

Module Week02c.

(** A fresh identity for [etree.Element(...)]. *)
Definition fresh (root : element) : nat := S (list_max (map uid (iter root))).

(** [ctrl.insert(ctrl.index(end_node), t)] where [ctrl] is the parent of the
    element of identity [u]. *)
Fixpoint insert_before (u : nat) (new : element) (e : element) : element :=
  let 'Element i t a x cs tl := e in
  Element i t a x
          ((fix go (l : list element) : list element :=
              match l with
              | [] => []
              | c :: l' =>
                  if Nat.eqb (uid c) u then new :: c :: l'
                  else insert_before u new c :: go l'
              end) cs)
          tl.

(** One turn of the loop over the begin markers: a name without a value is
    given the empty string. *)
Definition fill_field (values : dict string) (root : element) (fb : element) : element :=
  match get fb "name", get fb "id" with
  | Some slot_name, Some begin_id =>
      if negb (nonempty slot_name) || negb (nonempty begin_id) then root
      else
        let target_value := or_empty (dict_get values slot_name) in
        match first_end root (uid fb) begin_id with
        | None => root
        | Some end_node =>
            match t_nodes root (uid fb) begin_id end_node with
            | t0 :: extras =>
                fold_left (fun r extra => set_text (uid extra) (Some EmptyString) r)
                          extras
                          (set_text (uid t0) (Some target_value) root)
            | [] =>
                insert_before (uid end_node)
                              (Element (fresh root) (hp "t") [] (Some target_value) [] None)
                              root
            end
        end
  | _, _ => root
  end.

Definition fill_fields (root : element) (values : dict string) : element :=
  fold_left (fill_field values) (field_begins root) root.

Section Bytes.
Context `{Lxml}.

(** [None] when an exception leaves the function. *)
Definition fill_fields_in_xml (xml_bytes : bytes) (values : dict string) : option bytes :=
  match fromstring xml_bytes with
  | None => None
  | Some root => tostring (fill_fields root values)
  end.

Definition rewrite_entry (zin : zipfile) (only_contents : bool) (values : dict string)
           (entry : string * bytes) : bytes :=
  let data := match zread zin (fst entry) with Some d => d | None => snd entry end in
  let is_xml := endswith (lower (fst entry)) ".xml" in
  let in_contents := startswith (fst entry) "Contents/" in
  if is_xml && (negb only_contents || in_contents) then
    match fill_fields_in_xml data values with
    | Some filled => filled
    | None => data
    end
  else data.

(** [input_hwpx] is [None] when the archive cannot be opened. *)
Definition generate_submit_hwpx (input_hwpx : option zipfile) (values : dict string)
           (only_contents : bool) : outcome zipfile :=
  match input_hwpx with
  | None => Raise SourceUnreadable
  | Some zin =>
      Ok (map (fun entry => (fst entry, rewrite_entry zin only_contents values entry)) zin)
  end.
End Bytes.

End Week02c.

(* ------------------------------------------------------------------------- *)
(** ** week03a: text and image slot filler *)
(* ------------------------------------------------------------------------- *)

Module Week03a.

Definition STRIP_CLICK_HERE : bool := false.
Definition IMG_PREFIX : string := "IMG_".

Record SlotMapping : Type := mkSlotMapping {
  slot_name : string;
  xml_path : string;
  field_begin_id : option string;
  field_id : option string
}.

Definition is_xml_path (name : string) : bool := endswith (lower name) ".xml".
Definition is_hpf_path (name : string) : bool := endswith (lower name) ".hpf".

(** *** (C) text injection, on the parsed tree *)

(** The loop over [t_nodes[1:]]: a non-empty extra leaf is blanked. *)
Definition blank_extra (st : element * bool) (extra : element) : element * bool :=
  let '(root, changed) := st in
  if nonempty (or_empty (text_of root (uid extra)))
  then (set_text (uid extra) (Some EmptyString) root, true)
  else st.

(** The [if t_nodes:] block. *)
Definition write_leaves (st : element * bool) (ts : list element)
           (target_value : string) : element * bool :=
  match ts with
  | [] => st
  | t0 :: extras =>
      let '(root, changed) := st in
      let st1 :=
        if negb (String.eqb (or_empty (text_of root (uid t0))) target_value)
        then (set_text (uid t0) (Some target_value) root, true)
        else st in
      fold_left blank_extra extras st1
  end.

(** One turn of the loop over the begin markers. *)
Definition fill_field (values : dict string) (st : element * bool) (fb : element)
  : element * bool :=
  match get fb "name", get fb "id" with
  | Some slot_name, Some begin_id =>
      if negb (nonempty slot_name) || negb (nonempty begin_id) then st
      else
        match dict_get values slot_name with
        | None => st
        | Some target_value =>
            if startswith slot_name IMG_PREFIX then st
            else
              match first_end (fst st) (uid fb) begin_id with
              | None => st
              | Some end_node =>
                  write_leaves st (t_nodes (fst st) (uid fb) begin_id end_node)
                               target_value
              end
        end
  | _, _ => st
  end.

Definition fill_fields (root : element) (values : dict string) : element * bool :=
  fold_left (fill_field values) (field_begins root) (root, false).

(** *** (D) marker stripping, on the parsed tree *)

(** [parent.remove(el)] for every descendant matching [p]: the element goes
    with its subtree and its tail. *)
Fixpoint remove_all (p : element -> bool) (e : element) : element :=
  let 'Element i t a x cs tl := e in
  Element i t a x
          ((fix go (l : list element) : list element :=
              match l with
              | [] => []
              | c :: l' => if p c then go l' else remove_all p c :: go l'
              end) cs)
          tl.

Definition is_clickhere_begin (e : element) : bool :=
  is_tag (hp "fieldBegin") e && attr_eq e "type" "CLICK_HERE".

(** The ids collected from [.//hp:fieldBegin[@type='CLICK_HERE'][@id]]. *)
Definition clickhere_begin_ids (root : element) : list string :=
  flat_map (fun fb => match get fb "id" with
                      | Some bid => if nonempty bid then [bid] else []
                      | None => []
                      end)
           (filter is_clickhere_begin (descendants root)).

Definition is_end_in (begin_ids : list string) (e : element) : bool :=
  is_tag (hp "fieldEnd") e &&
  match get e "beginIDRef" with
  | Some ref => existsb (String.eqb ref) begin_ids
  | None => false
  end.

Definition strip_clickhere (root : element) : element * bool :=
  let begin_ids := clickhere_begin_ids root in
  let fbs := filter is_clickhere_begin (descendants root) in
  let root1 := remove_all is_clickhere_begin root in
  let fes := match begin_ids with
             | [] => []
             | _ => filter (is_end_in begin_ids) (descendants root1)
             end in
  let root2 := match begin_ids with
               | [] => root1
               | _ => remove_all (is_end_in begin_ids) root1
               end in
  (root2, negb (Nat.eqb (List.length fbs) 0) || negb (Nat.eqb (List.length fes) 0)).

(** *** (E) the picture after an image slot *)

(** [end_node.xpath("following::hp:pic[1]")] *)
Definition first_pic (root : element) (u : nat) : option element :=
  find (is_tag (hp "pic")) (following root u).

(** [pic.xpath(".//hc:img[@binaryItemIDRef][1]")], first result. *)
Definition first_img (pic : element) : option element :=
  find (fun e => is_tag (hc "img") e && has_attr e "binaryItemIDRef") (descendants pic).

(** What one begin marker yields in the loop of
    [find_pic_binary_id_after_field]: [None] stands for [continue]. *)
Definition pic_binary_id_of (root : element) (fb : element) : option string :=
  match get fb "id" with
  | None => None
  | Some begin_id =>
      if negb (nonempty begin_id) then None
      else
        match first_end root (uid fb) begin_id with
        | None => None
        | Some end_node =>
            match first_pic root (uid end_node) with
            | None => None
            | Some pic =>
                match first_img pic with
                | None => None
                | Some img => get img "binaryItemIDRef"
                end
            end
        end
  end.

Fixpoint first_some {A B : Type} (f : A -> option B) (l : list A) : option B :=
  match l with
  | [] => None
  | a :: l' => match f a with Some b => Some b | None => first_some f l' end
  end.

(** [.//hp:fieldBegin[@name=$nm][@id]] *)
Definition field_begins_named (root : element) (nm : string) : list element :=
  filter (fun e => is_tag (hp "fieldBegin") e && attr_eq e "name" nm && has_attr e "id")
         (descendants root).

Definition find_pic_binary_id (root : element) (slot : string) : option string :=
  first_some (pic_binary_id_of root) (field_begins_named root slot).

(** *** Bytes in, bytes out *)

Section Bytes.
Context `{Lxml} `{Base64}.

Definition xml_parse_strict (xml_bytes : bytes) : option element := fromstring xml_bytes.
Definition xml_dump (root : element) : option bytes := tostring root.

(** (A) the slot directory.  The row/column hint of [SlotMapping] is
    informational and left out of the record. *)
Definition mappings_of (root : element) (path : string) : list SlotMapping :=
  flat_map (fun fb =>
              match get fb "name" with
              | Some nm =>
                  if nonempty nm
                  then [mkSlotMapping nm path (get fb "id") (get fb "fieldid")]
                  else []
              | None => []
              end)
           (filter (fun e => is_tag (hp "fieldBegin") e && has_attr e "name")
                   (descendants root)).

(** [None] when parsing raises. *)
Definition extract_slot_mappings_from_xml (xml_bytes : bytes) (path : string)
  : option (list SlotMapping) :=
  match xml_parse_strict xml_bytes with
  | Some root => Some (mappings_of root path)
  | None => None
  end.

(** [slot_map.setdefault(m.slot_name, []).append(m)] *)
Definition slot_map_add (sm : dict (list SlotMapping)) (m : SlotMapping)
  : dict (list SlotMapping) :=
  dict_set sm (slot_name m)
           (match dict_get sm (slot_name m) with Some l => l | None => [] end ++ [m]).

Definition data_of (zf : zipfile) (entry : string * bytes) : bytes :=
  match zread zf (fst entry) with Some d => d | None => snd entry end.

Definition scan_entry (zf : zipfile) (only_contents : bool)
           (sm : dict (list SlotMapping)) (entry : string * bytes)
  : dict (list SlotMapping) :=
  let name := fst entry in
  if negb (is_xml_path name) then sm
  else if only_contents && negb (startswith name "Contents/") then sm
  else
    match extract_slot_mappings_from_xml (data_of zf entry) name with
    | None => sm
    | Some mappings => fold_left slot_map_add mappings sm
    end.

Definition build_slot_map_from_hwpx (zf : zipfile) (only_contents : bool)
  : dict (list SlotMapping) :=
  fold_left (scan_entry zf only_contents) zf [].

(** (C) [None] when an exception leaves the function. *)
Definition fill_fields_in_xml (xml_bytes : bytes) (values : dict string)
  : option (bytes * bool) :=
  match xml_parse_strict xml_bytes with
  | None => None
  | Some root =>
      let '(root', changed) := fill_fields root values in
      if changed
      then match xml_dump root' with Some b => Some (b, true) | None => None end
      else Some (xml_bytes, false)
  end.

(** (D) *)
Definition strip_clickhere_fields (xml_bytes : bytes) : option (bytes * bool) :=
  match xml_parse_strict xml_bytes with
  | None => None
  | Some root =>
      let '(root', changed) := strip_clickhere root in
      if changed
      then match xml_dump root' with Some b => Some (b, true) | None => None end
      else Some (xml_bytes, false)
  end.

(** (E) outer [None] when parsing raises. *)
Definition find_pic_binary_id_after_field (xml_bytes : bytes) (slot : string)
  : option (option string) :=
  match xml_parse_strict xml_bytes with
  | None => None
  | Some root => Some (find_pic_binary_id root slot)
  end.

(** (F) resolution of a binary item id to a path under BinData. *)
Definition mentions_bindata (href : string) : bool :=
  contains href "BinData/" || contains href "BinData\".

(** What one part yields in the first loop of
    [resolve_bindata_href_for_binary_item]. *)
Definition href_in_tree (root : element) (bid : string) : option string :=
  match filter (fun e => attr_eq e "id" bid && has_attr e "href" &&
                         mentions_bindata (or_empty (get e "href")))
               (iter root) with
  | n :: _ => Some (replace_backslash (or_empty (get n "href")))
  | [] =>
      first_some
        (fun n => match get n "href" with
                  | Some href =>
                      if nonempty href && mentions_bindata href
                      then Some (replace_backslash href) else None
                  | None => None
                  end)
        (filter (fun e => attr_eq e "itemID" bid || attr_eq e "itemId" bid ||
                          attr_eq e "binaryItemIDRef" bid)
                (iter root))
  end.

Definition href_in_part (bid : string) (part : string * bytes) : option string :=
  if negb (is_xml_path (fst part)) && negb (is_hpf_path (fst part)) then None
  else match xml_parse_strict (snd part) with
       | None => None
       | Some root => href_in_tree root bid
       end.

(** The fallback pattern: the id, then lazily anything, then the group
    BinData, a slash or backslash, and a maximal non-empty run of characters
    other than quotes, the less-than sign and blanks.  Exact on ASCII text. *)
Definition is_path_char (c : ascii) : bool :=
  negb (Ascii.eqb c (ascii_of_nat 34) || Ascii.eqb c "'"%char || Ascii.eqb c "<"%char || is_space c).

Fixpoint take_path (s : string) : string :=
  match s with
  | EmptyString => EmptyString
  | String c s' => if is_path_char c then String c (take_path s') else EmptyString
  end.

Definition drop (n : nat) (s : string) : string :=
  substring n (String.length s - n) s.

Definition bindata_token_at (s : string) : option string :=
  if startswith s "BinData" then
    match drop 7 s with
    | String sep rest =>
        if (Ascii.eqb sep "/"%char || Ascii.eqb sep "\"%char) && nonempty (take_path rest)
        then Some ("BinData" ++ String sep (take_path rest))%string
        else None
    | EmptyString => None
    end
  else None.

Fixpoint first_bindata_token (s : string) : option string :=
  match bindata_token_at s with
  | Some t => Some t
  | None => match s with
            | EmptyString => None
            | String _ s' => first_bindata_token s'
            end
  end.

Fixpoint pat_search (bid s : string) : option string :=
  if startswith s bid then first_bindata_token (drop (String.length bid) s)
  else match s with
       | EmptyString => None
       | String _ s' => pat_search bid s'
       end.

Definition href_in_raw (bid : string) (part : string * bytes) : option string :=
  if negb (is_xml_path (fst part)) && negb (is_hpf_path (fst part)) then None
  else match pat_search bid (snd part) with
       | Some g => Some (replace_backslash g)
       | None => None
       end.

Definition resolve_bindata_href_for_binary_item (all_xml : dict bytes) (binary_id : string)
  : option string :=
  match first_some (href_in_part binary_id) all_xml with
  | Some href => Some href
  | None => first_some (href_in_raw binary_id) all_xml
  end.

(** [data_url.split(",", 1)], [None] when there is no comma. *)
Fixpoint split_comma (s : string) : option (string * string) :=
  match s with
  | EmptyString => None
  | String c s' =>
      if Ascii.eqb c ","%char then Some (EmptyString, s')
      else match split_comma s' with
           | Some (h, t) => Some (String c h, t)
           | None => None
           end
  end.

Fixpoint until_semicolon (s : string) : string :=
  match s with
  | EmptyString => EmptyString
  | String c s' => if Ascii.eqb c ";"%char then EmptyString else String c (until_semicolon s')
  end.

(** [re.match(r"data:([^;]+);base64", header)], group 1. *)
Definition match_header (header : string) : option string :=
  if startswith header "data:" then
    let rest := drop 5 header in
    let m := until_semicolon rest in
    if nonempty m && startswith (drop (String.length m) rest) ";base64"
    then Some m else None
  else None.

Definition decode_data_url (data_url : string) : outcome (string * bytes) :=
  if negb (startswith data_url "data:")
  then Raise (ValueError "Invalid dataUrl (must start with data:)")
  else
    match split_comma data_url with
    | None => Raise (ValueError "not enough values to unpack")
    | Some (header, b64) =>
        match match_header header with
        | None => Raise (ValueError "Invalid dataUrl header")
        | Some m =>
            match b64decode b64 with
            | None => Raise (ValueError "binascii.Error")
            | Some raw => Ok (lower (strip m), raw)
            end
        end
    end.

(** *** (G) the container rewrite *)

(** The split of the payload into [text_values] and [image_values]. *)
Definition classify (acc : dict string * dict (list (string * pyval)))
           (kv : string * pyval) : dict string * dict (list (string * pyval)) :=
  let '(text_values, image_values) := acc in
  let '(k, v) := kv in
  match v with
  | PyDict items _ =>
      if startswith k IMG_PREFIX && dict_mem items "dataUrl"
      then (text_values, dict_set image_values k items)
      else acc
  | PyStr _ | PyNum _ => (dict_set text_values k (py_str v), image_values)
  | PyOther _ => acc
  end.

Definition split_payload (payload : dict pyval)
  : dict string * dict (list (string * pyval)) :=
  fold_left classify payload ([], []).

(** The preload of the XML and HPF parts. *)
Definition preload (zin : zipfile) : dict bytes :=
  fold_left (fun all_xml entry =>
               if is_xml_path (fst entry) || is_hpf_path (fst entry)
               then dict_set all_xml (fst entry) (data_of zin entry)
               else all_xml)
            zin [].

(** What one part yields in the search for the picture of [slot]. *)
Definition pic_id_in_part (only_contents : bool) (slot : string)
           (part : string * bytes) : option string :=
  if only_contents && negb (startswith (fst part) "Contents/") then None
  else if negb (is_xml_path (fst part)) then None
  else match find_pic_binary_id_after_field (snd part) slot with
       | Some (Some bid) => if nonempty bid then Some bid else None
       | _ => None
       end.

Definition bindata_of_slot (all_xml : dict bytes) (only_contents : bool)
           (slot : string) : option string :=
  match first_some (pic_id_in_part only_contents slot) all_xml with
  | None => None
  | Some binary_id =>
      match resolve_bindata_href_for_binary_item all_xml binary_id with
      | Some href => if nonempty href then Some href else None
      | None => None
      end
  end.

Definition resolve_slots (all_xml : dict bytes) (only_contents : bool)
           (slots : list string) : dict string :=
  fold_left (fun slot_to_bindata slot =>
               match bindata_of_slot all_xml only_contents slot with
               | Some href => dict_set slot_to_bindata slot href
               | None => slot_to_bindata
               end)
            slots [].

Definition allowed_mime (mime : string) : bool :=
  endswith mime "png" || endswith mime "jpeg" || endswith mime "jpg" || endswith mime "bmp".

(** The decoding loop; the first exception leaves it. *)
Fixpoint decode_images (image_values : dict (list (string * pyval)))
         (slot_to_imgbytes : dict bytes) : outcome (dict bytes) :=
  match image_values with
  | [] => Ok slot_to_imgbytes
  | (slot, info) :: rest =>
      match dict_get info "dataUrl" with
      | None => Raise (ValueError "KeyError")
      | Some v =>
          match decode_data_url (py_str v) with
          | Raise e => Raise e
          | Ok (mime, raw) =>
              if allowed_mime mime
              then decode_images rest (dict_set slot_to_imgbytes slot raw)
              else Raise (ValueError (slot ++ ": unsupported image mime: " ++ mime))
          end
      end
  end.

Definition maybe_related (data : bytes) (text_values : dict string)
           (image_values : dict (list (string * pyval))) : bool :=
  existsb (contains data) (dict_keys text_values) ||
  existsb (contains data) (dict_keys image_values).

(** The bytes written for a candidate XML part. *)
Definition rewrite_xml (strip : bool) (data : bytes) (text_values : dict string) : bytes :=
  match fill_fields_in_xml data text_values with
  | None => data
  | Some (new_data, changed1) =>
      match (if strip then strip_clickhere_fields new_data
             else Some (new_data, false)) with
      | None => data
      | Some (new_data2, changed2) =>
          if changed1 || changed2 then new_data2 else data
      end
  end.

(** The bytes written for one entry of the source archive. *)
Definition rewrite_entry (zin : zipfile) (only_contents : bool)
           (text_values : dict string)
           (image_values : dict (list (string * pyval)))
           (slot_to_bindata : dict string) (slot_to_imgbytes : dict bytes)
           (entry : string * bytes) : bytes :=
  let name := fst entry in
  let data := data_of zin entry in
  if is_xml_path name && (negb only_contents || startswith name "Contents/") then
    if maybe_related data text_values image_values
    then rewrite_xml STRIP_CLICK_HERE data text_values
    else data
  else if startswith name "BinData/" then
    match find (fun sp => String.eqb (snd sp) name && dict_mem slot_to_imgbytes (fst sp))
               slot_to_bindata with
    | Some (slot, _) =>
        match dict_get slot_to_imgbytes slot with Some raw => raw | None => data end
    | None => data
    end
  else data.

(** [input_hwpx] is [None] when the archive cannot be opened. *)
Definition generate_submit_hwpx (input_hwpx : option zipfile) (payload : dict pyval)
           (only_contents : bool) : outcome zipfile :=
  let '(text_values, image_values) := split_payload payload in
  match input_hwpx with
  | None => Raise SourceUnreadable
  | Some zin =>
      let all_xml := preload zin in
      let slot_to_bindata := resolve_slots all_xml only_contents (dict_keys image_values) in
      match decode_images image_values [] with
      | Raise e => Raise e
      | Ok slot_to_imgbytes =>
          Ok (map (fun entry =>
                     (fst entry,
                      rewrite_entry zin only_contents text_values image_values
                                    slot_to_bindata slot_to_imgbytes entry))
                  zin)
      end
  end.
End Bytes.

End Week03a.

(* ------------------------------------------------------------------------- *)
(** ** Notions used in the statements, and sample documents *)
(* ------------------------------------------------------------------------- *)

(** Induction on element trees, through the lists of children. *)
Section ElementInd.
Variable P : element -> Prop.
Hypothesis step : forall i t a x cs tl,
    Forall P cs -> P (Element i t a x cs tl).

Fixpoint element_rect' (e : element) : P e :=
  let 'Element i t a x cs tl := e in
  step i t a x cs tl
       ((fix all (l : list element) : Forall P l :=
           match l with
           | [] => Forall_nil P
           | c :: l' => Forall_cons c (element_rect' c) (all l')
           end) cs).
End ElementInd.

(** [key e] is everything about an element that a text assignment to a text
    leaf cannot change: its identity, tag, attributes, tail, the size of its
    subtree and, unless it is a text leaf, its text. *)
Definition key (e : element)
  : nat * string * list (string * string) * option string * nat * option (option string) :=
  (uid e, tag e, attrib e, tail e, List.length (descendants e),
   if is_tag (hp "t") e then None else Some (text e)).

(** Two trees with the same markup. *)
Definition same_markup (r r' : element) : Prop :=
  map key (iter r') = map key (iter r).

(** End markers without children, as the marker contract has them. *)
Definition ends_are_leaves (r : element) : Prop :=
  forall e, In e (iter r) -> is_tag (hp "fieldEnd") e = true -> children e = [].

(** The identities in [us] name text leaves only. *)
Definition leafy (r : element) (us : list nat) : Prop :=
  forall e, In e (iter r) -> In (uid e) us -> is_tag (hp "t") e = true.

(** What a step may do to the state: keep the markup, leave every text
    outside [us] alone, and either change nothing or raise the flag. *)
Definition step_ok (us : list nat) (st st' : element * bool) : Prop :=
  same_markup (fst st) (fst st') /\
  (forall w, ~ In w us -> text_of (fst st') w = text_of (fst st) w) /\
  (st' = st \/ snd st' = true).

(** The value the guards of the week03a loop body let through for a begin
    marker, if any. *)
Definition injected (values : dict string) (fb : element) : option string :=
  match get fb "name", get fb "id" with
  | Some slot_name, Some begin_id =>
      if negb (nonempty slot_name) || negb (nonempty begin_id) then None
      else match dict_get values slot_name with
           | None => None
           | Some v => if startswith slot_name Week03a.IMG_PREFIX then None else Some v
           end
  | _, _ => None
  end.

(** The identities of the text leaves collected for a begin marker. *)
Definition leaf_ids (r : element) (fb : element) : list nat :=
  match get fb "id" with
  | Some bid =>
      match first_end r (uid fb) bid with
      | Some en => map uid (t_nodes r (uid fb) bid en)
      | None => []
      end
  | None => []
  end.

(** The leaves the injector may write for a begin marker. *)
Definition touched (values : dict string) (r : element) (fb : element) : list nat :=
  match injected values fb with
  | Some _ => leaf_ids r fb
  | None => []
  end.

(** A sample section. *)
Module Demo.

Definition fb (u : nat) (name id type : string) : element :=
  Element u (hp "fieldBegin") [("id", id); ("type", type); ("name", name)] None [] None.
Definition fe (u : nat) (ref : string) : element :=
  Element u (hp "fieldEnd") [("beginIDRef", ref)] None [] None.
Definition t (u : nat) (s : string) : element :=
  Element u (hp "t") [] (Some s) [] None.
Definition node (u : nat) (tg : string) (cs : list element) : element :=
  Element u tg [] None cs None.
Definition pic (u v : nat) (ref : string) : element :=
  node u (hp "pic") [Element v (hc "img") [("binaryItemIDRef", ref)] None [] None].

(** NAME twice (once in a table cell, split over two runs), DATE without an
    end marker, NOTE without a text leaf, IMG_PHOTO before a picture. *)
Definition section0 : element :=
  node 0 (hp "sec")
    [ node 1 (hp "p")
        [ fb 2 "NAME" "11" "CLICK_HERE"; t 3 "name here"; fe 4 "11" ];
      node 5 (hp "tbl")
        [ node 6 (hp "tc")
            [ fb 7 "NAME" "12" "CLICK_HERE";
              node 8 (hp "run") [ t 9 "na" ];
              node 10 (hp "run") [ t 11 "me" ];
              fe 12 "12" ] ];
      node 13 (hp "p")
        [ fb 14 "DATE" "13" "CLICK_HERE"; t 15 "today" ];
      node 16 (hp "p")
        [ fb 17 "NOTE" "14" "CLICK_HERE"; fe 18 "14" ];
      node 19 (hp "p")
        [ fb 20 "IMG_PHOTO" "15" "CLICK_HERE"; t 21 "photo"; fe 22 "15";
          pic 23 24 "image1" ];
      node 25 (hp "p")
        [ fb 26 "PAGE" "16" "PAGE_NUM"; t 27 "1"; fe 28 "16" ] ].

End Demo.


(** A serialiser and a base64 decoder for the sample documents. *)
Module DemoLib.

Definition dq : string := String (ascii_of_nat 34) EmptyString.
Definition nl : string := String (ascii_of_nat 10) EmptyString.

Definition qname (tg : string) : string :=
  let hpp := ("{" ++ HP_NS ++ "}")%string in
  let hcp := ("{" ++ HC_NS ++ "}")%string in
  if startswith tg hpp
  then ("hp:" ++ substring (String.length hpp) (String.length tg) tg)%string
  else if startswith tg hcp
  then ("hc:" ++ substring (String.length hcp) (String.length tg) tg)%string
  else tg.

Definition write_attrs (a : list (string * string)) : string :=
  fold_right (fun kv acc => (" " ++ fst kv ++ "=" ++ dq ++ snd kv ++ dq ++ acc)%string)
             EmptyString a.

(** Serialisation of an element whose texts hold no markup characters. *)
Fixpoint write (decl : string) (e : element) : string :=
  let 'Element _ tg a x cs tl := e in
  let body :=
    (or_empty x ++
     (fix go (l : list element) : string :=
        match l with
        | [] => EmptyString
        | c :: l' => write EmptyString c ++ go l'
        end) cs)%string in
  ("<" ++ qname tg ++ decl ++ write_attrs a ++
   (if nonempty body then ">" ++ body ++ "</" ++ qname tg ++ ">" else "/>") ++
   or_empty tl)%string.

Definition xmlns : string :=
  (" xmlns:hp=" ++ dq ++ HP_NS ++ dq ++ " xmlns:hc=" ++ dq ++ HC_NS ++ dq)%string.

Definition serialize (root : element) : bytes :=
  ("<?xml version='1.0' encoding='UTF-8'?>" ++ nl ++ write xmlns root)%string.

Fixpoint nodupb (l : list nat) : bool :=
  match l with
  | [] => true
  | a :: l' => negb (existsb (Nat.eqb a) l') && nodupb l'
  end.

(** The sextet of a base64 character. *)
Definition sextet (c : ascii) : option nat :=
  let n := nat_of_ascii c in
  if Nat.leb 65 n && Nat.leb n 90 then Some (n - 65)
  else if Nat.leb 97 n && Nat.leb n 122 then Some (n - 71)
  else if Nat.leb 48 n && Nat.leb n 57 then Some (n + 4)
  else if Nat.eqb n 43 then Some 62
  else if Nat.eqb n 47 then Some 63
  else None.

Fixpoint sextets (s : string) : list nat :=
  match s with
  | EmptyString => []
  | String c s' =>
      match sextet c with
      | Some v => v :: sextets s'
      | None => sextets s'
      end
  end.

Definition byte_of (n : nat) : string := String (ascii_of_nat (n mod 256)) EmptyString.

Fixpoint octets (fuel : nat) (l : list nat) : option string :=
  match fuel with
  | 0 => None
  | S fuel' =>
      match l with
      | [] => Some EmptyString
      | [_] => None
      | [a; b] => Some (byte_of (a * 4 + b / 16))
      | [a; b; c] => Some (byte_of (a * 4 + b / 16) ++ byte_of (b * 16 + c / 4))%string
      | a :: b :: c :: d :: l' =>
          match octets fuel' l' with
          | Some rest =>
              Some (byte_of (a * 4 + b / 16) ++ byte_of (b * 16 + c / 4) ++
                    byte_of (c * 64 + d) ++ rest)%string
          | None => None
          end
      end
  end.

(** Standard-alphabet decoding of correctly padded input. *)
Definition decode64 (s : string) : option bytes :=
  let l := sextets s in octets (S (List.length l)) l.

End DemoLib.

(** An element without child elements. *)
Definition childless (e : element) : bool :=
  match children e with [] => true | _ => false end.

(** A sample container, with the lxml that reads its parts. *)
Module DemoZip.

Definition content_hpf : element :=
  Demo.node 0 "package"
    [ Demo.node 1 "manifest"
        [ Element 2 "item"
                  [("id", "image1"); ("href", "BinData/image1.png");
                   ("media-type", "image/png")] None [] None ] ].

Definition header : element :=
  Demo.node 0 "head" [ Element 1 "style" [("id", "0")] (Some "NAME") [] None ].

(** The documents lxml is asked to read here. *)
Definition docs : list element := [Demo.section0; content_hpf; header].

Definition parse (b : bytes) : option element :=
  find (fun d => String.eqb (DemoLib.serialize d) b) docs.

Definition lxml : Lxml :=
  {| fromstring := parse;
     tostring := fun r => Some (DemoLib.serialize r) |}.

Definition base64 : Base64 := {| b64decode := DemoLib.decode64 |}.

Definition section0_xml : bytes := DemoLib.serialize Demo.section0.

Definition template : zipfile :=
  [ ("mimetype", "application/hwp+zip");
    ("Contents/content.hpf", DemoLib.serialize content_hpf);
    ("Contents/header.xml", DemoLib.serialize header);
    ("Contents/section0.xml", section0_xml);
    ("BinData/image1.png", "old picture");
    ("Preview/PrvText.txt", "preview") ].

(** The same container with an unreadable section. *)
Definition broken : zipfile :=
  [ ("mimetype", "application/hwp+zip");
    ("Contents/content.hpf", DemoLib.serialize content_hpf);
    ("Contents/header.xml", DemoLib.serialize header);
    ("Contents/section0.xml", "<hp:sec");
    ("BinData/image1.png", "old picture");
    ("Preview/PrvText.txt", "preview") ].

Definition photo (data_url : string) : pyval :=
  PyDict [("filename", PyStr "a.png"); ("dataUrl", PyStr data_url)] "{...}".

Definition png_url : string := "data:image/png;base64,aGVsbG8=".
Definition gif_url : string := "data:image/gif;base64,aGVsbG8=".

End DemoZip.

(** An OUTER placeholder around an INNER one. *)
Definition nested : element :=
  Demo.node 0 (hp "p")
    [ Demo.fb 1 "OUTER" "1" "CLICK_HERE"; Demo.fb 2 "INNER" "2" "CLICK_HERE";
      Demo.t 3 "inner text"; Demo.fe 4 "2"; Demo.fe 5 "1" ].

(** The leaves collected for [fb] already read what the injector would
    write: no content of the occurrence would change. *)
Definition settled (values : dict string) (r : element) (fb : element) : Prop :=
  match injected values fb, get fb "id" with
  | Some v, Some bid =>
      match first_end r (uid fb) bid with
      | Some en =>
          match t_nodes r (uid fb) bid en with
          | t0 :: extras =>
              or_empty (text_of r (uid t0)) = v /\
              Forall (fun x => or_empty (text_of r (uid x)) = EmptyString) extras
          | [] => True
          end
      | None => True
      end
  | _, _ => True
  end.

(** The bytes of a part of the produced container. *)
Definition part (o : outcome zipfile) (name : string) : option bytes :=
  match o with
  | Ok z => zread z name
  | Raise _ => None
  end.

(** The part that takes the payload of an image slot resolved to [href]. *)
Definition is_asset (only_contents : bool) (href name : string) : bool :=
  negb (Week03a.is_xml_path name && (negb only_contents || startswith name "Contents/")) &&
  startswith name "BinData/" && String.eqb href name.



Section Parsing.
Context `{Lxml}.

(** The strict parser accepts the bytes. *)
Definition parses (b : bytes) : bool :=
  match Week03a.xml_parse_strict b with Some _ => true | None => false end.
End Parsing.

(** A part the rewrite hands to the injector when it looks related. *)
Definition candidate (only_contents : bool) (name : string) : bool :=
  Week03a.is_xml_path name && (negb only_contents || startswith name "Contents/").

(** A text value and a PNG image. *)
Definition demo_payload : dict pyval :=
  [("NAME", PyStr "Alice"); ("IMG_PHOTO", DemoZip.photo DemoZip.png_url)].

(** What an element is on its own: identity, tag, attributes, text, tail. *)
Definition base (e : element)
  : nat * string * list (string * string) * option string * option string :=
  (uid e, tag e, attrib e, text e, tail e).

(** The children of a node after [remove_all]. *)
Fixpoint remove_list (p : element -> bool) (l : list element) : list element :=
  match l with
  | [] => []
  | c :: l' =>
      if p c then remove_list p l' else Week03a.remove_all p c :: remove_list p l'
  end.

(** The childless element with the given tag, attributes, text and tail. *)
Definition of_base
  (b : nat * string * list (string * string) * option string * option string) : element :=
  let '(u, tg, a, x, tl) := b in Element u tg a x [] tl.

(** An element the strip pass keeps. *)
Definition kept (ids : list string) (e : element) : bool :=
  negb (Week03a.is_clickhere_begin e) && negb (Week03a.is_end_in ids e).

(** Two placeholder pairs and one pair of another type. *)
Definition paired : element :=
  Demo.node 0 (hp "sec")
    [ Demo.node 1 (hp "p")
        [ Demo.fb 2 "NAME" "11" "CLICK_HERE"; Demo.t 3 "name"; Demo.fe 4 "11" ];
      Demo.node 5 (hp "p")
        [ Demo.fb 6 "PAGE" "16" "PAGE_NUM"; Demo.t 7 "1"; Demo.fe 8 "16" ];
      Demo.node 9 (hp "p")
        [ Demo.fb 10 "NOTE" "14" "CLICK_HERE"; Demo.fe 11 "14" ] ].

(** [c in s] for a character. *)
Fixpoint mem_char (c : ascii) (s : string) : bool :=
  match s with
  | EmptyString => false
  | String a s' => Ascii.eqb a c || mem_char c s'
  end.

(** What the payload split keeps of one entry as a text value. *)
Definition text_entry (kv : string * pyval) : list (string * string) :=
  match snd kv with
  | PyStr _ | PyNum _ => [(fst kv, py_str (snd kv))]
  | _ => []
  end.

(** What the payload split keeps of one entry as an image submission. *)
Definition image_entry (kv : string * pyval) : list (string * list (string * pyval)) :=
  match snd kv with
  | PyDict items _ =>
      if startswith (fst kv) Week03a.IMG_PREFIX && dict_mem items "dataUrl"
      then [(fst kv, items)] else []
  | _ => []
  end.

Section Acceptable.
Context `{Base64}.

(** An image submission the rewrite accepts: its data URL decodes and the
    declared media type is allow-listed. *)
Definition acceptable (submission : string * list (string * pyval)) : Prop :=
  exists v mime raw,
    dict_get (snd submission) "dataUrl" = Some v /\
    Week03a.decode_data_url (py_str v) = Ok (mime, raw) /\
    Week03a.allowed_mime mime = true.
End Acceptable.

Section Directory.
Context `{Lxml}.

(** The occurrences one entry of the archive adds to the slot directory. *)
Definition entry_mappings (zf : zipfile) (only_contents : bool)
           (entry : string * bytes) : list Week03a.SlotMapping :=
  if candidate only_contents (fst entry) then
    match Week03a.extract_slot_mappings_from_xml (Week03a.data_of zf entry) (fst entry) with
    | Some mappings => mappings
    | None => []
    end
  else [].

(** All occurrences, in scan order. *)
Definition scanned (zf : zipfile) (only_contents : bool) : list Week03a.SlotMapping :=
  flat_map (entry_mappings zf only_contents) zf.
End Directory.

Section Resolution.
Context `{Lxml}.

(** What the resolution loop adds for one slot. *)
Definition resolved_entry (all_xml : dict bytes) (oc : bool) (slot : string)
  : list (string * string) :=
  match Week03a.bindata_of_slot all_xml oc slot with
  | Some href => [(slot, href)]
  | None => []
  end.
End Resolution.

(** The occurrences of one name. *)
Definition named (name : string) (ms : list Week03a.SlotMapping)
  : list Week03a.SlotMapping :=
  filter (fun m => String.eqb (Week03a.slot_name m) name) ms.

(** A directory entry: absent when the name has no occurrence. *)
Definition group (name : string) (ms : list Week03a.SlotMapping)
  : option (list Week03a.SlotMapping) :=
  match named name ms with
  | [] => None
  | l => Some l
  end.

(** A begin marker on which the two injectors do the same: when its name
    and id are non-empty, the name has a value and no IMG_ prefix, and
    either no end marker exists or some text leaf is collected. *)
Definition agreeable (values : dict string) (r : element) (fb : element) : Prop :=
  match get fb "name", get fb "id" with
  | Some slot_name, Some begin_id =>
      nonempty slot_name && nonempty begin_id = true ->
      dict_get values slot_name <> None /\
      startswith slot_name Week03a.IMG_PREFIX = false /\
      (first_end r (uid fb) begin_id = None \/ leaf_ids r fb <> [])
  | _, _ => True
  end.

(* ========================================================================= *)
(** * Properties *)
(* ========================================================================= *)

(** ** Strings *)

Lemma nonempty_true (s : string) : nonempty s = true <-> s <> EmptyString.
Proof.
  unfold nonempty. destruct (String.eqb_spec s EmptyString); simpl; split; congruence.
Qed.

Lemma nonempty_false (s : string) : nonempty s = false <-> s = EmptyString.
Proof.
  unfold nonempty. destruct (String.eqb_spec s EmptyString); simpl; split; congruence.
Qed.

(** ** What a text assignment leaves alone *)

Lemma uid_set_text u s e : uid (set_text u s e) = uid e.
Proof. destruct e; reflexivity. Qed.

Lemma tag_set_text u s e : tag (set_text u s e) = tag e.
Proof. destruct e; reflexivity. Qed.

Lemma attrib_set_text u s e : attrib (set_text u s e) = attrib e.
Proof. destruct e; reflexivity. Qed.

Lemma tail_set_text u s e : tail (set_text u s e) = tail e.
Proof. destruct e; reflexivity. Qed.

Lemma children_set_text u s e :
  children (set_text u s e) = map (set_text u s) (children e).
Proof. destruct e; reflexivity. Qed.

Lemma text_set_text u s e :
  text (set_text u s e) = if Nat.eqb (uid e) u then s else text e.
Proof. destruct e; reflexivity. Qed.

Lemma iter_set_text u s e : iter (set_text u s e) = map (set_text u s) (iter e).
Proof.
  induction e as [i t a x cs tl IH] using element_rect'.
  simpl. f_equal.
  induction IH as [|c cs' Hc _ IHcs]; simpl; [reflexivity|].
  rewrite map_app, Hc, IHcs. reflexivity.
Qed.

Lemma descendants_set_text u s e :
  descendants (set_text u s e) = map (set_text u s) (descendants e).
Proof.
  pose proof (iter_set_text u s e) as E.
  destruct e; simpl in *. now inversion E.
Qed.

(** ** The markup of a tree *)

Lemma key_uid e e' : key e = key e' -> uid e = uid e'.
Proof. unfold key. congruence. Qed.

Lemma key_tag e e' : key e = key e' -> tag e = tag e'.
Proof. unfold key. congruence. Qed.

Lemma key_attrib e e' : key e = key e' -> attrib e = attrib e'.
Proof. unfold key. congruence. Qed.

Lemma key_size e e' :
  key e = key e' -> List.length (descendants e) = List.length (descendants e').
Proof. unfold key. congruence. Qed.

Lemma key_is_tag t e e' : key e = key e' -> is_tag t e = is_tag t e'.
Proof. intros K. unfold is_tag. now rewrite (key_tag _ _ K). Qed.

Lemma key_get e e' n : key e = key e' -> get e n = get e' n.
Proof. intros K. unfold get. now rewrite (key_attrib _ _ K). Qed.

Lemma key_has_attr e e' n : key e = key e' -> has_attr e n = has_attr e' n.
Proof. intros K. unfold has_attr. now rewrite (key_get _ _ n K). Qed.

Lemma key_attr_eq e e' n v : key e = key e' -> attr_eq e n v = attr_eq e' n v.
Proof. intros K. unfold attr_eq. now rewrite (key_get _ _ n K). Qed.

Lemma key_text e e' :
  key e = key e' -> is_tag (hp "t") e = false -> text e = text e'.
Proof.
  intros K Ht. pose proof (key_is_tag (hp "t") _ _ K) as Ht'.
  unfold key in K. rewrite <- Ht', Ht in K. congruence.
Qed.

Lemma map_key_cons e l e' l' :
  map key (e :: l) = map key (e' :: l') -> key e = key e' /\ map key l = map key l'.
Proof.
  simpl. intros E. split.
  - exact (f_equal (hd (key e)) E).
  - exact (f_equal (@List.tl _) E).
Qed.

Lemma map_uid_of_key l l' : map key l = map key l' -> map uid l = map uid l'.
Proof.
  revert l'. induction l as [|e l IH]; intros [|e' l'] E; simpl in *; try discriminate; auto.
  apply map_key_cons in E as [K E']. rewrite (key_uid _ _ K), (IH _ E'). reflexivity.
Qed.

Lemma same_markup_refl r : same_markup r r.
Proof. reflexivity. Qed.

Lemma same_markup_trans r1 r2 r3 :
  same_markup r1 r2 -> same_markup r2 r3 -> same_markup r1 r3.
Proof. unfold same_markup. congruence. Qed.

Lemma same_markup_wf r r' : same_markup r r' -> wf r -> wf r'.
Proof.
  unfold same_markup, wf. intros E W. now rewrite (map_uid_of_key _ _ E).
Qed.

(** Queries that only look at the markup. *)

Lemma following_in_key u l l' :
  map key l = map key l' ->
  map key (following_in u l) = map key (following_in u l').
Proof.
  revert l'. induction l as [|e l IH]; intros [|e' l'] E; simpl in *; try discriminate; auto.
  apply map_key_cons in E as [K E'].
  rewrite <- (key_uid _ _ K), <- (key_size _ _ K).
  destruct (Nat.eqb (uid e) u).
  - rewrite <- !skipn_map. now rewrite E'.
  - now apply IH.
Qed.

Lemma find_key (p p' : element -> bool) l l' :
  map key l = map key l' ->
  (forall e e', key e = key e' -> p e = p' e') ->
  option_map key (find p l) = option_map key (find p' l').
Proof.
  intros E Hp. revert l' E.
  induction l as [|e l IH]; intros [|e' l'] E; simpl in *; try discriminate; auto.
  apply map_key_cons in E as [K E']. rewrite <- (Hp _ _ K).
  destruct (p e); simpl; [now rewrite K | now apply IH].
Qed.

Lemma filter_key (p p' : element -> bool) l l' :
  map key l = map key l' ->
  (forall e e', In e l -> In e' l' -> key e = key e' -> p e = p' e') ->
  map key (filter p l) = map key (filter p' l').
Proof.
  revert l'. induction l as [|e l IH]; intros [|e' l'] E Hp; simpl in *; try discriminate; auto.
  apply map_key_cons in E as [K E']. rewrite <- (Hp e e') by auto.
  destruct (p e); simpl; [rewrite K; f_equal|]; apply IH; auto.
Qed.

Lemma descendants_key r r' :
  map key (iter r) = map key (iter r') ->
  map key (descendants r) = map key (descendants r').
Proof. destruct r, r'; simpl. unfold descendants. simpl. now inversion 1. Qed.

Lemma field_begins_key r r' :
  same_markup r r' -> map key (field_begins r') = map key (field_begins r).
Proof.
  intros E. unfold field_begins. apply filter_key.
  - now apply descendants_key.
  - intros e e' _ _ K.
    now rewrite (key_is_tag _ _ _ K), (key_has_attr _ _ "name" K), (key_has_attr _ _ "id" K).
Qed.

Lemma is_end_for_key bid e e' : key e = key e' -> is_end_for bid e = is_end_for bid e'.
Proof.
  intros K. unfold is_end_for.
  now rewrite (key_is_tag _ _ _ K), (key_attr_eq _ _ _ _ K).
Qed.

Lemma first_end_key r r' u bid :
  same_markup r r' ->
  option_map key (first_end r' u bid) = option_map key (first_end r u bid).
Proof.
  intros E. unfold first_end, following. apply find_key.
  - now apply following_in_key.
  - intros. now apply is_end_for_key.
Qed.

Lemma append_empty_r (s : string) : (s ++ EmptyString)%string = s.
Proof. induction s; simpl; congruence. Qed.

Lemma string_value_leaf e : children e = [] -> string_value e = or_empty (text e).
Proof. destruct e; simpl. intros ->. apply append_empty_r. Qed.

Lemma iter_nonempty e : iter e <> [].
Proof. destruct e; discriminate. Qed.

Lemma size_zero_children e : List.length (descendants e) = 0 -> children e = [].
Proof.
  unfold descendants. destruct (children e) as [|c cs]; [reflexivity|].
  simpl. rewrite length_app. destruct c; simpl. discriminate.
Qed.

Lemma key_children_nil e e' : key e = key e' -> children e = [] -> children e' = [].
Proof.
  intros K C. apply size_zero_children. rewrite <- (key_size _ _ K).
  unfold descendants. now rewrite C.
Qed.

Lemma following_in_incl u l e : In e (following_in u l) -> In e l.
Proof.
  induction l as [|a l IH]; simpl; [easy|].
  destruct (Nat.eqb (uid a) u); intros Hin.
  - right. rewrite <- (firstn_skipn (List.length (descendants a)) l).
    apply in_or_app. now right.
  - right. now apply IH.
Qed.

Lemma following_incl r u e : In e (following r u) -> In e (iter r).
Proof. apply following_in_incl. Qed.

Lemma tag_t_not_end e : is_tag (hp "fieldEnd") e = true -> is_tag (hp "t") e = false.
Proof.
  unfold is_tag. intros E. apply String.eqb_eq in E. rewrite E. reflexivity.
Qed.

Lemma is_end_for_tag bid e : is_end_for bid e = true -> is_tag (hp "fieldEnd") e = true.
Proof. unfold is_end_for. intros E. now apply andb_prop in E. Qed.

(** End markers with the same markup have the same string-value. *)
Lemma end_string_value e e' :
  key e = key e' -> is_tag (hp "fieldEnd") e = true -> children e = [] ->
  string_value e = string_value e'.
Proof.
  intros K T C.
  rewrite (string_value_leaf e C), (string_value_leaf e' (key_children_nil _ _ K C)).
  now rewrite (key_text _ _ K (tag_t_not_end _ T)).
Qed.

Lemma first_end_in r u bid e :
  first_end r u bid = Some e -> In e (iter r) /\ is_end_for bid e = true.
Proof.
  unfold first_end. intros F. apply find_some in F as [I E].
  split; [now apply following_incl in I | exact E].
Qed.

Lemma t_nodes_key r r' u bid en en' :
  same_markup r r' -> ends_are_leaves r ->
  key en = key en' -> In en (iter r) -> is_tag (hp "fieldEnd") en = true ->
  map key (t_nodes r' u bid en') = map key (t_nodes r u bid en).
Proof.
  intros E L Ken Ien Ten. unfold t_nodes. apply filter_key.
  - unfold following. now apply following_in_key.
  - intros t' t _ _ K. rewrite (key_is_tag _ _ _ K). f_equal.
    pose proof (first_end_key r r' (uid t) bid E) as F.
    rewrite (key_uid _ _ K).
    destruct (first_end r (uid t) bid) as [e|] eqn:Fe;
      destruct (first_end r' (uid t) bid) as [e'|] eqn:Fe'; simpl in F; try discriminate; auto.
    assert (F' : key e' = key e) by (simpl in F; congruence). clear F.
    apply first_end_in in Fe as [Ie Ee].
    pose proof (is_end_for_tag _ _ Ee) as Te.
    rewrite <- (end_string_value e e' (eq_sym F') Te (L e Ie Te)).
    rewrite <- (end_string_value en en' Ken Ten (L en Ien Ten)).
    reflexivity.
Qed.

(** ** Reading a text after an assignment *)

Lemma find_map_uid (f : element -> element) v l :
  (forall e, uid (f e) = uid e) ->
  find (fun e => Nat.eqb (uid e) v) (map f l) =
  option_map f (find (fun e => Nat.eqb (uid e) v) l).
Proof.
  intros Hf. induction l as [|a l IH]; simpl; [reflexivity|].
  rewrite Hf. destruct (Nat.eqb (uid a) v); [reflexivity | exact IH].
Qed.

Lemma lookup_set_text u s r v :
  lookup (set_text u s r) v = option_map (set_text u s) (lookup r v).
Proof.
  unfold lookup. rewrite iter_set_text. apply find_map_uid. apply uid_set_text.
Qed.

Lemma lookup_uid r v e : lookup r v = Some e -> uid e = v /\ In e (iter r).
Proof.
  unfold lookup. intros F. apply find_some in F as [I E].
  apply Nat.eqb_eq in E. auto.
Qed.

Lemma lookup_present r v : In v (map uid (iter r)) -> exists e, lookup r v = Some e.
Proof.
  unfold lookup. intros I. apply in_map_iff in I as (e & E & I).
  destruct (find (fun e0 => Nat.eqb (uid e0) v) (iter r)) as [x|] eqn:F; [eauto|].
  apply (find_none _ _ F) in I. apply Nat.eqb_neq in I. contradiction.
Qed.

Lemma text_of_set_text_other u s r v :
  v <> u -> text_of (set_text u s r) v = text_of r v.
Proof.
  intros N. unfold text_of. rewrite lookup_set_text.
  destruct (lookup r v) as [e|] eqn:F; simpl; [|reflexivity].
  rewrite text_set_text. apply lookup_uid in F as [-> _].
  apply Nat.eqb_neq in N. now rewrite N.
Qed.

Lemma text_of_set_text_same u s r :
  In u (map uid (iter r)) -> text_of (set_text u s r) u = s.
Proof.
  intros I. unfold text_of. rewrite lookup_set_text.
  destruct (lookup_present r u I) as [e F]. rewrite F. simpl.
  rewrite text_set_text. apply lookup_uid in F as [-> _].
  now rewrite Nat.eqb_refl.
Qed.

Lemma text_of_absent r u : ~ In u (map uid (iter r)) -> text_of r u = None.
Proof.
  intros N. unfold text_of. destruct (lookup r u) as [e|] eqn:F; [|reflexivity].
  apply lookup_uid in F as [E I]. exfalso. apply N. rewrite <- E. now apply in_map.
Qed.

(** Assigning the text of a text leaf keeps the markup. *)
Lemma set_text_same_markup u s r :
  (forall e, In e (iter r) -> uid e = u -> is_tag (hp "t") e = true) ->
  same_markup r (set_text u s r).
Proof.
  intros Hu. unfold same_markup. rewrite iter_set_text, map_map.
  apply map_ext_in. intros e I. unfold key.
  rewrite uid_set_text, tag_set_text, attrib_set_text, tail_set_text,
    descendants_set_text, length_map, text_set_text.
  unfold is_tag at 1. rewrite tag_set_text. fold (is_tag (hp "t") e).
  destruct (Nat.eqb_spec (uid e) u) as [E|]; [|reflexivity].
  now rewrite (Hu e I E).
Qed.

Lemma uid_inj_in l a b :
  NoDup (map uid l) -> In a l -> In b l -> uid a = uid b -> a = b.
Proof.
  induction l as [|x l IH]; simpl; [easy|].
  intros N Ia Ib E. inversion N as [|? ? Nx Nl]; subst.
  destruct Ia as [<-|Ia], Ib as [<-|Ib]; auto.
  - exfalso. apply Nx. rewrite E. now apply in_map.
  - exfalso. apply Nx. rewrite <- E. now apply in_map.
Qed.

Lemma leafy_markup r r' us : same_markup r r' -> leafy r us -> leafy r' us.
Proof.
  unfold same_markup, leafy. intros E L e' I U.
  apply (in_map key) in I. rewrite E in I. apply in_map_iff in I as (e & K & I).
  rewrite <- (key_is_tag _ _ _ K). apply L; [exact I|].
  now rewrite (key_uid _ _ K).
Qed.

Lemma leafy_cons r u us : leafy r (u :: us) -> leafy r us.
Proof. intros L e I U. apply L; simpl; auto. Qed.

Lemma t_nodes_in r u bid en t :
  In t (t_nodes r u bid en) -> In t (iter r) /\ is_tag (hp "t") t = true.
Proof.
  unfold t_nodes. intros I. apply filter_In in I as [I P].
  apply andb_prop in P as [P _]. split; [now apply following_incl in I | exact P].
Qed.

Lemma t_nodes_leafy r u bid en :
  wf r -> leafy r (map uid (t_nodes r u bid en)).
Proof.
  intros W e I U. apply in_map_iff in U as (t & E & It).
  apply t_nodes_in in It as [It T].
  now rewrite (uid_inj_in _ _ _ W I It (eq_sym E)).
Qed.

Lemma following_in_suffix u l : exists pre, l = pre ++ following_in u l.
Proof.
  induction l as [|a l [pre IH]]; simpl.
  - now exists [].
  - destruct (Nat.eqb (uid a) u).
    + exists (a :: firstn (List.length (descendants a)) l). simpl.
      now rewrite firstn_skipn.
    + exists (a :: pre). simpl. now rewrite <- IH.
Qed.

Lemma NoDup_map_uid_filter (p : element -> bool) l :
  NoDup (map uid l) -> NoDup (map uid (filter p l)).
Proof.
  induction l as [|a l IH]; simpl; [auto|].
  intros N. inversion N as [|? ? Na Nl]; subst.
  destruct (p a); simpl; auto.
  constructor; auto. intros I. apply Na.
  apply in_map_iff in I as (x & E & I). apply filter_In in I as [I _].
  rewrite <- E. now apply in_map.
Qed.

Lemma following_nodup r u : wf r -> NoDup (map uid (following r u)).
Proof.
  unfold wf, following. intros W.
  destruct (following_in_suffix u (iter r)) as [pre E].
  rewrite E, map_app in W. now apply NoDup_app_remove_l in W.
Qed.

Lemma t_nodes_nodup r u bid en : wf r -> NoDup (map uid (t_nodes r u bid en)).
Proof.
  intros W. unfold t_nodes. apply NoDup_map_uid_filter. now apply following_nodup.
Qed.

(** ** One step of the week03a injector *)

Lemma step_ok_refl us st : step_ok us st st.
Proof. repeat split; auto. Qed.

Lemma step_ok_trans us us' st1 st2 st3 :
  step_ok us st1 st2 -> step_ok us' st2 st3 -> step_ok (us ++ us') st1 st3.
Proof.
  intros (M1 & F1 & C1) (M2 & F2 & C2). repeat split.
  - eapply same_markup_trans; eauto.
  - intros w N. rewrite F2, F1; auto; intros I; apply N, in_or_app; auto.
  - destruct C2 as [->|C2]; auto.
Qed.

Lemma step_ok_weaken us us' st st' :
  incl us us' -> step_ok us st st' -> step_ok us' st st'.
Proof. intros I (M & F & C). repeat split; auto. Qed.

Lemma blank_extra_ok st x :
  leafy (fst st) [uid x] ->
  step_ok [uid x] st (Week03a.blank_extra st x) /\
  or_empty (text_of (fst (Week03a.blank_extra st x)) (uid x)) = EmptyString.
Proof.
  destruct st as [r c]. intros L. unfold Week03a.blank_extra.
  destruct (nonempty (or_empty (text_of r (uid x)))) eqn:Ne.
  - assert (P : In (uid x) (map uid (iter r))).
    { destruct (in_dec Nat.eq_dec (uid x) (map uid (iter r))) as [I|N]; [exact I|].
      rewrite (text_of_absent _ _ N) in Ne. discriminate. }
    simpl. split; [repeat split|]; auto.
    + apply set_text_same_markup. intros e I E. apply L; simpl; auto.
    + intros w N. apply text_of_set_text_other. simpl in N. intuition congruence.
    + now rewrite text_of_set_text_same.
  - split; [apply step_ok_refl|]. now apply nonempty_false.
Qed.

Lemma fold_blank_ok extras : forall st,
  leafy (fst st) (map uid extras) ->
  step_ok (map uid extras) st (fold_left Week03a.blank_extra extras st) /\
  forall w, In w (map uid extras) ->
       or_empty (text_of (fst (fold_left Week03a.blank_extra extras st)) w) = EmptyString.
Proof.
  induction extras as [|x xs IH]; intros st L; simpl.
  - split; [apply step_ok_refl | easy].
  - assert (L1 : leafy (fst st) [uid x]).
    { intros e I [E|[]]. apply L; simpl; auto. }
    destruct (blank_extra_ok st x L1) as [S1 B1].
    assert (L2 : leafy (fst (Week03a.blank_extra st x)) (map uid xs)).
    { eapply leafy_markup; [apply S1|]. eapply leafy_cons; eauto. }
    destruct (IH _ L2) as [S2 B2]. split.
    + apply (step_ok_trans [uid x] (map uid xs) _ _ _ S1 S2).
    + intros w [<-|I]; [|now apply B2].
      destruct (in_dec Nat.eq_dec (uid x) (map uid xs)) as [I|N]; [now apply B2|].
      destruct S2 as (_ & F2 & _). now rewrite F2.
Qed.

Lemma write_leaves_ok st t0 extras v :
  leafy (fst st) (map uid (t0 :: extras)) ->
  NoDup (map uid (t0 :: extras)) ->
  In (uid t0) (map uid (iter (fst st))) ->
  let st' := Week03a.write_leaves st (t0 :: extras) v in
  step_ok (map uid (t0 :: extras)) st st' /\
  or_empty (text_of (fst st') (uid t0)) = v /\
  forall w, In w (map uid extras) -> or_empty (text_of (fst st') w) = EmptyString.
Proof.
  intros L N P. destruct st as [r c]. simpl in *.
  inversion N as [|? ? N0 _]; subst.
  set (st1 := if negb (String.eqb (or_empty (text_of r (uid t0))) v)
              then (set_text (uid t0) (Some v) r, true) else (r, c)).
  assert (S1 : step_ok [uid t0] (r, c) st1 /\ or_empty (text_of (fst st1) (uid t0)) = v).
  { unfold st1. destruct (String.eqb_spec (or_empty (text_of r (uid t0))) v) as [E|E]; simpl.
    - split; [apply step_ok_refl | exact E].
    - split; [repeat split; simpl; auto|].
      + apply set_text_same_markup. intros e I U. apply L; simpl; auto.
      + intros w Nw. apply text_of_set_text_other. simpl in Nw. intuition congruence.
      + now rewrite text_of_set_text_same. }
  destruct S1 as [S1 V1].
  assert (L2 : leafy (fst st1) (map uid extras)).
  { eapply leafy_markup; [apply S1|]. eapply leafy_cons; eauto. }
  destruct (fold_blank_ok extras st1 L2) as [S2 B2].
  split; [|split].
  - apply (step_ok_trans [uid t0] (map uid extras) _ _ _ S1 S2).
  - destruct S2 as (_ & F2 & _). now rewrite F2.
  - exact B2.
Qed.

Lemma leaf_ids_markup r r' fb :
  same_markup r r' -> ends_are_leaves r -> leaf_ids r' fb = leaf_ids r fb.
Proof.
  intros E L. unfold leaf_ids. destruct (get fb "id") as [bid|]; [|reflexivity].
  pose proof (first_end_key r r' (uid fb) bid E) as F.
  destruct (first_end r (uid fb) bid) as [en|] eqn:Fe;
    destruct (first_end r' (uid fb) bid) as [en'|] eqn:Fe'; simpl in F; try discriminate; auto.
  assert (K : key en = key en') by congruence.
  apply first_end_in in Fe as [Ie Ee].
  apply map_uid_of_key.
  apply (t_nodes_key r r' (uid fb) bid en en' E L K Ie (is_end_for_tag _ _ Ee)).
Qed.

Lemma fill_field_unfold values st fb :
  Week03a.fill_field values st fb =
  match injected values fb, get fb "id" with
  | Some v, Some bid =>
      match first_end (fst st) (uid fb) bid with
      | Some en => Week03a.write_leaves st (t_nodes (fst st) (uid fb) bid en) v
      | None => st
      end
  | _, _ => st
  end.
Proof.
  unfold Week03a.fill_field, injected.
  destruct (get fb "name") as [n|]; [|reflexivity].
  destruct (get fb "id") as [i|]; [|reflexivity].
  destruct (negb (nonempty n) || negb (nonempty i)); [reflexivity|].
  destruct (dict_get values n) as [v|]; [|reflexivity].
  destruct (startswith n Week03a.IMG_PREFIX); reflexivity.
Qed.

Lemma fill_field_ok values st fb :
  wf (fst st) ->
  let st' := Week03a.fill_field values st fb in
  step_ok (touched values (fst st) fb) st st' /\
  forall v u0 rest,
    injected values fb = Some v -> leaf_ids (fst st) fb = u0 :: rest ->
    or_empty (text_of (fst st') u0) = v /\
    forall w, In w rest -> or_empty (text_of (fst st') w) = EmptyString.
Proof.
  intros W. cbv zeta. rewrite fill_field_unfold. unfold touched, leaf_ids.
  destruct (injected values fb) as [v|]; [|split; [apply step_ok_refl | discriminate]].
  destruct (get fb "id") as [bid|]; [|split; [apply step_ok_refl | discriminate]].
  destruct (first_end (fst st) (uid fb) bid) as [en|]; [|split; [apply step_ok_refl | discriminate]].
  destruct (t_nodes (fst st) (uid fb) bid en) as [|t0 extras] eqn:T.
  - split; [apply step_ok_refl | discriminate].
  - assert (L : leafy (fst st) (map uid (t0 :: extras))).
    { rewrite <- T. now apply t_nodes_leafy. }
    assert (N : NoDup (map uid (t0 :: extras))).
    { rewrite <- T. now apply t_nodes_nodup. }
    assert (P : In (uid t0) (map uid (iter (fst st)))).
    { apply in_map. apply (t_nodes_in (fst st) (uid fb) bid en). rewrite T. now left. }
    destruct (write_leaves_ok st t0 extras v L N P) as (S & V & B).
    split; [exact S|].
    intros v' u0 rest Ev El. injection Ev as <-. simpl in El. injection El as <- <-.
    auto.
Qed.

(** ** The whole loop of the week03a injector *)

Lemma fill_run_ok values r0 :
  wf r0 -> ends_are_leaves r0 ->
  forall fbs st, same_markup r0 (fst st) ->
    step_ok (flat_map (touched values r0) fbs) st
            (fold_left (Week03a.fill_field values) fbs st).
Proof.
  intros W L. induction fbs as [|fb fbs IH]; intros st M; simpl.
  - apply step_ok_refl.
  - destruct (fill_field_ok values st fb (same_markup_wf _ _ M W)) as [S _].
    unfold touched in S. rewrite (leaf_ids_markup _ _ fb M L) in S.
    fold (touched values r0 fb) in S.
    eapply step_ok_trans; [exact S|]. apply IH.
    eapply same_markup_trans; [exact M | apply S].
Qed.

Lemma descendants_nodup r : wf r -> NoDup (map uid (descendants r)).
Proof.
  unfold wf. destruct r; simpl. unfold descendants; simpl. now inversion 1.
Qed.

Lemma field_begins_nodup r : wf r -> NoDup (map uid (field_begins r)).
Proof.
  intros W. unfold field_begins. apply NoDup_map_uid_filter. now apply descendants_nodup.
Qed.

Lemma fill_fields_fan_out values r0 fb v u0 rest :
  wf r0 -> ends_are_leaves r0 ->
  In fb (field_begins r0) ->
  injected values fb = Some v ->
  leaf_ids r0 fb = u0 :: rest ->
  (forall fb' w, In fb' (field_begins r0) -> uid fb' <> uid fb ->
                 In w (touched values r0 fb') -> ~ In w (u0 :: rest)) ->
  let r' := fst (Week03a.fill_fields r0 values) in
  or_empty (text_of r' u0) = v /\
  forall w, In w rest -> or_empty (text_of r' w) = EmptyString.
Proof.
  intros W L I J E D. cbv zeta. unfold Week03a.fill_fields.
  pose proof (field_begins_nodup r0 W) as N.
  apply in_split in I as (pre & post & S). rewrite S in *.
  rewrite fold_left_app. simpl.
  set (st1 := fold_left (Week03a.fill_field values) pre (r0, false)).
  pose proof (fill_run_ok values r0 W L pre (r0, false) (same_markup_refl r0)) as S1.
  fold st1 in S1. destruct S1 as (M1 & _ & _). simpl in M1.
  destruct (fill_field_ok values st1 fb (same_markup_wf _ _ M1 W)) as [S2 P2].
  specialize (P2 v u0 rest J). rewrite (leaf_ids_markup _ _ fb M1 L) in P2.
  destruct (P2 E) as [V B].
  set (st2 := Week03a.fill_field values st1 fb) in *.
  assert (M2 : same_markup r0 (fst st2)).
  { eapply same_markup_trans; [exact M1 | apply S2]. }
  pose proof (fill_run_ok values r0 W L post st2 M2) as (_ & F3 & _).
  assert (Out : forall w, In w (u0 :: rest) ->
                          ~ In w (flat_map (touched values r0) post)).
  { intros w Iw Iq. apply in_flat_map in Iq as (fb' & Ifb' & Iw').
    apply (D fb' w); auto.
    - apply in_or_app. right. now right.
    - rewrite map_app in N. simpl in N. apply NoDup_remove_2 in N.
      intros Eu. apply N. apply in_or_app. right. rewrite <- Eu. now apply in_map. }
  split.
  - rewrite F3; [exact V | apply Out; now left].
  - intros w Iw. rewrite F3; [now apply B | apply Out; now right].
Qed.

(** ** The leaves between a begin marker and its end marker *)





(** ** Checking the side conditions by computation *)

Lemma nodupb_sound l : DemoLib.nodupb l = true -> NoDup l.
Proof.
  induction l as [|a l IH]; simpl; intros E; constructor.
  - apply andb_prop in E as [E _]. apply negb_true_iff in E.
    intros I. apply Bool.not_true_iff_false in E. apply E.
    apply existsb_exists. exists a. split; [exact I | apply Nat.eqb_refl].
  - apply andb_prop in E as [_ E]. auto.
Qed.

Lemma wf_check r : DemoLib.nodupb (map uid (iter r)) = true -> wf r.
Proof. apply nodupb_sound. Qed.

Lemma ends_are_leaves_check r :
  forallb (fun e => negb (is_tag (hp "fieldEnd") e) || childless e) (iter r) = true ->
  ends_are_leaves r.
Proof.
  intros F e I T. rewrite forallb_forall in F. specialize (F e I).
  rewrite T in F. simpl in F. unfold childless in F.
  destruct (children e); [reflexivity | discriminate].
Qed.


(** ** C1: fan-out of a text value *)




(** The week02c loop turn writes the same way, unconditionally. *)

Lemma uids_set_text u s r : map uid (iter (set_text u s r)) = map uid (iter r).
Proof.
  rewrite iter_set_text, map_map. apply map_ext. intros e. apply uid_set_text.
Qed.

Lemma fold_set_blank extras : forall r,
  (forall x, In x extras -> In (uid x) (map uid (iter r))) ->
  let r' := fold_left (fun r0 extra => set_text (uid extra) (Some EmptyString) r0)
                      extras r in
  (forall w, ~ In w (map uid extras) -> text_of r' w = text_of r w) /\
  (forall w, In w (map uid extras) -> text_of r' w = Some EmptyString).
Proof.
  induction extras as [|x xs IH]; intros r P; cbn [fold_left map].
  - split; [reflexivity | intros w []].
  - assert (P' : forall y, In y xs ->
                   In (uid y) (map uid (iter (set_text (uid x) (Some EmptyString) r)))).
    { intros y Iy. rewrite uids_set_text. apply P. now right. }
    destruct (IH _ P') as [F B]. split.
    + intros w N. rewrite F by (intros I; apply N; now right).
      apply text_of_set_text_other. intros ->. apply N. now left.
    + intros w [<-|I]; [|now apply B].
      destruct (in_dec Nat.eq_dec (uid x) (map uid xs)) as [I|N]; [now apply B|].
      rewrite F by exact N. apply text_of_set_text_same. apply P. now left.
Qed.

Lemma week02c_turn_writes_leaves values root fb en t0 rest slot_name begin_id :
  wf root ->
  get fb "name" = Some slot_name -> get fb "id" = Some begin_id ->
  slot_name <> EmptyString -> begin_id <> EmptyString ->
  first_end root (uid fb) begin_id = Some en ->
  t_nodes root (uid fb) begin_id en = t0 :: rest ->
  let root' := Week02c.fill_field values root fb in
  text_of root' (uid t0) = Some (or_empty (dict_get values slot_name)) /\
  forall t, In t rest -> text_of root' (uid t) = Some EmptyString.
Proof.
  intros W Gn Gi Nn Ni Fe Tn. cbv zeta.
  apply nonempty_true in Nn. apply nonempty_true in Ni.
  unfold Week02c.fill_field. rewrite Gn, Gi, Nn, Ni, Fe, Tn. cbn [negb orb].
  pose proof (t_nodes_nodup root (uid fb) begin_id en W) as N.
  rewrite Tn in N. cbn [map] in N. inversion N as [|? ? N0 _]; subst.
  assert (In0 : forall x, In x (t0 :: rest) -> In (uid x) (map uid (iter root))).
  { intros x Ix. apply in_map. apply (t_nodes_in root (uid fb) begin_id en).
    now rewrite Tn. }
  destruct (fold_set_blank rest
              (set_text (uid t0) (Some (or_empty (dict_get values slot_name))) root))
    as [F B].
  { intros x Ix. rewrite uids_set_text. apply In0. now right. }
  split.
  - rewrite F by exact N0. apply text_of_set_text_same. apply In0. now left.
  - intros t It. apply B. now apply in_map.
Qed.

(** ** C4: slots without a value *)

Lemma key_eq_marker e e' :
  key e = key e' -> is_tag (hp "t") e = false -> children e = [] -> e = e'.
Proof.
  intros K T C.
  pose proof (key_text _ _ K T) as Tx.
  pose proof (key_children_nil _ _ K C) as C'.
  unfold key in K. destruct e, e'; simpl in *. subst. congruence.
Qed.

Lemma same_markup_marker r r' m :
  same_markup r r' -> In m (iter r) -> is_tag (hp "t") m = false -> children m = [] ->
  In m (iter r').
Proof.
  intros E I T C. apply (in_map key) in I. unfold same_markup in E. rewrite <- E in I.
  apply in_map_iff in I as (m' & K & I).
  now rewrite (key_eq_marker m m' (eq_sym K) T C).
Qed.

(** C4 (as amended).  In the week03a injector a begin marker whose name has
    no value in the mapping is not injected.  The returned tree has the
    markup of the input (every element keeps its identity, tag, attributes,
    tail and place; every childless element that is not a text leaf, so
    every marker, is found in it as it was), and a text leaf keeps its text
    unless an injected begin marker collects it. *)
Theorem C4_absent_slot_untouched_week03a :
  forall (values : dict string) (root fb : element) (slot_name : string),
    wf root -> ends_are_leaves root ->
    In fb (field_begins root) ->
    get fb "name" = Some slot_name ->
    dict_get values slot_name = None ->
    let root' := fst (Week03a.fill_fields root values) in
    touched values root fb = [] /\
    same_markup root root' /\
    (forall m, In m (iter root) -> is_tag (hp "t") m = false -> children m = [] ->
               In m (iter root')) /\
    (forall w, (forall fb', In fb' (field_begins root) ->
                            ~ In w (touched values root fb')) ->
               text_of root' w = text_of root w).
Proof.
  intros values root fb slot_name W L I Gn Gv root'.
  pose proof (fill_run_ok values root W L (field_begins root) (root, false)
                (same_markup_refl root)) as (M & F & _).
  fold (Week03a.fill_fields root values) in M, F. fold root' in M, F. simpl in M, F.
  split; [|split; [exact M | split]].
  - unfold touched, injected. rewrite Gn.
    destruct (get fb "id"); [|reflexivity].
    destruct (negb (nonempty slot_name) || negb (nonempty s)); [reflexivity|].
    now rewrite Gv.
  - intros m Im T C. now apply (same_markup_marker root root' m).
  - intros w Hw. apply F. intros Iw. apply in_flat_map in Iw as (fb' & Ifb' & Iw).
    now apply (Hw fb').
Qed.

Lemma C4_absent_slot_witness :
  let root' := fst (Week03a.fill_fields Demo.section0 [("NAME", "Alice")]) in
  text_of root' 27 = Some "1" /\
  In (Demo.fb 26 "PAGE" "16" "PAGE_NUM") (iter root') /\
  In (Demo.fe 28 "16") (iter root').
Proof.
  assert (W : wf Demo.section0) by (apply wf_check; vm_compute; reflexivity).
  assert (L : ends_are_leaves Demo.section0)
    by (apply ends_are_leaves_check; vm_compute; reflexivity).
  assert (I : In (Demo.fb 26 "PAGE" "16" "PAGE_NUM") (field_begins Demo.section0))
    by (vm_compute; tauto).
  destruct (C4_absent_slot_untouched_week03a
              [("NAME", "Alice")] Demo.section0 (Demo.fb 26 "PAGE" "16" "PAGE_NUM")
              "PAGE" W L I eq_refl eq_refl) as (_ & _ & Mk & F).
  split; [|split].
  - rewrite (F 27); [reflexivity|].
    intros fb' If T. vm_compute in If.
    repeat (destruct If as [<-|If]; [vm_compute in T; intuition congruence|]).
    destruct If.
  - apply Mk; [vm_compute; tauto | reflexivity | reflexivity].
  - apply Mk; [vm_compute; tauto | reflexivity | reflexivity].
Defined.

(** C4, as stated, fails on week02c: a slot without a value is given the
    empty string. *)
Lemma C4_counterexample_week02c_blanks :
  let values := [("NAME", "Alice")] in
  let root' := Week02c.fill_fields Demo.section0 values in
  In (Demo.fb 26 "PAGE" "16" "PAGE_NUM") (field_begins Demo.section0) /\
  dict_get values "PAGE" = None /\
  text_of Demo.section0 27 = Some "1" /\
  text_of root' 27 = Some EmptyString /\
  text_of root' 27 <> text_of Demo.section0 27.
Proof.
  vm_compute. repeat split; try tauto; discriminate.
Qed.

(** On week03a the leaf of an unfilled slot is still overwritten when it
    lies inside the range of a filled one. *)
Lemma nested_unfilled_slot_overwritten :
  let values := [("OUTER", "x")] in
  dict_get values "INNER" = None /\
  t_nodes nested 2 "2" (Demo.fe 4 "2") = [Demo.t 3 "inner text"] /\
  text_of (fst (Week03a.fill_fields nested values)) 3 = Some "x".
Proof. vm_compute. repeat split. Qed.

(** ** C2: nothing to do, nothing changed *)

Lemma fold_blank_settled extras r c :
  Forall (fun x => or_empty (text_of r (uid x)) = EmptyString) extras ->
  fold_left Week03a.blank_extra extras (r, c) = (r, c).
Proof.
  induction 1 as [|x xs Hx _ IH]; simpl; [reflexivity|].
  rewrite Hx. simpl. exact IH.
Qed.

Lemma fill_field_settled values r c fb :
  settled values r fb -> Week03a.fill_field values (r, c) fb = (r, c).
Proof.
  unfold settled. rewrite fill_field_unfold. simpl.
  destruct (injected values fb) as [v|]; [|reflexivity].
  destruct (get fb "id") as [bid|]; [|reflexivity].
  destruct (first_end r (uid fb) bid) as [en|]; [|reflexivity].
  destruct (t_nodes r (uid fb) bid en) as [|t0 extras]; [reflexivity|].
  intros [V B]. unfold Week03a.write_leaves.
  rewrite V, String.eqb_refl. simpl. now apply fold_blank_settled.
Qed.

Lemma fill_fields_settled values r :
  (forall fb, In fb (field_begins r) -> settled values r fb) ->
  Week03a.fill_fields r values = (r, false).
Proof.
  unfold Week03a.fill_fields. generalize (field_begins r) as fbs.
  induction fbs as [|fb fbs IH]; simpl; intros S; [reflexivity|].
  rewrite fill_field_settled by auto. apply IH. auto.
Qed.

Lemma injected_empty fb : injected [] fb = None.
Proof.
  unfold injected. destruct (get fb "name"), (get fb "id"); try reflexivity.
  destruct (negb (nonempty s) || negb (nonempty s0)); reflexivity.
Qed.

Lemma settled_empty r fb : settled [] r fb.
Proof. unfold settled. now rewrite injected_empty. Qed.

(** The flag is only raised by a write that changes a text. *)
Lemma fill_fields_flag values r :
  wf r -> ends_are_leaves r ->
  snd (Week03a.fill_fields r values) = false ->
  fst (Week03a.fill_fields r values) = r.
Proof.
  intros W L E.
  destruct (fill_run_ok values r W L (field_begins r) (r, false) (same_markup_refl r))
    as (_ & _ & [C|C]).
  - unfold Week03a.fill_fields. now rewrite C.
  - unfold Week03a.fill_fields in E. congruence.
Qed.

Lemma zread_in zf n d : NoDup (map fst zf) -> In (n, d) zf -> zread zf n = Some d.
Proof.
  induction zf as [|[n' d'] zf IH]; simpl; [easy|].
  intros N I. inversion N as [|? ? Nn Nz]; subst.
  destruct I as [E|I].
  - injection E as -> ->.
    destruct (zread zf n) as [x|] eqn:Z.
    + exfalso. apply Nn. clear -Z. induction zf as [|[a b] zf IH]; simpl in *; [discriminate|].
      destruct (zread zf n); [right; now apply IH|].
      destruct (String.eqb_spec a n); [now left | discriminate].
    + now rewrite String.eqb_refl.
  - now rewrite (IH Nz I).
Qed.

Section NoOp.
Context `{Lxml} `{Base64}.

Lemma data_of_in zf e : NoDup (map fst zf) -> In e zf -> Week03a.data_of zf e = snd e.
Proof.
  intros N I. unfold Week03a.data_of. destruct e as [n d]. simpl.
  now rewrite (zread_in zf n d N I).
Qed.

Lemma rewrite_entry_empty zin oc s2b s2i e :
  Week03a.rewrite_entry zin oc [] [] s2b s2i e = Week03a.data_of zin e \/
  (exists slot path, In (slot, path) s2b).
Proof.
  unfold Week03a.rewrite_entry.
  destruct (Week03a.is_xml_path (fst e) && (negb oc || startswith (fst e) "Contents/")).
  - left. reflexivity.
  - destruct (startswith (fst e) "BinData/"); [|now left].
    destruct (find _ s2b) as [[slot path]|] eqn:F; [|now left].
    right. apply find_some in F as [I _]. eauto.
Qed.

(** C2 (as amended, week03a).  With an empty payload the rewrite writes, for
    every entry, the bytes read from the source: a container with unique
    part names comes out identical, part for part.  And when the leaves of
    every injected occurrence already read what the injector would write,
    the injector returns its input bytes, unflagged. *)
Theorem C2_no_op_week03a :
  forall (zin : zipfile) (only_contents : bool)
         (xml_bytes : bytes) (values : dict string) (root : element),
    NoDup (map fst zin) ->
    Week03a.xml_parse_strict xml_bytes = Some root ->
    (forall fb, In fb (field_begins root) -> settled values root fb) ->
    Week03a.generate_submit_hwpx (Some zin) [] only_contents = Ok zin /\
    Week03a.fill_fields_in_xml xml_bytes values = Some (xml_bytes, false) /\
    Week03a.fill_fields_in_xml xml_bytes [] = Some (xml_bytes, false).
Proof.
  intros zin oc xml values root N P S. split; [|split].
  - change (Week03a.generate_submit_hwpx (Some zin) [] oc)
      with (Ok (map (fun e => (fst e, Week03a.rewrite_entry zin oc [] [] [] [] e)) zin)).
    f_equal. rewrite <- (map_id zin) at 2. apply map_ext_in. intros e I.
    destruct (rewrite_entry_empty zin oc [] [] e) as [E|(s & p & [])].
    rewrite E, (data_of_in zin e N I). now destruct e.
  - unfold Week03a.fill_fields_in_xml. rewrite P.
    now rewrite (fill_fields_settled values root S).
  - unfold Week03a.fill_fields_in_xml. rewrite P.
    rewrite (fill_fields_settled [] root); [reflexivity|].
    intros fb _. apply settled_empty.
Qed.
End NoOp.

Lemma NoDup_template : NoDup (map fst DemoZip.template).
Proof. simpl. repeat constructor; simpl; intuition discriminate. Qed.

Lemma C2_no_op_witness :
  @Week03a.generate_submit_hwpx DemoZip.lxml DemoZip.base64
      (Some DemoZip.template) [] true = Ok DemoZip.template /\
  @Week03a.fill_fields_in_xml DemoZip.lxml DemoZip.section0_xml [("PAGE", "1")]
  = Some (DemoZip.section0_xml, false).
Proof.
  destruct (@C2_no_op_week03a DemoZip.lxml DemoZip.base64
              DemoZip.template true DemoZip.section0_xml [("PAGE", "1")] Demo.section0)
    as (G & F & _).
  - exact NoDup_template.
  - vm_compute. reflexivity.
  - intros fb I. vm_compute in I.
    repeat (destruct I as [<-|I]; [vm_compute; auto|]).
    destruct I.
  - split; assumption.
Defined.

(** C2, as stated, fails on week02c: with an empty mapping every candidate
    part is re-serialised and every placeholder text is blanked. *)
Lemma C2_counterexample_week02c :
  let out := @Week02c.generate_submit_hwpx DemoZip.lxml (Some DemoZip.template) [] true in
  part out "Contents/section0.xml"
  = Some (DemoLib.serialize (Week02c.fill_fields Demo.section0 [])) /\
  text_of (Week02c.fill_fields Demo.section0 []) 3 = Some EmptyString /\
  text_of Demo.section0 3 = Some "name here" /\
  part out "Contents/section0.xml" <> part (Ok DemoZip.template) "Contents/section0.xml".
Proof.
  cbv zeta. repeat split; try (vm_compute; reflexivity).
  intros E. apply (f_equal (option_map String.length)) in E.
  vm_compute in E. discriminate.
Qed.

(** ** C3: replacing one image *)

Section ImageOnly.
Context `{Lxml} `{Base64}.

Lemma fill_fields_in_xml_empty data :
  Week03a.fill_fields_in_xml data [] = None \/
  Week03a.fill_fields_in_xml data [] = Some (data, false).
Proof.
  unfold Week03a.fill_fields_in_xml.
  destruct (Week03a.xml_parse_strict data) as [root|]; [right | now left].
  rewrite (fill_fields_settled [] root); [reflexivity|].
  intros fb _. apply settled_empty.
Qed.

Lemma rewrite_xml_empty data : Week03a.rewrite_xml Week03a.STRIP_CLICK_HERE data [] = data.
Proof.
  unfold Week03a.rewrite_xml.
  destruct (fill_fields_in_xml_empty data) as [-> | ->]; reflexivity.
Qed.

(** C3.  When the payload is one image slot with an allow-listed media type
    and the slot resolves to [href], the rewrite produces the source
    container with one difference: the part named [href] under BinData
    holds the decoded payload, byte for byte. *)
Theorem C3_image_only_rewrite :
  forall (zin : zipfile) (only_contents : bool) (slot shown mime href : string)
         (items : list (string * pyval)) (v : pyval) (raw : bytes),
    NoDup (map fst zin) ->
    startswith slot Week03a.IMG_PREFIX = true ->
    dict_get items "dataUrl" = Some v ->
    Week03a.decode_data_url (py_str v) = Ok (mime, raw) ->
    Week03a.allowed_mime mime = true ->
    Week03a.bindata_of_slot (Week03a.preload zin) only_contents slot = Some href ->
    Week03a.generate_submit_hwpx (Some zin) [(slot, PyDict items shown)] only_contents
    = Ok (map (fun e => (fst e, if is_asset only_contents href (fst e) then raw else snd e))
              zin).
Proof.
  intros zin oc slot shown mime href items v raw N Img Gd Dec Al Res.
  assert (Sp : Week03a.split_payload [(slot, PyDict items shown)] = ([], [(slot, items)])).
  { unfold Week03a.split_payload. cbn [fold_left Week03a.classify].
    unfold dict_mem. now rewrite Img, Gd. }
  assert (Rs : Week03a.resolve_slots (Week03a.preload zin) oc [slot] = [(slot, href)]).
  { unfold Week03a.resolve_slots. cbn [fold_left]. now rewrite Res. }
  assert (Di : Week03a.decode_images [(slot, items)] [] = Ok [(slot, raw)]).
  { cbn [Week03a.decode_images]. now rewrite Gd, Dec, Al. }
  unfold Week03a.generate_submit_hwpx. rewrite Sp.
  change (dict_keys [(slot, items)]) with [slot]. rewrite Rs, Di. f_equal.
  apply map_ext_in. intros e I. f_equal.
  unfold Week03a.rewrite_entry, is_asset. rewrite (data_of_in zin e N I).
  destruct (Week03a.is_xml_path (fst e) && (negb oc || startswith (fst e) "Contents/")).
  - cbn [negb andb].
    destruct (Week03a.maybe_related (snd e) [] [(slot, items)]); [|reflexivity].
    apply rewrite_xml_empty.
  - cbn [negb andb]. destruct (startswith (fst e) "BinData/"); [|reflexivity].
    cbn [find fst snd andb]. unfold dict_mem. cbn [dict_get].
    rewrite String.eqb_refl, andb_true_r.
    destruct (String.eqb href (fst e)); [|reflexivity].
    cbn [dict_get]. now rewrite String.eqb_refl.
Qed.
End ImageOnly.

Lemma C3_image_only_witness :
  @Week03a.generate_submit_hwpx DemoZip.lxml DemoZip.base64
      (Some DemoZip.template) [("IMG_PHOTO", DemoZip.photo DemoZip.png_url)] true
  = Ok [ ("mimetype", "application/hwp+zip");
         ("Contents/content.hpf", DemoLib.serialize DemoZip.content_hpf);
         ("Contents/header.xml", DemoLib.serialize DemoZip.header);
         ("Contents/section0.xml", DemoZip.section0_xml);
         ("BinData/image1.png", "hello");
         ("Preview/PrvText.txt", "preview") ].
Proof.
  unfold DemoZip.photo.
  rewrite (@C3_image_only_rewrite DemoZip.lxml DemoZip.base64
             DemoZip.template true "IMG_PHOTO" "{...}" "image/png" "BinData/image1.png"
             [("filename", PyStr "a.png"); ("dataUrl", PyStr DemoZip.png_url)]
             (PyStr DemoZip.png_url) "hello").
  - reflexivity.
  - exact NoDup_template.
  - reflexivity.
  - reflexivity.
  - vm_compute. reflexivity.
  - reflexivity.
  - vm_compute. reflexivity.
Defined.

(** ** C5: an image of an unsupported media type *)

Section Unsupported.
Context `{Lxml} `{Base64}.

Lemma decode_data_url_error s e :
  Week03a.decode_data_url s = Raise e -> exists msg, e = ValueError msg.
Proof.
  unfold Week03a.decode_data_url.
  destruct (negb (startswith s "data:")); [intros [= <-]; eauto|].
  destruct (Week03a.split_comma s) as [[h b]|]; [|intros [= <-]; eauto].
  destruct (Week03a.match_header h); [|intros [= <-]; eauto].
  destruct (b64decode b); [discriminate | intros [= <-]; eauto].
Qed.

Lemma decode_images_raises image_values slot info v mime raw :
  In (slot, info) image_values ->
  dict_get info "dataUrl" = Some v ->
  Week03a.decode_data_url (py_str v) = Ok (mime, raw) ->
  Week03a.allowed_mime mime = false ->
  forall acc, exists msg, Week03a.decode_images image_values acc = Raise (ValueError msg).
Proof.
  intros I Gd Dec Al.
  induction image_values as [|[s i] rest IH]; [destruct I|].
  intros acc. cbn [Week03a.decode_images].
  destruct I as [E|I].
  - injection E as -> ->. rewrite Gd, Dec, Al. eauto.
  - destruct (dict_get i "dataUrl") as [v'|]; [|eauto].
    destruct (Week03a.decode_data_url (py_str v')) as [[m r]|e] eqn:D.
    + destruct (Week03a.allowed_mime m); [apply IH; exact I | eauto].
    + destruct (decode_data_url_error _ _ D) as [msg ->]. eauto.
Qed.

(** C5 (as amended).  When the payload holds an image submission whose
    declared media type is not allow-listed, the rewrite raises a ValueError:
    the run is aborted, no value is applied and no container is produced. *)
Theorem C5_unsupported_media_type_aborts :
  forall (zin : zipfile) (payload : dict pyval) (only_contents : bool)
         (slot mime : string) (info : list (string * pyval)) (v : pyval) (raw : bytes),
    In (slot, info) (snd (Week03a.split_payload payload)) ->
    dict_get info "dataUrl" = Some v ->
    Week03a.decode_data_url (py_str v) = Ok (mime, raw) ->
    Week03a.allowed_mime mime = false ->
    exists msg,
      Week03a.generate_submit_hwpx (Some zin) payload only_contents
      = Raise (ValueError msg).
Proof.
  intros zin payload oc slot mime info v raw I Gd Dec Al.
  unfold Week03a.generate_submit_hwpx.
  destruct (Week03a.split_payload payload) as [tv iv]. simpl in I.
  destruct (decode_images_raises iv slot info v mime raw I Gd Dec Al []) as [msg ->].
  eauto.
Qed.
End Unsupported.

Lemma C5_unsupported_witness :
  exists msg,
    @Week03a.generate_submit_hwpx DemoZip.lxml DemoZip.base64
        (Some DemoZip.template)
        [("NAME", PyStr "Alice"); ("IMG_PHOTO", DemoZip.photo DemoZip.gif_url)] true
    = Raise (ValueError msg).
Proof.
  apply (@C5_unsupported_media_type_aborts DemoZip.lxml DemoZip.base64
           DemoZip.template
           [("NAME", PyStr "Alice"); ("IMG_PHOTO", DemoZip.photo DemoZip.gif_url)] true
           "IMG_PHOTO" "image/gif"
           [("filename", PyStr "a.png"); ("dataUrl", PyStr DemoZip.gif_url)]
           (PyStr DemoZip.gif_url) "hello").
  - vm_compute. auto.
  - reflexivity.
  - vm_compute. reflexivity.
  - vm_compute. reflexivity.
Defined.

(** C5, as stated, fails: with a text value and an image of type image/gif
    the whole run is aborted and the text value is not applied either. *)
Lemma C5_counterexample_gif_aborts :
  @Week03a.generate_submit_hwpx DemoZip.lxml DemoZip.base64
      (Some DemoZip.template)
      [("NAME", PyStr "Alice"); ("IMG_PHOTO", DemoZip.photo DemoZip.gif_url)] true
  = Raise (ValueError "IMG_PHOTO: unsupported image mime: image/gif").
Proof. vm_compute. reflexivity. Qed.

(** ** C6: the end marker of a begin marker *)


Lemma fill_field_no_end values st fb bid r :
  same_markup r (fst st) ->
  get fb "id" = Some bid -> first_end r (uid fb) bid = None ->
  Week03a.fill_field values st fb = st.
Proof.
  intros M Gi Fe. rewrite fill_field_unfold, Gi.
  pose proof (first_end_key r (fst st) (uid fb) bid M) as K. rewrite Fe in K.
  destruct (first_end (fst st) (uid fb) bid); [discriminate|].
  destruct (injected values fb); reflexivity.
Qed.




(** ** C7: an occurrence without a text leaf *)


Lemma in_iter_self e : In e (iter e).
Proof. destruct e; simpl; auto. Qed.










(** ** C8: parts that do not parse *)

Section FailSoft.
Context `{Lxml} `{Base64}.

Lemma scan_entry_unparsable zf oc sm e :
  parses (Week03a.data_of zf e) = false -> Week03a.scan_entry zf oc sm e = sm.
Proof.
  unfold parses, Week03a.scan_entry, Week03a.extract_slot_mappings_from_xml.
  intros P.
  destruct (negb (Week03a.is_xml_path (fst e))); [reflexivity|].
  destruct (oc && negb (startswith (fst e) "Contents/")); [reflexivity|].
  destruct (Week03a.xml_parse_strict (Week03a.data_of zf e)); [discriminate | reflexivity].
Qed.

Lemma scan_skips_unparsable zf oc l : forall sm,
  fold_left (Week03a.scan_entry zf oc) l sm =
  fold_left (Week03a.scan_entry zf oc)
            (filter (fun e => parses (Week03a.data_of zf e)) l) sm.
Proof.
  induction l as [|e l IH]; intros sm; [reflexivity|]. cbn [fold_left filter].
  destruct (parses (Week03a.data_of zf e)) eqn:P.
  - cbn [fold_left]. apply IH.
  - rewrite (scan_entry_unparsable zf oc sm e P). apply IH.
Qed.

Lemma generate_ok_inv zin payload oc out :
  Week03a.generate_submit_hwpx (Some zin) payload oc = Ok out ->
  exists s2i,
    Week03a.decode_images (snd (Week03a.split_payload payload)) [] = Ok s2i /\
    out = map (fun e =>
                 (fst e,
                  Week03a.rewrite_entry zin oc
                    (fst (Week03a.split_payload payload))
                    (snd (Week03a.split_payload payload))
                    (Week03a.resolve_slots (Week03a.preload zin) oc
                       (dict_keys (snd (Week03a.split_payload payload))))
                    s2i e))
              zin.
Proof.
  unfold Week03a.generate_submit_hwpx.
  destruct (Week03a.split_payload payload) as [tv iv]. cbn [fst snd].
  destruct (Week03a.decode_images iv []) as [s2i|e]; [|discriminate].
  intros [= <-]. eauto.
Qed.

Lemma zread_map (f : string * bytes -> bytes) zin n d :
  NoDup (map fst zin) -> In (n, d) zin ->
  zread (map (fun e => (fst e, f e)) zin) n = Some (f (n, d)).
Proof.
  intros N I. apply zread_in.
  - rewrite map_map. cbn [fst]. exact N.
  - apply in_map_iff. exists (n, d). auto.
Qed.

Lemma rewrite_xml_unparsable strip data tv :
  Week03a.xml_parse_strict data = None -> Week03a.rewrite_xml strip data tv = data.
Proof.
  intros P. unfold Week03a.rewrite_xml, Week03a.fill_fields_in_xml. now rewrite P.
Qed.

Lemma rewrite_entry_failed zin oc tv iv s2b s2i e :
  candidate oc (fst e) = true ->
  Week03a.fill_fields_in_xml (Week03a.data_of zin e) tv = None ->
  Week03a.rewrite_entry zin oc tv iv s2b s2i e = Week03a.data_of zin e.
Proof.
  unfold candidate, Week03a.rewrite_entry. intros -> P.
  destruct (Week03a.maybe_related _ tv iv); [|reflexivity].
  unfold Week03a.rewrite_xml. now rewrite P.
Qed.

(** Outside the binary assets, what is written for a part depends on its
    own bytes and on the payload only. *)
Lemma rewrite_entry_local zin zin' oc tv iv s2b s2b' s2i s2i' e e' :
  fst e = fst e' -> Week03a.data_of zin e = Week03a.data_of zin' e' ->
  candidate oc (fst e) = true \/ startswith (fst e) "BinData/" = false ->
  Week03a.rewrite_entry zin oc tv iv s2b s2i e =
  Week03a.rewrite_entry zin' oc tv iv s2b' s2i' e'.
Proof.
  intros En Ed C. unfold Week03a.rewrite_entry. rewrite <- En, <- Ed.
  unfold candidate in C.
  destruct (Week03a.is_xml_path (fst e) && (negb oc || startswith (fst e) "Contents/"));
    [reflexivity|].
  destruct C as [C|C]; [discriminate|]. now rewrite C.
Qed.

(** C8 (as amended).  Slot discovery over a container is the discovery over
    its parsable parts: a part that fails to parse adds nothing and the scan
    goes on.  In a rewrite that succeeds, a candidate XML part that fails to
    parse, or for which the injector raises for another reason such as a
    serialisation failure, is written with its source bytes; the rewrite of any other
    readable container with the same payload succeeds as well; and every
    part outside BinData, and every candidate XML part, is written the same
    in both rewrites when it has the same bytes in both sources. *)
Theorem C8_fail_soft :
  forall (zin zin' : zipfile) (payload : dict pyval) (only_contents : bool)
         (out : zipfile),
    NoDup (map fst zin) -> NoDup (map fst zin') ->
    Week03a.generate_submit_hwpx (Some zin) payload only_contents = Ok out ->
    Week03a.build_slot_map_from_hwpx zin only_contents
    = fold_left (Week03a.scan_entry zin only_contents)
                (filter (fun e => parses (Week03a.data_of zin e)) zin) [] /\
    (forall name data,
        In (name, data) zin -> candidate only_contents name = true ->
        Week03a.xml_parse_strict data = None \/
        Week03a.fill_fields_in_xml data (fst (Week03a.split_payload payload)) = None ->
        zread out name = Some data) /\
    exists out',
      Week03a.generate_submit_hwpx (Some zin') payload only_contents = Ok out' /\
      forall name data,
        In (name, data) zin -> In (name, data) zin' ->
        candidate only_contents name = true \/ startswith name "BinData/" = false ->
        zread out' name = zread out name.
Proof.
  intros zin zin' payload oc out N N' G.
  destruct (generate_ok_inv zin payload oc out G) as (s2i & D & ->).
  split; [|split].
  - apply scan_skips_unparsable.
  - intros name data I C P. rewrite (zread_map _ zin name data N I).
    f_equal. rewrite rewrite_entry_failed.
    + now apply data_of_in.
    + exact C.
    + rewrite (data_of_in zin (name, data) N I). cbn [snd].
      destruct P as [P|P]; [|exact P].
      unfold Week03a.fill_fields_in_xml. now rewrite P.
  - unfold Week03a.generate_submit_hwpx.
    destruct (Week03a.split_payload payload) as [tv iv]. cbn [fst snd] in *.
    rewrite D. eexists. split; [reflexivity|].
    intros name data I I' C.
    rewrite (zread_map _ zin name data N I), (zread_map _ zin' name data N' I').
    f_equal. apply rewrite_entry_local; auto.
    now rewrite (data_of_in zin _ N I), (data_of_in zin' _ N' I').
Qed.
End FailSoft.

Lemma NoDup_broken : NoDup (map fst DemoZip.broken).
Proof. simpl. repeat constructor; simpl; intuition discriminate. Qed.

Lemma C8_fail_soft_witness :
  let out := @Week03a.generate_submit_hwpx DemoZip.lxml DemoZip.base64
               (Some DemoZip.broken) demo_payload true in
  @Week03a.build_slot_map_from_hwpx DemoZip.lxml DemoZip.broken true = [] /\
  part out "Contents/section0.xml" = Some "<hp:sec" /\
  part out "Contents/header.xml"
  = part (@Week03a.generate_submit_hwpx DemoZip.lxml DemoZip.base64
            (Some DemoZip.template) demo_payload true) "Contents/header.xml".
Proof.
  cbv zeta.
  destruct (@Week03a.generate_submit_hwpx DemoZip.lxml DemoZip.base64
              (Some DemoZip.broken) demo_payload true) as [out|e] eqn:G;
    [|vm_compute in G; discriminate].
  destruct (@C8_fail_soft DemoZip.lxml DemoZip.base64
              DemoZip.broken DemoZip.template demo_payload true out
              NoDup_broken NoDup_template G) as (S & U & out' & G' & Iso).
  rewrite G'. cbn [part]. split; [|split].
  - rewrite S. vm_compute. reflexivity.
  - apply U; [vm_compute; tauto | reflexivity | left; vm_compute; reflexivity].
  - symmetry. apply (Iso "Contents/header.xml" (DemoLib.serialize DemoZip.header)).
    + vm_compute. tauto.
    + vm_compute. tauto.
    + left. reflexivity.
Defined.

(** C8, as stated, fails: when the section that carries the image slot does
    not parse, the picture asset, another part, is written with its source
    bytes instead of the submitted image. *)
Lemma C8_counterexample_asset_follows_broken_part :
  let gen := @Week03a.generate_submit_hwpx DemoZip.lxml DemoZip.base64 in
  zread DemoZip.broken "Contents/section0.xml" = Some "<hp:sec" /\
  @Week03a.xml_parse_strict DemoZip.lxml "<hp:sec" = None /\
  zread DemoZip.broken "BinData/image1.png" = zread DemoZip.template "BinData/image1.png" /\
  part (gen (Some DemoZip.template) demo_payload true) "BinData/image1.png" = Some "hello" /\
  part (gen (Some DemoZip.broken) demo_payload true) "BinData/image1.png"
  = Some "old picture".
Proof. vm_compute. repeat split. Qed.

(** ** C9: stripping the placeholder markers *)

Lemma children_remove_all p e :
  children (Week03a.remove_all p e) = remove_list p (children e).
Proof.
  destruct e as [i t a x cs tl]. simpl.
  induction cs as [|c cs IH]; simpl; [reflexivity|].
  destruct (p c); [exact IH | now rewrite IH].
Qed.

Lemma base_remove_all p e : base (Week03a.remove_all p e) = base e.
Proof. destruct e; reflexivity. Qed.

Lemma iter_unfold e : iter e = e :: descendants e.
Proof. destruct e; reflexivity. Qed.

Lemma descendants_remove_all p e :
  descendants (Week03a.remove_all p e) = flat_map iter (remove_list p (children e)).
Proof. unfold descendants. now rewrite children_remove_all. Qed.

Lemma in_descendants_child e c x :
  In c (children e) -> In x (iter c) -> In x (descendants e).
Proof. intros Ic Ix. unfold descendants. apply in_flat_map. eauto. Qed.

Lemma iter_childless c : children c = [] -> iter c = [c].
Proof. destruct c as [i t a x cs tl]. simpl. now intros ->. Qed.

Lemma remove_list_filter p l :
  Forall (fun c =>
            (forall x, In x (descendants c) -> p x = true -> children x = []) ->
            map base (descendants (Week03a.remove_all p c)) =
            map base (filter (fun x => negb (p x)) (descendants c))) l ->
  (forall y, In y (flat_map iter l) -> p y = true -> children y = []) ->
  map base (flat_map iter (remove_list p l)) =
  map base (filter (fun x => negb (p x)) (flat_map iter l)).
Proof.
  induction 1 as [|c l Hc _ IHl]; intros Hl; [reflexivity|].
  cbn [remove_list flat_map].
  assert (Hl' : forall y, In y (flat_map iter l) -> p y = true -> children y = []).
  { intros y Iy. apply Hl. cbn [flat_map]. apply in_or_app. now right. }
  rewrite filter_app, map_app, <- (IHl Hl').
  destruct (p c) eqn:Pc.
  - assert (Cc : children c = []).
    { apply Hl; [|exact Pc]. cbn [flat_map]. apply in_or_app. left. apply in_iter_self. }
    rewrite (iter_childless c Cc). cbn [filter]. rewrite Pc. reflexivity.
  - cbn [flat_map]. rewrite map_app. f_equal.
    rewrite (iter_unfold (Week03a.remove_all p c)), (iter_unfold c).
    cbn [filter]. rewrite Pc. cbn [negb map]. rewrite base_remove_all. f_equal.
    apply Hc. intros y Iy. apply Hl. cbn [flat_map]. apply in_or_app. left.
    rewrite iter_unfold. now right.
Qed.

(** Removing childless elements filters the document-order listing. *)
Lemma remove_all_filter p e :
  (forall x, In x (descendants e) -> p x = true -> children x = []) ->
  map base (descendants (Week03a.remove_all p e)) =
  map base (filter (fun x => negb (p x)) (descendants e)).
Proof.
  induction e as [i t a x cs tl IH] using element_rect'. intros Hl.
  rewrite descendants_remove_all. unfold descendants in *. cbn [children] in *.
  now apply remove_list_filter.
Qed.

Lemma filter_base (q : element -> bool) q' l :
  (forall x, q x = q' (base x)) ->
  map base (filter q l) = filter q' (map base l).
Proof.
  intros Hq. induction l as [|a l IH]; simpl; [reflexivity|].
  rewrite <- Hq. destruct (q a); simpl; now rewrite IH.
Qed.

Lemma in_remove_all p e x' :
  In x' (descendants (Week03a.remove_all p e)) ->
  exists x, In x (descendants e) /\ x' = Week03a.remove_all p x.
Proof.
  induction e as [i t a y cs tl IH] using element_rect'.
  rewrite descendants_remove_all. unfold descendants. cbn [children].
  induction IH as [|c l Hc _ IHl]; cbn [remove_list flat_map]; [intros []|].
  destruct (p c).
  - intros I. destruct (IHl I) as (x & Ix & E). exists x. split; [|exact E].
    apply in_or_app. now right.
  - cbn [flat_map]. intros I. apply in_app_or in I as [I|I].
    + rewrite iter_unfold in I. destruct I as [<-|I].
      * exists c. split; [|reflexivity]. apply in_or_app. left. apply in_iter_self.
      * destruct (Hc I) as (x & Ix & E). exists x. split; [|exact E].
        apply in_or_app. left. rewrite iter_unfold. now right.
    + destruct (IHl I) as (x & Ix & E). exists x. split; [|exact E].
      apply in_or_app. now right.
Qed.

Lemma clickhere_of_base x :
  Week03a.is_clickhere_begin x = Week03a.is_clickhere_begin (of_base (base x)).
Proof. destruct x; reflexivity. Qed.

Lemma end_in_of_base ids x :
  Week03a.is_end_in ids x = Week03a.is_end_in ids (of_base (base x)).
Proof. destruct x; reflexivity. Qed.

Lemma filter_length_split {A : Type} (p : A -> bool) l :
  List.length l = List.length (filter p l) + List.length (filter (fun x => negb (p x)) l).
Proof.
  induction l as [|a l IH]; simpl; [reflexivity|].
  destruct (p a); simpl; lia.
Qed.

Lemma filter_twice {A : Type} (p q : A -> bool) l :
  filter q (filter p l) = filter (fun x => p x && q x) l.
Proof.
  induction l as [|a l IH]; simpl; [reflexivity|].
  destruct (p a); simpl; [destruct (q a); simpl; now rewrite IH | exact IH].
Qed.

Lemma filter_or_length {A : Type} (p q : A -> bool) l :
  (forall x, In x l -> p x = true -> q x = false) ->
  List.length (filter (fun x => p x || q x) l) =
  List.length (filter p l) + List.length (filter q l).
Proof.
  induction l as [|a l IH]; intros D; [reflexivity|].
  assert (IH' := IH (fun x I => D x (or_intror I))).
  specialize (D a (or_introl eq_refl)). cbn [filter].
  destruct (p a); cbn [orb].
  - rewrite D by reflexivity. cbn [List.length]. lia.
  - destruct (q a); cbn [List.length]; lia.
Qed.

Lemma is_end_in_cons bid ids e :
  Week03a.is_end_in (bid :: ids) e = is_end_for bid e || Week03a.is_end_in ids e.
Proof.
  unfold Week03a.is_end_in, is_end_for, attr_eq.
  destruct (is_tag (hp "fieldEnd") e); [|reflexivity].
  destruct (get e "beginIDRef") as [ref|]; reflexivity.
Qed.

Lemma is_end_for_not_in bid ids e :
  ~ In bid ids -> is_end_for bid e = true -> Week03a.is_end_in ids e = false.
Proof.
  unfold Week03a.is_end_in, is_end_for, attr_eq. intros N E.
  destruct (is_tag (hp "fieldEnd") e); [|reflexivity].
  destruct (get e "beginIDRef") as [ref|]; [|discriminate].
  simpl in E. apply String.eqb_eq in E. subst ref. simpl.
  destruct (existsb (String.eqb bid) ids) eqn:X; [|reflexivity].
  apply existsb_exists in X as (y & Iy & Ey). apply String.eqb_eq in Ey. now subst.
Qed.

(** With distinct ids each referenced by one end marker, the end markers
    that refer to one of the ids are as many as the ids. *)
Lemma ends_count ids l :
  NoDup ids ->
  (forall bid, In bid ids -> List.length (filter (is_end_for bid) l) = 1) ->
  List.length (filter (Week03a.is_end_in ids) l) = List.length ids.
Proof.
  induction 1 as [|bid ids Nb _ IH]; intros One.
  - clear One. simpl. induction l as [|a l IHl]; simpl; [reflexivity|].
    unfold Week03a.is_end_in at 1. simpl.
    destruct (is_tag (hp "fieldEnd") a); simpl; [|exact IHl].
    destruct (get a "beginIDRef"); exact IHl.
  - rewrite (filter_ext _ (fun e => is_end_for bid e || Week03a.is_end_in ids e))
      by (intros e; apply is_end_in_cons).
    rewrite filter_or_length.
    + rewrite One by now left. rewrite IH; [reflexivity|]. intros b Ib. apply One. now right.
    + intros x _. now apply is_end_for_not_in.
Qed.

Lemma begin_ids_length l :
  (forall fb, In fb l -> exists bid, get fb "id" = Some bid /\ bid <> EmptyString) ->
  List.length
    (flat_map (fun fb => match get fb "id" with
                         | Some bid => if nonempty bid then [bid] else []
                         | None => []
                         end) l) = List.length l.
Proof.
  induction l as [|fb l IH]; intros Hid; [reflexivity|].
  cbn [flat_map]. rewrite length_app, IH by (intros x Ix; apply Hid; now right).
  destruct (Hid fb (or_introl eq_refl)) as (bid & -> & N).
  apply nonempty_true in N. rewrite N. reflexivity.
Qed.

Lemma end_not_begin ids e :
  Week03a.is_end_in ids e = true -> Week03a.is_clickhere_begin e = false.
Proof.
  unfold Week03a.is_end_in, Week03a.is_clickhere_begin, is_tag. intros E.
  apply andb_prop in E as [E _]. apply String.eqb_eq in E. rewrite E. reflexivity.
Qed.

Lemma is_end_in_nil e : Week03a.is_end_in [] e = false.
Proof.
  unfold Week03a.is_end_in. destruct (is_tag (hp "fieldEnd") e); [|reflexivity].
  destruct (get e "beginIDRef"); reflexivity.
Qed.

Lemma strip_shape root :
  let ids := Week03a.clickhere_begin_ids root in
  (forall x, In x (descendants root) ->
             Week03a.is_clickhere_begin x = true \/ Week03a.is_end_in ids x = true ->
             children x = []) ->
  map base (descendants (fst (Week03a.strip_clickhere root))) =
  map base (filter (kept ids) (descendants root)).
Proof.
  intros ids Hl. unfold Week03a.strip_clickhere. cbv zeta. cbn [fst]. fold ids.
  set (root1 := Week03a.remove_all Week03a.is_clickhere_begin root).
  assert (B1 : map base (descendants root1) =
               map base (filter (fun x => negb (Week03a.is_clickhere_begin x))
                                (descendants root))).
  { apply remove_all_filter. intros x Ix Px. apply Hl; auto. }
  destruct ids as [|i0 ids0] eqn:Eids.
  - rewrite B1. f_equal. apply filter_ext. intros e. unfold kept.
    now rewrite is_end_in_nil, andb_true_r.
  - rewrite <- Eids in *. clear Eids.
    rewrite remove_all_filter.
    + rewrite (filter_base _ (fun b => negb (Week03a.is_end_in ids (of_base b))))
        by (intros x; now rewrite <- end_in_of_base).
      rewrite B1.
      rewrite <- (filter_base (fun x => negb (Week03a.is_end_in ids x)))
        by (intros x; now rewrite <- end_in_of_base).
      now rewrite filter_twice.
    + intros x' Ix' Px'. apply in_remove_all in Ix' as (x & Ix & ->).
      rewrite children_remove_all.
      rewrite (end_in_of_base ids), base_remove_all, <- end_in_of_base in Px'.
      rewrite (Hl x Ix (or_intror Px')). reflexivity.
Qed.

(** C9 (as amended).  The strip pass is switched off by default.  Applied
    to a tree whose targeted markers have no child elements, it returns a
    tree whose elements are, in the same document order and with the same
    tag, attributes, text and tail, the elements of the input other than
    the begin markers of type CLICK_HERE (all of them, with or without an
    end marker) and the end markers whose back-reference is the non-empty
    id of one of them.  When these markers come in N pairs (every such
    begin marker has a non-empty id, the ids are distinct, and each is
    referenced by one end marker), that is 2N elements fewer. *)
Theorem C9_strip_removes_markers :
  forall (root : element),
    let begins := filter Week03a.is_clickhere_begin (descendants root) in
    let ids := Week03a.clickhere_begin_ids root in
    let ends := filter (Week03a.is_end_in ids) (descendants root) in
    let root' := fst (Week03a.strip_clickhere root) in
    (forall x, In x (descendants root) ->
               Week03a.is_clickhere_begin x = true \/ Week03a.is_end_in ids x = true ->
               children x = []) ->
    Week03a.STRIP_CLICK_HERE = false /\
    base root' = base root /\
    map base (descendants root') = map base (filter (kept ids) (descendants root)) /\
    List.length (descendants root)
    = List.length (descendants root') + List.length begins + List.length ends /\
    ((forall fb, In fb begins ->
                 exists bid, get fb "id" = Some bid /\ bid <> EmptyString) ->
     NoDup ids ->
     (forall bid, In bid ids ->
                  List.length (filter (is_end_for bid) (descendants root)) = 1) ->
     List.length ends = List.length begins /\
     List.length (descendants root)
     = List.length (descendants root') + 2 * List.length begins).
Proof.
  intros root begins ids ends root' Hl.
  assert (Sh := strip_shape root Hl). fold ids root' in Sh.
  assert (Cnt : List.length (descendants root)
                = List.length (descendants root') + List.length begins + List.length ends).
  { pose proof (f_equal (@List.length _) Sh) as E. rewrite !length_map in E. rewrite E.
    rewrite (filter_length_split Week03a.is_clickhere_begin (descendants root)).
    fold begins.
    rewrite (filter_length_split (Week03a.is_end_in ids)
               (filter (fun x => negb (Week03a.is_clickhere_begin x)) (descendants root))).
    rewrite !filter_twice.
    rewrite (filter_ext (fun x => negb (Week03a.is_clickhere_begin x) && Week03a.is_end_in ids x)
                        (Week03a.is_end_in ids)).
    - fold ends. unfold kept. lia.
    - intros e. destruct (Week03a.is_end_in ids e) eqn:E'.
      + now rewrite (end_not_begin ids e E').
      + apply andb_false_r. }
  split; [reflexivity|]. split; [|split; [exact Sh | split; [exact Cnt|]]].
  - unfold root', Week03a.strip_clickhere. cbv zeta. cbn [fst].
    destruct (Week03a.clickhere_begin_ids root); now rewrite ?base_remove_all.
  - intros Hid Nd One.
    assert (Li : List.length ids = List.length begins).
    { unfold ids, Week03a.clickhere_begin_ids. now apply begin_ids_length. }
    assert (Le : List.length ends = List.length begins).
    { rewrite <- Li. now apply ends_count. }
    split; [exact Le | lia].
Qed.

Lemma C9_strip_witness :
  let root' := fst (Week03a.strip_clickhere paired) in
  map base (descendants root')
  = map base (filter (kept (Week03a.clickhere_begin_ids paired)) (descendants paired)) /\
  List.length (descendants paired) = List.length (descendants root') + 2 * 2.
Proof.
  destruct (C9_strip_removes_markers paired) as (_ & _ & Sh & _ & Pairs).
  - intros x I P. vm_compute in I.
    repeat (destruct I as [<-|I];
            [try reflexivity; destruct P as [P|P]; vm_compute in P; discriminate|]).
    destruct I.
  - destruct Pairs as [_ Cnt].
    + intros fb I. vm_compute in I.
      repeat (destruct I as [<-|I]; [eexists; split; [reflexivity | discriminate]|]).
      destruct I.
    + vm_compute. repeat constructor; simpl; intuition discriminate.
    + intros bid I. vm_compute in I.
      repeat (destruct I as [<-|I]; [vm_compute; reflexivity|]).
      destruct I.
    + split; [exact Sh | exact Cnt].
Defined.

(** C9, as stated, fails: the sample section has four placeholder pairs and
    one placeholder begin marker without an end marker (DATE); the pass
    removes nine elements, the unpaired begin marker among them. *)
Lemma C9_counterexample_unpaired_begin :
  let root := Demo.section0 in
  let root' := fst (Week03a.strip_clickhere root) in
  let paired_begin fb :=
    Week03a.is_clickhere_begin fb &&
    match get fb "id" with
    | Some bid => existsb (is_end_for bid) (following root (uid fb))
    | None => false
    end in
  List.length (filter paired_begin (descendants root)) = 4 /\
  List.length (descendants root) = List.length (descendants root') + 9 /\
  lookup root 14 = Some (Demo.fb 14 "DATE" "13" "CLICK_HERE") /\
  first_end root 14 "13" = None /\
  lookup root' 14 = None.
Proof. vm_compute. repeat split. Qed.

(** ** C10: one asset per image slot *)

Lemma first_some_first {A B : Type} (f : A -> option B) l b :
  Week03a.first_some f l = Some b <->
  exists pre a post, l = pre ++ a :: post /\
                     Forall (fun x => f x = None) pre /\ f a = Some b.
Proof.
  split.
  - induction l as [|a l IH]; simpl; [discriminate|].
    destruct (f a) as [b'|] eqn:Fa.
    + intros [= <-]. exists [], a, l. auto.
    + intros F. destruct (IH F) as (pre & a' & post & -> & Fp & Fa').
      exists (a :: pre), a', post. auto.
  - intros (pre & a & post & -> & Fp & Fa).
    induction Fp as [|x pre Fx _ IH]; simpl; [now rewrite Fa | now rewrite Fx].
Qed.

Lemma dict_set_in {V : Type} (d : dict V) k v k' v' :
  In (k', v') (dict_set d k v) -> (k' = k /\ v' = v) \/ In (k', v') d.
Proof.
  induction d as [|[a b] d IH]; simpl.
  - intros [[= <- <-]|[]]. auto.
  - destruct (String.eqb_spec a k) as [->|N]; simpl.
    + intros [[= <- <-]|I]; auto.
    + intros [E|I]; [auto|]. destruct (IH I); auto.
Qed.

Section OneAsset.
Context `{Lxml} `{Base64}.

Lemma resolve_slots_sound all_xml oc slots slot href :
  In (slot, href) (Week03a.resolve_slots all_xml oc slots) ->
  Week03a.bindata_of_slot all_xml oc slot = Some href.
Proof.
  unfold Week03a.resolve_slots.
  assert (G : forall acc,
             (forall s p, In (s, p) acc -> Week03a.bindata_of_slot all_xml oc s = Some p) ->
             forall s p,
               In (s, p)
                  (fold_left
                     (fun slot_to_bindata slot0 =>
                        match Week03a.bindata_of_slot all_xml oc slot0 with
                        | Some href0 => dict_set slot_to_bindata slot0 href0
                        | None => slot_to_bindata
                        end) slots acc) ->
               Week03a.bindata_of_slot all_xml oc s = Some p).
  { induction slots as [|s0 slots IH]; intros acc Ha s p; cbn [fold_left]; [apply Ha|].
    apply IH. intros s' p' I.
    destruct (Week03a.bindata_of_slot all_xml oc s0) as [h|] eqn:B; [|now apply Ha].
    apply dict_set_in in I as [[-> ->]|I]; [exact B | now apply Ha]. }
  apply G. intros s p [].
Qed.

Lemma pic_binary_id_of_inv root fb bid :
  Week03a.pic_binary_id_of root fb = Some bid ->
  exists begin_id en pic img,
    get fb "id" = Some begin_id /\
    first_end root (uid fb) begin_id = Some en /\
    Week03a.first_pic root (uid en) = Some pic /\
    Week03a.first_img pic = Some img /\
    get img "binaryItemIDRef" = Some bid.
Proof.
  unfold Week03a.pic_binary_id_of.
  destruct (get fb "id") as [begin_id|] eqn:E1; [|discriminate].
  destruct (negb (nonempty begin_id)); [discriminate|].
  destruct (first_end root (uid fb) begin_id) as [en|] eqn:E2; [|discriminate].
  destruct (Week03a.first_pic root (uid en)) as [pic|] eqn:E3; [|discriminate].
  destruct (Week03a.first_img pic) as [img|] eqn:E4; [|discriminate].
  intros G. exists begin_id, en, pic, img. repeat split; auto.
Qed.

Lemma pic_id_in_part_inv oc slot part bid :
  Week03a.pic_id_in_part oc slot part = Some bid ->
  exists root,
    Week03a.xml_parse_strict (snd part) = Some root /\
    Week03a.find_pic_binary_id root slot = Some bid /\ bid <> EmptyString.
Proof.
  unfold Week03a.pic_id_in_part, Week03a.find_pic_binary_id_after_field.
  destruct (oc && negb (startswith (fst part) "Contents/")); [discriminate|].
  destruct (negb (Week03a.is_xml_path (fst part))); [discriminate|].
  destruct (Week03a.xml_parse_strict (snd part)) as [root|] eqn:E1; [|discriminate].
  destruct (Week03a.find_pic_binary_id root slot) as [b|] eqn:E2; [|discriminate].
  destruct (nonempty b) eqn:Nb; [|discriminate].
  intros [= <-]. exists root. repeat split; auto. now apply nonempty_true.
Qed.

(** C10.  An image slot is mapped to at most one asset path.  The path
    comes from one binary reference id: the one found in the first scanned
    part (in preload order) that yields a non-empty id, and there at the
    first begin marker of that name, in document order, whose end marker
    exists and whose first following picture holds an image element with a
    binary reference.  Later occurrences and later parts are not looked at. *)
Theorem C10_one_asset_per_image_slot :
  forall (all_xml : dict bytes) (only_contents : bool) (slots : list string)
         (slot href : string),
    In (slot, href) (Week03a.resolve_slots all_xml only_contents slots) ->
    (forall href', In (slot, href') (Week03a.resolve_slots all_xml only_contents slots) ->
                   href' = href) /\
    exists before part after root pre fb post begin_id en pic img bid,
      all_xml = before ++ part :: after /\
      Forall (fun q => Week03a.pic_id_in_part only_contents slot q = None) before /\
      Week03a.xml_parse_strict (snd part) = Some root /\
      Week03a.field_begins_named root slot = pre ++ fb :: post /\
      Forall (fun x => Week03a.pic_binary_id_of root x = None) pre /\
      get fb "id" = Some begin_id /\
      first_end root (uid fb) begin_id = Some en /\
      Week03a.first_pic root (uid en) = Some pic /\
      Week03a.first_img pic = Some img /\
      get img "binaryItemIDRef" = Some bid /\ bid <> EmptyString /\
      Week03a.resolve_bindata_href_for_binary_item all_xml bid = Some href.
Proof.
  intros all_xml oc slots slot href I.
  pose proof (resolve_slots_sound _ _ _ _ _ I) as B. split.
  - intros href' I'. apply resolve_slots_sound in I'. congruence.
  - unfold Week03a.bindata_of_slot in B.
    destruct (Week03a.first_some (Week03a.pic_id_in_part oc slot) all_xml) as [bid|] eqn:F;
      [|discriminate].
    destruct (Week03a.resolve_bindata_href_for_binary_item all_xml bid) as [h|] eqn:R;
      [|discriminate].
    destruct (nonempty h); [|discriminate]. injection B as ->.
    apply first_some_first in F as (before & part & after & E & Fb & P).
    apply pic_id_in_part_inv in P as (root & Pr & Fp & Nb).
    unfold Week03a.find_pic_binary_id in Fp.
    apply first_some_first in Fp as (pre & fb & post & Ef & Fpre & Pf).
    apply pic_binary_id_of_inv in Pf as (begin_id & en & pic & img & G1 & G2 & G3 & G4 & G5).
    exists before, part, after, root, pre, fb, post, begin_id, en, pic, img, bid.
    repeat split; assumption.
Qed.
End OneAsset.

Lemma C10_one_asset_witness :
  exists before part after root pre fb post begin_id en pic img bid,
    @Week03a.preload DemoZip.template = before ++ part :: after /\
    Forall (fun q => @Week03a.pic_id_in_part DemoZip.lxml true "IMG_PHOTO" q = None) before /\
    @Week03a.xml_parse_strict DemoZip.lxml (snd part) = Some root /\
    Week03a.field_begins_named root "IMG_PHOTO" = pre ++ fb :: post /\
    Forall (fun x => Week03a.pic_binary_id_of root x = None) pre /\
    get fb "id" = Some begin_id /\
    first_end root (uid fb) begin_id = Some en /\
    Week03a.first_pic root (uid en) = Some pic /\
    Week03a.first_img pic = Some img /\
    get img "binaryItemIDRef" = Some bid /\ bid <> EmptyString /\
    @Week03a.resolve_bindata_href_for_binary_item DemoZip.lxml
        (Week03a.preload DemoZip.template) bid = Some "BinData/image1.png".
Proof.
  apply (@C10_one_asset_per_image_slot DemoZip.lxml
           (Week03a.preload DemoZip.template) true ["IMG_PHOTO"]
           "IMG_PHOTO" "BinData/image1.png").
  vm_compute. auto.
Defined.

(* ========================================================================= *)
(** * Further properties of the two programs *)
(* ========================================================================= *)

(** ** The shape of the produced container *)

Section Shape.
Context `{Lxml} `{Base64}.

Lemma classify_keys acc kv k :
  In k (dict_keys (fst (Week03a.classify acc kv))) \/
  In k (dict_keys (snd (Week03a.classify acc kv))) ->
  In k (dict_keys (fst acc)) \/ In k (dict_keys (snd acc)) \/ k = fst kv.
Proof.
  destruct acc as [tv iv], kv as [k0 v]. unfold dict_keys. cbn [fst snd Week03a.classify].
  assert (S : forall (V : Type) (d : dict V) (x : V),
             In k (map fst (dict_set d k0 x)) -> In k (map fst d) \/ k = k0).
  { intros V d x I. apply in_map_iff in I as ([a b] & E & I). cbn [fst] in E. subst a.
    apply dict_set_in in I as [[-> _]|I]; [now right | left].
    apply in_map_iff. exists (k, b). auto. }
  destruct v as [s|s|items shown|s]; cbn [fst snd].
  - intros [I|I]; [apply S in I as [I| ->]|]; auto.
  - intros [I|I]; [apply S in I as [I| ->]|]; auto.
  - destruct (startswith k0 Week03a.IMG_PREFIX && dict_mem items "dataUrl"); cbn [fst snd].
    + intros [I|I]; [|apply S in I as [I| ->]]; auto.
    + intros [I|I]; auto.
  - intros [I|I]; auto.
Qed.

Lemma split_payload_keys payload k :
  In k (dict_keys (fst (Week03a.split_payload payload))) \/
  In k (dict_keys (snd (Week03a.split_payload payload))) ->
  In k (dict_keys payload).
Proof.
  unfold Week03a.split_payload.
  assert (G : forall acc,
             In k (dict_keys (fst (fold_left Week03a.classify payload acc))) \/
             In k (dict_keys (snd (fold_left Week03a.classify payload acc))) ->
             In k (dict_keys (fst acc)) \/ In k (dict_keys (snd acc)) \/
             In k (dict_keys payload)).
  { induction payload as [|kv payload IH]; intros acc I; cbn [fold_left] in I.
    - tauto.
    - apply IH in I. unfold dict_keys at 3. cbn [map].
      assert (J : In k (dict_keys (fst acc)) \/ In k (dict_keys (snd acc)) \/ k = fst kv
                  \/ In k (dict_keys payload)).
      { destruct I as [I|[I|I]].
        - destruct (classify_keys acc kv k (or_introl I)) as [J|[J|J]]; auto.
        - destruct (classify_keys acc kv k (or_intror I)) as [J|[J|J]]; auto.
        - auto. }
      destruct J as [J|[J|[J|J]]].
      + now left.
      + right. now left.
      + right. right. left. now symmetry.
      + right. right. now right. }
  intros I. apply G in I. cbn [fst snd dict_keys map] in I.
  destruct I as [[]|[[]|I]]. exact I.
Qed.
End Shape.

Section Shape2.
Context `{Lxml} `{Base64}.

Lemma existsb_false {A : Type} (f : A -> bool) l :
  (forall x, In x l -> f x = false) -> existsb f l = false.
Proof.
  induction l as [|a l IH]; intros F; [reflexivity|]. cbn [existsb].
  rewrite (F a (or_introl eq_refl)), IH; auto. intros x I. apply F. now right.
Qed.

Lemma maybe_related_unmentioned data payload :
  (forall k, In k (dict_keys payload) -> contains data k = false) ->
  Week03a.maybe_related data (fst (Week03a.split_payload payload))
                        (snd (Week03a.split_payload payload)) = false.
Proof.
  intros U. unfold Week03a.maybe_related.
  rewrite !existsb_false; [reflexivity| |];
    intros k I; apply U, split_payload_keys; auto.
Qed.

Lemma resolve_slots_keys all_xml oc slots slot href :
  In (slot, href) (Week03a.resolve_slots all_xml oc slots) -> In slot slots.
Proof.
  unfold Week03a.resolve_slots.
  assert (G : forall acc s p,
             In (s, p)
                (fold_left
                   (fun slot_to_bindata slot0 =>
                      match Week03a.bindata_of_slot all_xml oc slot0 with
                      | Some href0 => dict_set slot_to_bindata slot0 href0
                      | None => slot_to_bindata
                      end) slots acc) ->
             In (s, p) acc \/ In s slots).
  { induction slots as [|s0 slots IH]; intros acc s p I; cbn [fold_left] in I; [now left|].
    apply IH in I as [I|I]; [|right; now right].
    destruct (Week03a.bindata_of_slot all_xml oc s0); [|now left].
    apply dict_set_in in I as [[-> _]|I]; [right; now left | now left]. }
  intros I. apply G in I as [[]|I]. exact I.
Qed.

(** X1.  Whatever the payload, a successful rewrite keeps the part names and
    their order, and copies every part that is neither a candidate XML part
    nor under BinData byte for byte. *)
Theorem generate_keeps_names_and_other_parts :
  forall (zin : zipfile) (payload : dict pyval) (only_contents : bool) (out : zipfile),
    NoDup (map fst zin) ->
    Week03a.generate_submit_hwpx (Some zin) payload only_contents = Ok out ->
    map fst out = map fst zin /\
    forall name data,
      In (name, data) zin ->
      candidate only_contents name = false -> startswith name "BinData/" = false ->
      zread out name = Some data.
Proof.
  intros zin payload oc out N G.
  destruct (generate_ok_inv zin payload oc out G) as (s2i & _ & ->). split.
  - rewrite map_map. reflexivity.
  - intros name data I C B. rewrite (zread_map _ zin name data N I). f_equal.
    unfold Week03a.rewrite_entry. unfold candidate in C. cbn [fst].
    rewrite C, B. now apply data_of_in.
Qed.

(** X2.  A candidate XML part whose bytes mention none of the submitted names is
    copied byte for byte: it is not even parsed. *)
Theorem generate_skips_unrelated_xml :
  forall (zin : zipfile) (payload : dict pyval) (only_contents : bool) (out : zipfile)
         (name : string) (data : bytes),
    NoDup (map fst zin) ->
    Week03a.generate_submit_hwpx (Some zin) payload only_contents = Ok out ->
    In (name, data) zin ->
    candidate only_contents name = true ->
    (forall k, In k (dict_keys payload) -> contains data k = false) ->
    zread out name = Some data.
Proof.
  intros zin payload oc out name data N G I C U.
  destruct (generate_ok_inv zin payload oc out G) as (s2i & _ & ->).
  rewrite (zread_map _ zin name data N I). f_equal.
  unfold Week03a.rewrite_entry. unfold candidate in C. cbn [fst].
  rewrite C, (data_of_in zin (name, data) N I). cbn [snd].
  now rewrite maybe_related_unmentioned.
Qed.

(** X3.  A part under BinData keeps its bytes unless a submitted image slot
    resolves to exactly its name. *)
Theorem generate_keeps_unresolved_assets :
  forall (zin : zipfile) (payload : dict pyval) (only_contents : bool) (out : zipfile)
         (name : string) (data : bytes),
    NoDup (map fst zin) ->
    Week03a.generate_submit_hwpx (Some zin) payload only_contents = Ok out ->
    In (name, data) zin ->
    candidate only_contents name = false ->
    (forall slot, In slot (dict_keys (snd (Week03a.split_payload payload))) ->
                  Week03a.bindata_of_slot (Week03a.preload zin) only_contents slot
                  <> Some name) ->
    zread out name = Some data.
Proof.
  intros zin payload oc out name data N G I C U.
  destruct (generate_ok_inv zin payload oc out G) as (s2i & _ & ->).
  rewrite (zread_map _ zin name data N I). f_equal.
  unfold Week03a.rewrite_entry. unfold candidate in C. cbn [fst].
  rewrite C, (data_of_in zin (name, data) N I). cbn [snd].
  destruct (startswith name "BinData/"); [|reflexivity].
  destruct (find _ _) as [[slot path]|] eqn:F; [|reflexivity].
  exfalso. apply find_some in F as [Is E]. cbn [fst snd] in E.
  apply andb_prop in E as [E _]. apply String.eqb_eq in E. subst path.
  apply (U slot).
  - now apply resolve_slots_keys in Is.
  - now apply resolve_slots_sound in Is.
Qed.
End Shape2.

Lemma generate_keeps_names_witness :
  let out := @Week03a.generate_submit_hwpx DemoZip.lxml DemoZip.base64
               (Some DemoZip.template) demo_payload true in
  part out "mimetype" = Some "application/hwp+zip" /\
  part out "Preview/PrvText.txt" = Some "preview".
Proof.
  cbv zeta.
  destruct (@Week03a.generate_submit_hwpx DemoZip.lxml DemoZip.base64
              (Some DemoZip.template) demo_payload true) as [out|e] eqn:G;
    [|vm_compute in G; discriminate].
  destruct (@generate_keeps_names_and_other_parts DemoZip.lxml DemoZip.base64
              DemoZip.template demo_payload true out NoDup_template G) as [_ P].
  cbn [part]. split; apply P; try reflexivity; vm_compute; tauto.
Defined.

Lemma generate_skips_unrelated_witness :
  part (@Week03a.generate_submit_hwpx DemoZip.lxml DemoZip.base64
          (Some DemoZip.template) [("DATE", PyStr "tomorrow")] true)
       "Contents/header.xml"
  = Some (DemoLib.serialize DemoZip.header).
Proof.
  destruct (@Week03a.generate_submit_hwpx DemoZip.lxml DemoZip.base64
              (Some DemoZip.template) [("DATE", PyStr "tomorrow")] true) as [out|e] eqn:G;
    [|vm_compute in G; discriminate].
  cbn [part].
  apply (@generate_skips_unrelated_xml DemoZip.lxml DemoZip.base64
           DemoZip.template [("DATE", PyStr "tomorrow")] true out
           "Contents/header.xml" (DemoLib.serialize DemoZip.header) NoDup_template G).
  - vm_compute. tauto.
  - reflexivity.
  - intros k [<-|[]]. vm_compute. reflexivity.
Defined.

Lemma generate_keeps_unresolved_witness :
  part (@Week03a.generate_submit_hwpx DemoZip.lxml DemoZip.base64
          (Some DemoZip.template) [("IMG_LOGO", DemoZip.photo DemoZip.png_url)] true)
       "BinData/image1.png"
  = Some "old picture".
Proof.
  destruct (@Week03a.generate_submit_hwpx DemoZip.lxml DemoZip.base64
              (Some DemoZip.template) [("IMG_LOGO", DemoZip.photo DemoZip.png_url)] true)
    as [out|e] eqn:G; [|vm_compute in G; discriminate].
  cbn [part].
  apply (@generate_keeps_unresolved_assets DemoZip.lxml DemoZip.base64
           DemoZip.template [("IMG_LOGO", DemoZip.photo DemoZip.png_url)] true out
           "BinData/image1.png" "old picture" NoDup_template G).
  - vm_compute. tauto.
  - reflexivity.
  - intros slot I. vm_compute in I. destruct I as [<-|[]].
    vm_compute. discriminate.
Defined.

(** ** The payload split *)

Lemma dict_set_fresh {V : Type} (d : dict V) k v :
  ~ In k (dict_keys d) -> dict_set d k v = d ++ [(k, v)].
Proof.
  unfold dict_keys. induction d as [|[a b] d IH]; cbn [map dict_set app]; intros N.
  - reflexivity.
  - destruct (String.eqb_spec a k) as [->|_].
    + exfalso. apply N. now left.
    + rewrite IH; [reflexivity|]. intros I. apply N. now right.
Qed.

Lemma text_entry_keys l k :
  In k (dict_keys (flat_map text_entry l)) -> In k (dict_keys l).
Proof.
  unfold dict_keys. induction l as [|[a v] l IH]; cbn [flat_map map]; [easy|].
  rewrite map_app. intros I. apply in_app_or in I as [I|I]; [|right; auto].
  left. unfold text_entry in I. cbn [fst snd] in *.
  destruct v; cbn in I; tauto.
Qed.

Lemma image_entry_keys l k :
  In k (dict_keys (flat_map image_entry l)) -> In k (dict_keys l).
Proof.
  unfold dict_keys. induction l as [|[a v] l IH]; cbn [flat_map map]; [easy|].
  rewrite map_app. intros I. apply in_app_or in I as [I|I]; [|right; auto].
  left. unfold image_entry in I. cbn [fst snd] in *.
  destruct v; cbn in I; try tauto.
  destruct (startswith a Week03a.IMG_PREFIX && dict_mem items "dataUrl"); cbn in I; tauto.
Qed.

Lemma classify_fresh tv iv kv :
  ~ In (fst kv) (dict_keys tv) -> ~ In (fst kv) (dict_keys iv) ->
  Week03a.classify (tv, iv) kv = (tv ++ text_entry kv, iv ++ image_entry kv).
Proof.
  intros Nt Ni. destruct kv as [k v]. unfold text_entry, image_entry.
  cbn [fst snd Week03a.classify] in *.
  destruct v as [s|s|items shown|s]; cbn [py_str].
  - now rewrite dict_set_fresh, app_nil_r.
  - now rewrite dict_set_fresh, app_nil_r.
  - destruct (startswith k Week03a.IMG_PREFIX && dict_mem items "dataUrl").
    + now rewrite dict_set_fresh, app_nil_r.
    + now rewrite !app_nil_r.
  - now rewrite !app_nil_r.
Qed.

(** X4.  The payload of a JSON object (distinct names) is split entry by entry,
    in order: a string or a number becomes a text value, also under a name
    with the IMG_ prefix; a dictionary becomes an image submission when its
    name has the prefix and it holds a dataUrl; everything else is
    ignored. *)
Theorem split_payload_entrywise :
  forall (payload : dict pyval),
    NoDup (dict_keys payload) ->
    Week03a.split_payload payload
    = (flat_map text_entry payload, flat_map image_entry payload).
Proof.
  intros payload N. unfold Week03a.split_payload.
  assert (G : forall l done,
             NoDup (dict_keys (done ++ l)) ->
             fold_left Week03a.classify l
                       (flat_map text_entry done, flat_map image_entry done)
             = (flat_map text_entry (done ++ l), flat_map image_entry (done ++ l))).
  { induction l as [|kv l IH]; intros done Nd; cbn [fold_left].
    - now rewrite app_nil_r.
    - assert (Nk : ~ In (fst kv) (dict_keys done)).
      { unfold dict_keys in *. rewrite map_app in Nd. cbn [map] in Nd.
        apply NoDup_remove_2 in Nd. intros I. apply Nd. apply in_or_app. now left. }
      rewrite classify_fresh.
      + replace (done ++ kv :: l) with ((done ++ [kv]) ++ l) in *
          by (now rewrite <- app_assoc).
        rewrite <- (IH (done ++ [kv]) Nd).
        rewrite !flat_map_app. cbn [flat_map]. now rewrite !app_nil_r.
      + intros I. now apply text_entry_keys in I.
      + intros I. now apply image_entry_keys in I. }
  apply (G payload [] N).
Qed.

Lemma split_payload_entrywise_witness :
  Week03a.split_payload
    [("NAME", PyStr "Alice"); ("AGE", PyNum "30"); ("IMG_A", PyStr "text");
     ("IMG_PHOTO", DemoZip.photo DemoZip.png_url);
     ("PHOTO", DemoZip.photo DemoZip.png_url);
     ("IMG_B", PyDict [("filename", PyStr "b.png")] "{...}");
     ("TAGS", PyOther "['a']")]
  = ([("NAME", "Alice"); ("AGE", "30"); ("IMG_A", "text")],
     [("IMG_PHOTO", [("filename", PyStr "a.png"); ("dataUrl", PyStr DemoZip.png_url)])]).
Proof.
  rewrite split_payload_entrywise; [reflexivity|].
  vm_compute. repeat constructor; simpl; intuition discriminate.
Defined.

(** ** When the rewrite succeeds *)

Section Success.
Context `{Lxml} `{Base64}.

Lemma decode_images_ok image_values : forall acc,
  (exists r, Week03a.decode_images image_values acc = Ok r) <->
  Forall acceptable image_values.
Proof.
  induction image_values as [|[slot info] rest IH]; intros acc; cbn [Week03a.decode_images].
  - split; [constructor | eauto].
  - split.
    + intros [r E].
      destruct (dict_get info "dataUrl") as [v|] eqn:Gd; [|discriminate].
      destruct (Week03a.decode_data_url (py_str v)) as [[mime raw]|e] eqn:D; [|discriminate].
      destruct (Week03a.allowed_mime mime) eqn:A; [|discriminate].
      constructor.
      * exists v, mime, raw. cbn [snd]. auto.
      * apply (IH (dict_set acc slot raw)). eauto.
    + intros F. inversion F as [|? ? (v & mime & raw & Gd & D & A) Fr]; subst.
      cbn [snd] in Gd. rewrite Gd, D, A. now apply IH.
Qed.

Lemma decode_images_error image_values : forall acc e,
  Week03a.decode_images image_values acc = Raise e -> exists msg, e = ValueError msg.
Proof.
  induction image_values as [|[slot info] rest IH]; intros acc e;
    cbn [Week03a.decode_images]; [discriminate|].
  destruct (dict_get info "dataUrl") as [v|]; [|intros [= <-]; eauto].
  destruct (Week03a.decode_data_url (py_str v)) as [[mime raw]|e'] eqn:D.
  - destruct (Week03a.allowed_mime mime); [apply IH | intros [= <-]; eauto].
  - intros [= <-]. now apply decode_data_url_error in D.
Qed.

(** X5.  On a readable source the rewrite succeeds exactly when every image
    submission of the payload is acceptable, whatever the parts hold; and
    when it fails, it fails with a ValueError. *)
Theorem generate_succeeds_iff_images_acceptable :
  forall (zin : zipfile) (payload : dict pyval) (only_contents : bool),
    ((exists out, Week03a.generate_submit_hwpx (Some zin) payload only_contents = Ok out)
     <-> Forall acceptable (snd (Week03a.split_payload payload))) /\
    (forall e, Week03a.generate_submit_hwpx (Some zin) payload only_contents = Raise e ->
               exists msg, e = ValueError msg) /\
    Week03a.generate_submit_hwpx None payload only_contents = Raise SourceUnreadable.
Proof.
  intros zin payload oc. unfold Week03a.generate_submit_hwpx.
  destruct (Week03a.split_payload payload) as [tv iv]. cbn [snd].
  split; [|split; [|reflexivity]].
  - rewrite <- (decode_images_ok iv []).
    destruct (Week03a.decode_images iv []) as [r|e].
    + split; eauto.
    + split; intros [x E]; discriminate.
  - intros e E. destruct (Week03a.decode_images iv []) as [r|e'] eqn:D; [discriminate|].
    injection E as <-. now apply decode_images_error in D.
Qed.
End Success.

(** ** Data URLs *)

Lemma substring_all s : substring 0 (String.length s) s = s.
Proof. induction s as [|c s IH]; simpl; congruence. Qed.

Lemma drop_app p r : Week03a.drop (String.length p) (p ++ r)%string = r.
Proof.
  unfold Week03a.drop. induction p as [|c p IH]; simpl.
  - rewrite Nat.sub_0_r. apply substring_all.
  - exact IH.
Qed.

Lemma startswith_app s p : startswith s p = true <-> exists r, s = (p ++ r)%string.
Proof.
  unfold startswith. revert s. induction p as [|c p IH]; intros s; simpl.
  - split; [intros _; exists s; reflexivity | destruct s; reflexivity].
  - destruct s as [|a s]; simpl.
    + split; [discriminate | intros [r E]; discriminate].
    + destruct (Ascii.ascii_dec c a) as [->|N].
      * rewrite IH. split; intros [r E]; exists r; congruence.
      * split; [discriminate | intros [r E]; congruence].
Qed.

Lemma mem_char_app c s t : mem_char c (s ++ t)%string = mem_char c s || mem_char c t.
Proof. induction s as [|a s IH]; simpl; [reflexivity|]. now rewrite IH, orb_assoc. Qed.

Lemma split_comma_spec s h t :
  Week03a.split_comma s = Some (h, t) <->
  s = (h ++ "," ++ t)%string /\ mem_char ","%char h = false.
Proof.
  revert h. induction s as [|c s IH]; intros h; simpl.
  - split; [discriminate|]. intros [E _]. destruct h; discriminate.
  - destruct (Ascii.eqb_spec c ","%char) as [->|N].
    + split.
      * intros [= <- <-]. auto.
      * intros [E M]. destruct h as [|a h]; simpl in *.
        -- congruence.
        -- injection E as <- _. simpl in M. discriminate.
    + destruct (Week03a.split_comma s) as [[h' t']|] eqn:S.
      * split.
        -- intros [= <- <-]. destruct (proj1 (IH h') eq_refl) as [-> M].
           split; [reflexivity|]. simpl.
           destruct (Ascii.eqb_spec c ","%char); [contradiction | exact M].
        -- intros [E M]. destruct h as [|a h]; simpl in *; [congruence|].
           injection E as <- E. apply orb_false_elim in M as [_ M].
           assert (X := proj2 (IH h) (conj E M)). congruence.
      * split; [discriminate|].
        intros [E M]. destruct h as [|a h]; simpl in *; [congruence|].
        injection E as <- E. apply orb_false_elim in M as [_ M].
        assert (X := proj2 (IH h) (conj E M)). congruence.
Qed.

Lemma until_semicolon_app m r :
  mem_char ";"%char m = false ->
  Week03a.until_semicolon (m ++ String ";"%char r)%string = m.
Proof.
  induction m as [|c m IH]; simpl; [reflexivity|].
  intros M. apply orb_false_elim in M as [N M]. rewrite N. now rewrite IH.
Qed.

Lemma until_semicolon_spec s :
  mem_char ";"%char (Week03a.until_semicolon s) = false /\
  exists r, s = (Week03a.until_semicolon s ++ r)%string.
Proof.
  induction s as [|c s [M [r E]]]; simpl.
  - split; [reflexivity | exists EmptyString; reflexivity].
  - destruct (Ascii.eqb c ";"%char) eqn:C; simpl.
    + split; [reflexivity | eexists; reflexivity].
    + rewrite C, M. split; [reflexivity|]. exists r. now rewrite <- E.
Qed.

Lemma match_header_spec header m :
  Week03a.match_header header = Some m <->
  exists rest, header = ("data:" ++ m ++ ";base64" ++ rest)%string /\
               m <> EmptyString /\ mem_char ";"%char m = false.
Proof.
  unfold Week03a.match_header. split.
  - destruct (startswith header "data:") eqn:S; [|discriminate].
    apply startswith_app in S as [r ->].
    change 5 with (String.length "data:"). rewrite drop_app.
    destruct (until_semicolon_spec r) as [M [r' E]].
    set (m0 := Week03a.until_semicolon r) in *.
    destruct (nonempty m0) eqn:Ne; [|discriminate]. cbn [andb].
    destruct (startswith (Week03a.drop (String.length m0) r) ";base64") eqn:B; [|discriminate].
    intros [= <-]. rewrite E, drop_app in B. apply startswith_app in B as [rest ->].
    exists rest. rewrite E. repeat split; auto. now apply nonempty_true.
  - intros (rest & -> & Ne & M).
    assert (S : startswith ("data:" ++ m ++ ";base64" ++ rest) "data:" = true)
      by (apply startswith_app; eauto).
    rewrite S. change 5 with (String.length "data:"). rewrite drop_app.
    change (m ++ ";base64" ++ rest)%string
      with (m ++ String ";"%char ("base64" ++ rest))%string.
    rewrite (until_semicolon_app m _ M), drop_app.
    apply nonempty_true in Ne. rewrite Ne. cbn [andb].
    assert (B : startswith (String ";"%char ("base64" ++ rest)) ";base64" = true)
      by (apply startswith_app; exists rest; reflexivity).
    now rewrite B.
Qed.

Lemma app_assoc_string (a b c : string) : ((a ++ b) ++ c = a ++ b ++ c)%string.
Proof. induction a as [|x a IH]; simpl; congruence. Qed.

Section DataUrl.
Context `{Base64}.

(** X6.  [decode_data_url] accepts exactly the strings made of the prefix data:,
    a non-empty media type free of semicolons and commas, the marker
    ;base64, anything free of commas, a comma, and text that base64 decodes;
    it returns the media type trimmed and lower-cased with the decoded
    bytes.  Everything else raises. *)
Theorem decode_data_url_spec :
  forall (data_url mime : string) (raw : bytes),
    Week03a.decode_data_url data_url = Ok (mime, raw) <->
    exists m rest b64,
      data_url = ("data:" ++ m ++ ";base64" ++ rest ++ "," ++ b64)%string /\
      m <> EmptyString /\
      mem_char ";"%char m = false /\ mem_char ","%char m = false /\
      mem_char ","%char rest = false /\
      b64decode b64 = Some raw /\
      mime = lower (strip m).
Proof.
  intros url mime raw. unfold Week03a.decode_data_url. split.
  - destruct (startswith url "data:"); cbn [negb]; [|discriminate].
    destruct (Week03a.split_comma url) as [[header b64]|] eqn:S; [|discriminate].
    destruct (Week03a.match_header header) as [m|] eqn:Mh; [|discriminate].
    destruct (b64decode b64) as [r|] eqn:B; [|discriminate].
    intros [= <- <-].
    apply split_comma_spec in S as [-> C].
    apply match_header_spec in Mh as (rest & -> & Ne & Ms).
    rewrite !mem_char_app in C.
    apply orb_false_elim in C as [_ C]. apply orb_false_elim in C as [Cm C].
    apply orb_false_elim in C as [_ Cr].
    exists m, rest, b64. repeat split; auto.
    now rewrite !app_assoc_string.
  - intros (m & rest & b64 & -> & Ne & Ms & Cm & Cr & B & ->).
    assert (S : startswith ("data:" ++ m ++ ";base64" ++ rest ++ "," ++ b64) "data:" = true)
      by (apply startswith_app; eauto).
    rewrite S. cbn [negb].
    assert (Sp : Week03a.split_comma ("data:" ++ m ++ ";base64" ++ rest ++ "," ++ b64)
                 = Some (("data:" ++ m ++ ";base64" ++ rest)%string, b64)).
    { apply split_comma_spec. split.
      - now rewrite !app_assoc_string.
      - rewrite !mem_char_app, Cm, Cr. reflexivity. }
    rewrite Sp.
    assert (Mh : Week03a.match_header ("data:" ++ m ++ ";base64" ++ rest) = Some m)
      by (apply match_header_spec; eauto).
    now rewrite Mh, B.
Qed.
End DataUrl.

(** ** The resolved asset path *)

Lemma replace_backslash_app s t :
  replace_backslash (s ++ t) = (replace_backslash s ++ replace_backslash t)%string.
Proof. induction s as [|c s IH]; simpl; congruence. Qed.

Lemma replace_backslash_clean s : mem_char "\"%char (replace_backslash s) = false.
Proof.
  induction s as [|c s IH]; simpl; [reflexivity|]. rewrite IH.
  destruct (Ascii.eqb_spec c "\"%char) as [->|N]; [reflexivity|].
  destruct (Ascii.eqb_spec c "\"%char); [contradiction | reflexivity].
Qed.

Lemma contains_startswith s p : startswith s p = true -> contains s p = true.
Proof. intros S. destruct s; cbn [contains]; now rewrite S. Qed.

Lemma contains_cons c s p : contains s p = true -> contains (String c s) p = true.
Proof. intros C. cbn [contains]. rewrite C. apply orb_true_r. Qed.

Lemma mentions_bindata_replaced h :
  Week03a.mentions_bindata h = true ->
  contains (replace_backslash h) "BinData/" = true.
Proof.
  unfold Week03a.mentions_bindata.
  assert (P : forall s, startswith s "BinData/" = true \/ startswith s "BinData\" = true ->
                        startswith (replace_backslash s) "BinData/" = true).
  { intros s [S|S]; apply startswith_app in S as [r ->];
      rewrite replace_backslash_app; apply startswith_app; eexists; reflexivity. }
  induction h as [|c h IH].
  - intros E. discriminate.
  - intros E. apply orb_prop in E.
    assert (Q : (startswith (String c h) "BinData/" = true \/
                 startswith (String c h) "BinData\" = true) \/
                Week03a.mentions_bindata h = true).
    { unfold Week03a.mentions_bindata. cbn [contains] in E.
      destruct E as [E|E]; apply orb_prop in E as [E|E]; auto;
        right; rewrite E; auto using orb_true_r. }
    destruct Q as [Q|Q].
    + apply contains_startswith. now apply P.
    + change (replace_backslash (String c h))
        with (String (if Ascii.eqb c "\"%char then "/"%char else c) (replace_backslash h)).
      apply contains_cons. apply IH. exact Q.
Qed.

Section Resolved.
Context `{Lxml}.

Lemma first_some_in {A B : Type} (f : A -> option B) l b :
  Week03a.first_some f l = Some b -> exists a, In a l /\ f a = Some b.
Proof.
  intros F. apply first_some_first in F as (pre & a & post & -> & _ & Fa).
  exists a. split; [apply in_or_app; right; now left | exact Fa].
Qed.

Lemma href_in_tree_shape root bid href :
  Week03a.href_in_tree root bid = Some href ->
  exists h, Week03a.mentions_bindata h = true /\ href = replace_backslash h.
Proof.
  unfold Week03a.href_in_tree.
  destruct (filter _ (iter root)) as [|n l] eqn:F.
  - intros E. apply first_some_in in E as (x & _ & E).
    destruct (get x "href") as [h|]; [|discriminate].
    destruct (nonempty h && Week03a.mentions_bindata h) eqn:C; [|discriminate].
    injection E as <-. apply andb_prop in C as [_ C]. eauto.
  - intros [= <-]. assert (I : In n (n :: l)) by now left.
    rewrite <- F in I. apply filter_In in I as [_ P].
    apply andb_prop in P as [_ P]. eauto.
Qed.

Lemma first_bindata_token_shape s g :
  Week03a.first_bindata_token s = Some g ->
  exists sep t, g = ("BinData" ++ String sep t)%string /\
                (sep = "/"%char \/ sep = "\"%char).
Proof.
  induction s as [|c s IH]; cbn [Week03a.first_bindata_token].
  - unfold Week03a.bindata_token_at. simpl. discriminate.
  - destruct (Week03a.bindata_token_at (String c s)) as [t0|] eqn:T; [|exact IH].
    intros [= <-]. unfold Week03a.bindata_token_at in T.
    destruct (startswith (String c s) "BinData"); [|discriminate].
    destruct (Week03a.drop 7 (String c s)) as [|sep rest]; [discriminate|].
    destruct ((Ascii.eqb sep "/"%char || Ascii.eqb sep "\"%char) &&
              nonempty (Week03a.take_path rest)) eqn:C; [|discriminate].
    injection T as <-. exists sep, (Week03a.take_path rest). split; [reflexivity|].
    apply andb_prop in C as [C _]. apply orb_prop in C as [C|C];
      apply Ascii.eqb_eq in C; auto.
Qed.

Lemma pat_search_shape bid s g :
  Week03a.pat_search bid s = Some g ->
  exists sep t, g = ("BinData" ++ String sep t)%string /\
                (sep = "/"%char \/ sep = "\"%char).
Proof.
  induction s as [|c s IH]; cbn [Week03a.pat_search].
  - destruct (startswith EmptyString bid); [apply first_bindata_token_shape | discriminate].
  - destruct (startswith (String c s) bid); [apply first_bindata_token_shape | exact IH].
Qed.

(** X7.  A resolved asset path holds no backslash and mentions BinData/: the
    resolver never returns a path outside the BinData convention. *)
Theorem resolved_href_shape :
  forall (all_xml : dict bytes) (binary_id href : string),
    Week03a.resolve_bindata_href_for_binary_item all_xml binary_id = Some href ->
    contains href "BinData/" = true /\ mem_char "\"%char href = false /\
    href <> EmptyString.
Proof.
  intros all_xml bid href. unfold Week03a.resolve_bindata_href_for_binary_item.
  assert (G : (exists h, Week03a.mentions_bindata h = true /\ href = replace_backslash h) ->
              contains href "BinData/" = true /\ mem_char "\"%char href = false /\
              href <> EmptyString).
  { intros (h & M & ->).
    pose proof (mentions_bindata_replaced h M) as C.
    split; [exact C | split; [apply replace_backslash_clean|]].
    intros E. rewrite E in C. discriminate. }
  destruct (Week03a.first_some (Week03a.href_in_part bid) all_xml) as [h0|] eqn:D.
  - intros [= <-]. apply G. apply first_some_in in D as (part & _ & D).
    unfold Week03a.href_in_part in D.
    destruct (negb (Week03a.is_xml_path (fst part)) && negb (Week03a.is_hpf_path (fst part)));
      [discriminate|].
    destruct (Week03a.xml_parse_strict (snd part)) as [root|]; [|discriminate].
    now apply href_in_tree_shape in D.
  - intros R. apply G. apply first_some_in in R as (part & _ & R).
    unfold Week03a.href_in_raw in R.
    destruct (negb (Week03a.is_xml_path (fst part)) && negb (Week03a.is_hpf_path (fst part)));
      [discriminate|].
    destruct (Week03a.pat_search bid (snd part)) as [g|] eqn:P; [|discriminate].
    injection R as <-. apply pat_search_shape in P as (sep & t & -> & S).
    exists ("BinData" ++ String sep t)%string. split; [|reflexivity].
    unfold Week03a.mentions_bindata. destruct S as [-> | ->].
    + rewrite (contains_startswith _ "BinData/"); [reflexivity|].
      apply startswith_app. exists t. reflexivity.
    + rewrite (contains_startswith _ "BinData\"); [apply orb_true_r|].
      apply startswith_app. exists t. reflexivity.
Qed.
End Resolved.

Lemma resolved_href_shape_witness :
  contains "BinData/image1.png" "BinData/" = true /\
  mem_char "\"%char "BinData/image1.png" = false /\
  "BinData/image1.png" <> EmptyString.
Proof.
  apply (@resolved_href_shape DemoZip.lxml (Week03a.preload DemoZip.template) "image1").
  vm_compute. reflexivity.
Defined.

(** ** Stripping twice, stripping nothing *)

Lemma remove_list_none p l :
  Forall (fun c => (forall x, In x (descendants c) -> p x = false) ->
                   Week03a.remove_all p c = c) l ->
  (forall y, In y (flat_map iter l) -> p y = false) ->
  remove_list p l = l.
Proof.
  induction 1 as [|c l Hc _ IH]; intros Hn; [reflexivity|]. cbn [remove_list].
  rewrite (Hn c) by (cbn [flat_map]; apply in_or_app; left; apply in_iter_self).
  rewrite Hc, IH; [reflexivity| |].
  - intros y Iy. apply Hn. cbn [flat_map]. apply in_or_app. now right.
  - intros y Iy. apply Hn. cbn [flat_map]. apply in_or_app. left.
    rewrite iter_unfold. now right.
Qed.

Lemma remove_all_none p e :
  (forall x, In x (descendants e) -> p x = false) -> Week03a.remove_all p e = e.
Proof.
  induction e as [i t a x cs tl IH] using element_rect'. intros Hn.
  assert (E : remove_list p cs = cs) by (apply remove_list_none; auto).
  pose proof (children_remove_all p (Element i t a x cs tl)) as C.
  cbn [children] in C. rewrite E in C.
  assert (B := base_remove_all p (Element i t a x cs tl)).
  destruct (Week03a.remove_all p (Element i t a x cs tl)) as [i' t' a' x' cs' tl'].
  cbn [children] in C. unfold base in B. cbn in B. congruence.
Qed.

Lemma in_remove_list_kept p l x' :
  Forall (fun c => In x' (descendants (Week03a.remove_all p c)) ->
                   exists x, In x (descendants c) /\ p x = false /\
                             x' = Week03a.remove_all p x) l ->
  In x' (flat_map iter (remove_list p l)) ->
  exists x, In x (flat_map iter l) /\ p x = false /\ x' = Week03a.remove_all p x.
Proof.
  induction 1 as [|c l Hc _ IH]; cbn [remove_list flat_map]; [intros []|].
  destruct (p c) eqn:Pc.
  - intros I. destruct (IH I) as (x & Ix & Px & E). exists x. split; [|auto].
    apply in_or_app. now right.
  - cbn [flat_map]. intros I. apply in_app_or in I as [I|I].
    + rewrite iter_unfold in I. destruct I as [<-|I].
      * exists c. split; [|auto]. apply in_or_app. left. apply in_iter_self.
      * destruct (Hc I) as (x & Ix & Px & E). exists x. split; [|auto].
        apply in_or_app. left. rewrite iter_unfold. now right.
    + destruct (IH I) as (x & Ix & Px & E). exists x. split; [|auto].
      apply in_or_app. now right.
Qed.

Lemma in_remove_all_kept p e x' :
  In x' (descendants (Week03a.remove_all p e)) ->
  exists x, In x (descendants e) /\ p x = false /\ x' = Week03a.remove_all p x.
Proof.
  induction e as [i t a y cs tl IH] using element_rect'.
  rewrite descendants_remove_all. unfold descendants. cbn [children].
  now apply in_remove_list_kept.
Qed.

Lemma filter_none {A : Type} (p : A -> bool) l :
  (forall x, In x l -> p x = false) -> filter p l = [].
Proof.
  induction l as [|a l IH]; intros F; [reflexivity|]. cbn [filter].
  rewrite (F a (or_introl eq_refl)). apply IH. intros x I. apply F. now right.
Qed.

Lemma strip_nothing root :
  (forall x, In x (descendants root) -> Week03a.is_clickhere_begin x = false) ->
  Week03a.strip_clickhere root = (root, false).
Proof.
  intros Hn. unfold Week03a.strip_clickhere, Week03a.clickhere_begin_ids.
  rewrite (filter_none _ _ Hn). cbn [flat_map List.length Nat.eqb negb orb].
  now rewrite (remove_all_none _ _ Hn).
Qed.

Lemma clickhere_begin_remove_all p x :
  Week03a.is_clickhere_begin (Week03a.remove_all p x) = Week03a.is_clickhere_begin x.
Proof. now rewrite (clickhere_of_base (Week03a.remove_all p x)), base_remove_all,
         <- clickhere_of_base. Qed.

(** X8.  After the strip pass no begin marker of type CLICK_HERE is left, so a
    second pass changes nothing and reports no change. *)
Theorem strip_clickhere_idempotent :
  forall (root : element),
    let stripped := fst (Week03a.strip_clickhere root) in
    (forall x, In x (descendants stripped) -> Week03a.is_clickhere_begin x = false) /\
    Week03a.strip_clickhere stripped = (stripped, false).
Proof.
  intros root stripped.
  assert (Hn : forall x, In x (descendants stripped) ->
                         Week03a.is_clickhere_begin x = false).
  { unfold stripped, Week03a.strip_clickhere. cbv zeta. cbn [fst].
    assert (H1 : forall x, In x (descendants
                                   (Week03a.remove_all Week03a.is_clickhere_begin root)) ->
                           Week03a.is_clickhere_begin x = false).
    { intros x I. apply in_remove_all_kept in I as (x0 & _ & P & ->).
      now rewrite clickhere_begin_remove_all. }
    destruct (Week03a.clickhere_begin_ids root) as [|b ids]; [exact H1|].
    intros x I. apply in_remove_all_kept in I as (x0 & I0 & _ & ->).
    rewrite clickhere_begin_remove_all. now apply H1. }
  split; [exact Hn | now apply strip_nothing].
Qed.

Section StripBytes.
Context `{Lxml}.

(** X9.  A part without a begin marker of type CLICK_HERE comes back from the
    strip pass as the very bytes that went in, unflagged, even when it holds
    end markers or markers of other types. *)
Theorem strip_clickhere_fields_nothing_to_strip :
  forall (xml_bytes : bytes) (root : element),
    Week03a.xml_parse_strict xml_bytes = Some root ->
    (forall x, In x (descendants root) -> Week03a.is_clickhere_begin x = false) ->
    Week03a.strip_clickhere_fields xml_bytes = Some (xml_bytes, false).
Proof.
  intros xml root P Hn. unfold Week03a.strip_clickhere_fields.
  now rewrite P, (strip_nothing root Hn).
Qed.
End StripBytes.

Lemma strip_nothing_witness :
  @Week03a.strip_clickhere_fields DemoZip.lxml (DemoLib.serialize DemoZip.header)
  = Some (DemoLib.serialize DemoZip.header, false).
Proof.
  apply (@strip_clickhere_fields_nothing_to_strip DemoZip.lxml _ DemoZip.header).
  - vm_compute. reflexivity.
  - intros x I. vm_compute in I. destruct I as [<-|[]]. reflexivity.
Defined.

(** ** Injecting twice *)

Lemma injected_key values fb fb' : key fb = key fb' -> injected values fb = injected values fb'.
Proof.
  intros K. unfold injected.
  now rewrite (key_get _ _ "name" K), (key_get _ _ "id" K).
Qed.

Lemma in_map_key_inv l l' x' :
  map key l' = map key l -> In x' l' -> exists x, In x l /\ key x = key x'.
Proof.
  intros E I. apply (in_map key) in I. rewrite E in I.
  apply in_map_iff in I as (x & K & I). eauto.
Qed.

(** X10.  When the leaves collected by different injected begin markers do not
    overlap, injecting the same values a second time changes nothing and
    reports no change. *)
Theorem fill_fields_idempotent :
  forall (values : dict string) (root : element),
    wf root -> ends_are_leaves root ->
    (forall fb fb' w,
        In fb (field_begins root) -> In fb' (field_begins root) ->
        uid fb' <> uid fb ->
        In w (touched values root fb') -> ~ In w (touched values root fb)) ->
    let once := fst (Week03a.fill_fields root values) in
    Week03a.fill_fields once values = (once, false).
Proof.
  intros values root W L D once.
  pose proof (fill_run_ok values root W L (field_begins root) (root, false)
                (same_markup_refl root)) as (M & _ & _).
  fold (Week03a.fill_fields root values) in M. fold once in M. cbn [fst] in M.
  apply fill_fields_settled. intros fb1 I1.
  destruct (in_map_key_inv _ _ fb1 (field_begins_key root once M) I1) as (fb & I & K).
  unfold settled. rewrite <- (injected_key values fb fb1 K), <- (key_get _ _ "id" K),
    <- (key_uid _ _ K).
  destruct (injected values fb) as [v|] eqn:J; [|exact Logic.I].
  destruct (get fb "id") as [bid|] eqn:Gi; [|exact Logic.I].
  pose proof (first_end_key root once (uid fb) bid M) as Fk.
  destruct (first_end once (uid fb) bid) as [en1|] eqn:F1; [|exact Logic.I].
  destruct (first_end root (uid fb) bid) as [en|] eqn:F0; [|discriminate].
  assert (Ke : key en = key en1) by (cbn in Fk; congruence).
  pose proof F0 as F0'. apply first_end_in in F0' as [Ie Ee].
  pose proof (t_nodes_key root once (uid fb) bid en en1 M L Ke Ie (is_end_for_tag _ _ Ee))
    as Tk.
  destruct (t_nodes once (uid fb) bid en1) as [|t1 extras1]; [exact Logic.I|].
  destruct (t_nodes root (uid fb) bid en) as [|t0 extras0] eqn:T0; [discriminate|].
  apply map_key_cons in Tk as [Kt Kx].
  assert (El : leaf_ids root fb = uid t0 :: map uid extras0).
  { unfold leaf_ids. now rewrite Gi, F0, T0. }
  assert (Dfb : forall fb' w, In fb' (field_begins root) -> uid fb' <> uid fb ->
                              In w (touched values root fb') ->
                              ~ In w (uid t0 :: map uid extras0)).
  { intros fb' w I' N Iw. rewrite <- El.
    replace (leaf_ids root fb) with (touched values root fb)
      by (unfold touched; now rewrite J).
    now apply (D fb fb' w). }
  destruct (fill_fields_fan_out values root fb v (uid t0) (map uid extras0)
              W L I J El Dfb) as [V B]. fold once in V, B.
  rewrite (key_uid _ _ Kt). split; [exact V|].
  apply Forall_forall. intros x Ix. apply B.
  rewrite <- (map_uid_of_key _ _ Kx). now apply in_map.
Qed.

Lemma fill_fields_idempotent_witness :
  let values := [("NAME", "Alice"); ("PAGE", "2")] in
  let once := fst (Week03a.fill_fields Demo.section0 values) in
  Week03a.fill_fields once values = (once, false).
Proof.
  apply fill_fields_idempotent.
  - apply wf_check. vm_compute. reflexivity.
  - apply ends_are_leaves_check. vm_compute. reflexivity.
  - intros fb fb' w I I' N T. vm_compute in I.
    repeat (destruct I as [<-|I];
            [ vm_compute in I';
              repeat (destruct I' as [<-|I'];
                      [ try (exfalso; apply N; reflexivity);
                        vm_compute in T; vm_compute; intuition congruence | ]);
              destruct I' | ]).
    destruct I.
Defined.

(** ** The week02c container rewrite *)

Section Week02cShape.
Context `{Lxml}.

(** X11.  On a readable source the week02c rewrite never raises; it keeps the
    part names and their order, copies every part that is not an XML part
    in scope byte for byte, and writes an XML part in scope with its source
    bytes when parsing or serialising it fails. *)
Theorem week02c_generate_shape :
  forall (zin : zipfile) (values : dict string) (only_contents : bool),
    NoDup (map fst zin) ->
    exists out,
      Week02c.generate_submit_hwpx (Some zin) values only_contents = Ok out /\
      map fst out = map fst zin /\
      (forall name data,
          In (name, data) zin -> candidate only_contents name = false ->
          zread out name = Some data) /\
      (forall name data,
          In (name, data) zin -> candidate only_contents name = true ->
          Week02c.fill_fields_in_xml data values = None ->
          zread out name = Some data) /\
      (forall name data filled,
          In (name, data) zin -> candidate only_contents name = true ->
          Week02c.fill_fields_in_xml data values = Some filled ->
          zread out name = Some filled).
Proof.
  intros zin values oc N. eexists. split; [reflexivity|].
  split; [now rewrite map_map|].
  assert (R : forall name data, In (name, data) zin ->
                zread zin name = Some data) by (intros; now apply zread_in).
  assert (E1 : forall name data, In (name, data) zin ->
                 zread (map (fun entry =>
                               (fst entry,
                                Week02c.rewrite_entry zin oc values entry)) zin) name
                 = Some (if candidate oc name
                         then match Week02c.fill_fields_in_xml data values with
                              | Some filled => filled
                              | None => data
                              end
                         else data)).
  { intros name data I. rewrite (zread_map _ zin name data N I). f_equal.
    unfold Week02c.rewrite_entry. cbn [fst snd]. rewrite (R name data I).
    reflexivity. }
  split; [|split].
  - intros name data I C. now rewrite (E1 name data I), C.
  - intros name data I C E. now rewrite (E1 name data I), C, E.
  - intros name data filled I C E. now rewrite (E1 name data I), C, E.
Qed.
End Week02cShape.

Lemma week02c_generate_shape_witness :
  exists out,
    @Week02c.generate_submit_hwpx DemoZip.lxml (Some DemoZip.broken) [] true = Ok out /\
    zread out "Contents/section0.xml" = Some "<hp:sec" /\
    zread out "BinData/image1.png" = Some "old picture".
Proof.
  destruct (@week02c_generate_shape DemoZip.lxml DemoZip.broken [] true NoDup_broken)
    as (out & G & _ & P & F & _).
  exists out. split; [exact G|]. split.
  - apply F; [vm_compute; tauto | reflexivity | vm_compute; reflexivity].
  - apply P; [vm_compute; tauto | reflexivity].
Defined.

(** ** What the injector never touches *)

Lemma fill_run_markup values : forall fbs st,
  wf (fst st) ->
  same_markup (fst st) (fst (fold_left (Week03a.fill_field values) fbs st)).
Proof.
  induction fbs as [|fb fbs IH]; intros st W; cbn [fold_left].
  - apply same_markup_refl.
  - destruct (fill_field_ok values st fb W) as [(M & _) _].
    eapply same_markup_trans; [exact M|]. apply IH. now apply (same_markup_wf _ _ M).
Qed.

Lemma lookup_key r r' u :
  same_markup r r' -> option_map key (lookup r' u) = option_map key (lookup r u).
Proof.
  intros M. unfold lookup. apply find_key; [exact M|].
  intros e e' K. now rewrite (key_uid _ _ K).
Qed.

(** X12.  Whatever the values, the week03a injector returns a tree with the
    elements of the input in the same order, each with its identity, tag,
    attributes, tail and subtree size; and the text of every element that is
    not a text leaf is as it was.  Only texts of hp:t elements can differ. *)
Theorem fill_fields_only_rewrites_leaf_text :
  forall (values : dict string) (root : element),
    wf root ->
    let root' := fst (Week03a.fill_fields root values) in
    map key (iter root') = map key (iter root) /\
    forall u e, lookup root u = Some e -> is_tag (hp "t") e = false ->
                text_of root' u = text e.
Proof.
  intros values root W root'.
  pose proof (fill_run_markup values (field_begins root) (root, false) W) as M.
  fold (Week03a.fill_fields root values) in M. fold root' in M. cbn [fst] in M.
  split; [exact M|]. intros u e Lu T.
  pose proof (lookup_key root root' u M) as K. rewrite Lu in K. unfold text_of.
  destruct (lookup root' u) as [e'|]; [|discriminate].
  assert (Ke : key e = key e') by (cbn in K; congruence).
  symmetry. now apply key_text.
Qed.

Lemma fill_fields_only_rewrites_witness :
  let root' := fst (Week03a.fill_fields nested [("OUTER", "x"); ("INNER", "y")]) in
  map key (iter root') = map key (iter nested) /\ text_of root' 4 = None.
Proof.
  assert (W : wf nested) by (apply wf_check; vm_compute; reflexivity).
  destruct (fill_fields_only_rewrites_leaf_text [("OUTER", "x"); ("INNER", "y")] nested W)
    as [M T].
  split; [exact M|]. apply (T 4 (Demo.fe 4 "2")); reflexivity.
Defined.

(** ** The slot directory *)

Lemma dict_get_set_same {V : Type} (d : dict V) k v : dict_get (dict_set d k v) k = Some v.
Proof.
  induction d as [|[a b] d IH]; cbn [dict_set dict_get].
  - now rewrite String.eqb_refl.
  - destruct (String.eqb a k) eqn:E; cbn [dict_get]; rewrite E; [reflexivity | exact IH].
Qed.

Lemma dict_get_set_other {V : Type} (d : dict V) k v k' :
  k' <> k -> dict_get (dict_set d k v) k' = dict_get d k'.
Proof.
  intros N. induction d as [|[a b] d IH]; cbn [dict_set dict_get].
  - destruct (String.eqb_spec k k'); [congruence | reflexivity].
  - destruct (String.eqb_spec a k) as [->|Na]; cbn [dict_get].
    + destruct (String.eqb_spec k k'); [congruence | reflexivity].
    + destruct (String.eqb a k'); [reflexivity | exact IH].
Qed.

Section DirectoryFacts.
Context `{Lxml}.

Lemma scan_entry_as_fold zf oc sm e :
  Week03a.scan_entry zf oc sm e
  = fold_left Week03a.slot_map_add (entry_mappings zf oc e) sm.
Proof.
  unfold Week03a.scan_entry, entry_mappings, candidate.
  destruct (Week03a.is_xml_path (fst e)); cbn [negb andb]; [|reflexivity].
  destruct oc; cbn [negb andb orb].
  - destruct (startswith (fst e) "Contents/"); cbn [negb]; [|reflexivity].
    destruct (Week03a.extract_slot_mappings_from_xml _ _); reflexivity.
  - destruct (Week03a.extract_slot_mappings_from_xml _ _); reflexivity.
Qed.

Lemma build_as_fold zf oc :
  Week03a.build_slot_map_from_hwpx zf oc
  = fold_left Week03a.slot_map_add (scanned zf oc) [].
Proof.
  unfold Week03a.build_slot_map_from_hwpx, scanned.
  generalize (@nil (string * list Week03a.SlotMapping)) as sm.
  generalize zf at 2 4 as l.
  induction l as [|e l IH]; intros sm; cbn [fold_left flat_map]; [reflexivity|].
  now rewrite fold_left_app, IH, scan_entry_as_fold.
Qed.

Lemma named_app name a b : named name (a ++ b) = named name a ++ named name b.
Proof. apply filter_app. Qed.

Lemma slot_map_add_group sm done m :
  (forall name, dict_get sm name = group name done) ->
  forall name, dict_get (Week03a.slot_map_add sm m) name = group name (done ++ [m]).
Proof.
  intros Inv name. unfold Week03a.slot_map_add, group. rewrite named_app.
  unfold named at 2. cbn [filter].
  destruct (String.eqb_spec (Week03a.slot_name m) name) as [E|N].
  - subst name. rewrite dict_get_set_same, Inv. unfold group.
    destruct (named (Week03a.slot_name m) done); reflexivity.
  - rewrite dict_get_set_other by congruence. rewrite app_nil_r. apply Inv.
Qed.

Lemma fold_slot_map_add_group ms : forall sm done,
  (forall name, dict_get sm name = group name done) ->
  forall name,
    dict_get (fold_left Week03a.slot_map_add ms sm) name = group name (done ++ ms).
Proof.
  induction ms as [|m ms IH]; intros sm done Inv name; cbn [fold_left].
  - now rewrite app_nil_r.
  - replace (done ++ m :: ms) with ((done ++ [m]) ++ ms) by (now rewrite <- app_assoc).
    apply IH. now apply slot_map_add_group.
Qed.

Lemma mappings_of_facts root path m :
  In m (Week03a.mappings_of root path) ->
  Week03a.slot_name m <> EmptyString /\ Week03a.xml_path m = path /\
  exists fb, In fb (descendants root) /\ is_tag (hp "fieldBegin") fb = true /\
             get fb "name" = Some (Week03a.slot_name m) /\
             Week03a.field_begin_id m = get fb "id".
Proof.
  unfold Week03a.mappings_of. intros I. apply in_flat_map in I as (fb & If & I).
  apply filter_In in If as [Id P]. apply andb_prop in P as [T _].
  destruct (get fb "name") as [nm|] eqn:G; [|destruct I].
  destruct (nonempty nm) eqn:Ne; [|destruct I].
  destruct I as [<-|[]]. cbn. split; [now apply nonempty_true|].
  split; [reflexivity|]. exists fb. auto.
Qed.

(** X13.  The slot directory maps a name to the list of all its occurrences found
    in the XML parts in scope that parse, in scan order (part by part, and
    in document order within a part), and holds no name without an
    occurrence.  Every recorded occurrence has a non-empty name and the
    path of a part in scope. *)
Theorem build_slot_map_groups_occurrences :
  forall (zf : zipfile) (only_contents : bool),
    (forall name,
        dict_get (Week03a.build_slot_map_from_hwpx zf only_contents) name
        = group name (scanned zf only_contents)) /\
    (forall m, In m (scanned zf only_contents) ->
               Week03a.slot_name m <> EmptyString /\
               candidate only_contents (Week03a.xml_path m) = true /\
               In (Week03a.xml_path m) (map fst zf)).
Proof.
  intros zf oc. split.
  - intros name. rewrite build_as_fold.
    apply (fold_slot_map_add_group (scanned zf oc) [] []). reflexivity.
  - intros m I. unfold scanned in I. apply in_flat_map in I as (e & Ie & I).
    unfold entry_mappings, Week03a.extract_slot_mappings_from_xml in I.
    destruct (candidate oc (fst e)) eqn:C; [|destruct I].
    destruct (Week03a.xml_parse_strict (Week03a.data_of zf e)) as [root|]; [|destruct I].
    apply mappings_of_facts in I as (Ne & -> & _).
    repeat split; auto. now apply in_map.
Qed.
End DirectoryFacts.

(** ** week02c and week03a side by side *)

Lemma fold_set_blank_markup extras : forall r,
  leafy r (map uid extras) ->
  same_markup r (fold_left (fun r0 extra => set_text (uid extra) (Some EmptyString) r0)
                           extras r).
Proof.
  induction extras as [|x xs IH]; intros r L; cbn [fold_left].
  - apply same_markup_refl.
  - assert (M : same_markup r (set_text (uid x) (Some EmptyString) r)).
    { apply set_text_same_markup. intros e I E. apply L; [exact I|]. rewrite E. now left. }
    eapply same_markup_trans; [exact M|]. apply IH.
    eapply leafy_markup; [exact M|]. eapply leafy_cons. exact L.
Qed.

(** A week02c turn on collected leaves: markup kept, other texts kept. *)
Lemma week02c_turn_frame values r fb en t0 rest slot_name begin_id :
  wf r ->
  get fb "name" = Some slot_name -> get fb "id" = Some begin_id ->
  nonempty slot_name && nonempty begin_id = true ->
  first_end r (uid fb) begin_id = Some en ->
  t_nodes r (uid fb) begin_id en = t0 :: rest ->
  let r' := Week02c.fill_field values r fb in
  same_markup r r' /\
  forall w, ~ In w (map uid (t0 :: rest)) -> text_of r' w = text_of r w.
Proof.
  intros W Gn Gi Ne Fe Tn. cbv zeta. apply andb_prop in Ne as [Nn Ni].
  unfold Week02c.fill_field. rewrite Gn, Gi, Nn, Ni, Fe, Tn. cbn [negb orb].
  pose proof (t_nodes_leafy r (uid fb) begin_id en W) as L. rewrite Tn in L.
  set (v := or_empty (dict_get values slot_name)).
  assert (M1 : same_markup r (set_text (uid t0) (Some v) r)).
  { apply set_text_same_markup. intros e I E. apply L; [exact I|]. rewrite E. now left. }
  assert (L1 : leafy (set_text (uid t0) (Some v) r) (map uid rest)).
  { eapply leafy_markup; [exact M1|]. eapply leafy_cons. exact L. }
  split.
  - eapply same_markup_trans; [exact M1|]. now apply fold_set_blank_markup.
  - intros w N.
    destruct (fold_set_blank rest (set_text (uid t0) (Some v) r)) as [F _].
    { intros x Ix. rewrite uids_set_text. apply in_map.
      apply (t_nodes_in r (uid fb) begin_id en). rewrite Tn. now right. }
    rewrite F by (intros I; apply N; now right).
    apply text_of_set_text_other. intros ->. apply N. now left.
Qed.



Lemma leaf_ids_t_nodes r fb bid en :
  get fb "id" = Some bid -> first_end r (uid fb) bid = Some en ->
  leaf_ids r fb = map uid (t_nodes r (uid fb) bid en).
Proof. intros Gi Fe. unfold leaf_ids. now rewrite Gi, Fe. Qed.

Lemma turns_agree values root r2 st3 fb :
  wf root -> ends_are_leaves root ->
  agreeable values root fb ->
  same_markup root r2 -> same_markup root (fst st3) ->
  (forall u, or_empty (text_of r2 u) = or_empty (text_of (fst st3) u)) ->
  let r2' := Week02c.fill_field values r2 fb in
  let st3' := Week03a.fill_field values st3 fb in
  same_markup root r2' /\ same_markup root (fst st3') /\
  forall u, or_empty (text_of r2' u) = or_empty (text_of (fst st3') u).
Proof.
  intros W L A M2 M3 T. cbv zeta.
  pose proof (same_markup_wf _ _ M2 W) as W2.
  pose proof (same_markup_wf _ _ M3 W) as W3.
  destruct (fill_field_ok values st3 fb W3) as [(M3' & F3 & _) V3].
  unfold agreeable in A.
  destruct (get fb "name") as [n|] eqn:Gn;
    [|unfold Week02c.fill_field; rewrite fill_field_unfold; unfold injected;
      rewrite Gn; auto].
  destruct (get fb "id") as [bid|] eqn:Gi;
    [|unfold Week02c.fill_field; rewrite fill_field_unfold; unfold injected;
      rewrite Gn, Gi; auto].
  destruct (nonempty n && nonempty bid) eqn:Ne.
  2:{ assert (X : negb (nonempty n) || negb (nonempty bid) = true)
        by (destruct (nonempty n), (nonempty bid); auto; discriminate).
      unfold Week02c.fill_field. rewrite fill_field_unfold. unfold injected.
      rewrite Gn, Gi, X. auto. }
  destruct (A eq_refl) as (Hv & Img & Lf).
  destruct (dict_get values n) as [v|] eqn:Gv; [|congruence].
  assert (J : injected values fb = Some v).
  { unfold injected. rewrite Gn, Gi.
    apply andb_prop in Ne as [Nn Ni]. now rewrite Nn, Ni, Gv, Img. }
  pose proof (first_end_key root r2 (uid fb) bid M2) as K2.
  destruct (first_end root (uid fb) bid) as [en|] eqn:Fe.
  2:{ destruct (first_end r2 (uid fb) bid) eqn:F2; [discriminate|].
      rewrite (fill_field_no_end values st3 fb bid root M3 Gi Fe).
      unfold Week02c.fill_field. rewrite Gn, Gi, F2.
      destruct (negb (nonempty n) || negb (nonempty bid)); auto. }
  destruct Lf as [Lf|Lf]; [discriminate|].
  destruct (first_end r2 (uid fb) bid) as [en2|] eqn:F2; [|discriminate].
  pose proof (leaf_ids_markup root r2 fb M2 L) as E2.
  pose proof (leaf_ids_markup root (fst st3) fb M3 L) as E3.
  rewrite (leaf_ids_t_nodes r2 fb bid en2 Gi F2) in E2.
  destruct (t_nodes r2 (uid fb) bid en2) as [|t0 rest] eqn:T2;
    [cbn in E2; congruence|].
  destruct (week02c_turn_frame values r2 fb en2 t0 rest n bid W2 Gn Gi Ne F2 T2)
    as [M2' F2'].
  assert (Nn : n <> EmptyString)
    by (apply nonempty_true; now apply andb_prop in Ne as [? ?]).
  assert (Ni : bid <> EmptyString)
    by (apply nonempty_true; now apply andb_prop in Ne as [? ?]).
  destruct (week02c_turn_writes_leaves values r2 fb en2 t0 rest n bid
              W2 Gn Gi Nn Ni F2 T2) as [V2 B2].
  rewrite Gv in V2. cbn [or_empty] in V2.
  assert (E3' : leaf_ids (fst st3) fb = uid t0 :: map uid rest)
    by (rewrite E3, <- E2; reflexivity).
  destruct (V3 v (uid t0) (map uid rest) J E3') as [V3' B3'].
  split; [exact (same_markup_trans _ _ _ M2 M2')|].
  split; [exact (same_markup_trans _ _ _ M3 M3')|].
  intros u.
  destruct (in_dec Nat.eq_dec u (map uid (t0 :: rest))) as [I|N].
  - cbn [map] in I. destruct I as [<-|I].
    + now rewrite V2, V3'.
    + rewrite (B3' u I). apply in_map_iff in I as (x & <- & Ix).
      now rewrite (B2 x Ix).
  - rewrite (F2' u N), F3; [apply T|].
    unfold touched. rewrite J, E3'. exact N.
Qed.

Lemma runs_agree values root :
  wf root -> ends_are_leaves root ->
  forall fbs r2 st3,
    (forall fb, In fb fbs -> agreeable values root fb) ->
    same_markup root r2 -> same_markup root (fst st3) ->
    (forall u, or_empty (text_of r2 u) = or_empty (text_of (fst st3) u)) ->
    let r2' := fold_left (Week02c.fill_field values) fbs r2 in
    let st3' := fold_left (Week03a.fill_field values) fbs st3 in
    same_markup root r2' /\ same_markup root (fst st3') /\
    forall u, or_empty (text_of r2' u) = or_empty (text_of (fst st3') u).
Proof.
  intros W L. induction fbs as [|fb fbs IH]; intros r2 st3 A M2 M3 T; cbn [fold_left].
  - auto.
  - destruct (turns_agree values root r2 st3 fb W L (A fb (or_introl eq_refl)) M2 M3 T)
      as (M2' & M3' & T').
    apply IH; auto. intros x Ix. apply A. now right.
Qed.

(** X15.  On a tree where every begin marker that would be injected has a value,
    no IMG_ prefix, and either no end marker or at least one collected
    leaf, the week02c and the week03a injector return trees with the same
    markup and the same texts, an absent text counting as empty.  The two
    programs differ only in what they do to slots without a value, to names
    with the image prefix and to occurrences without a leaf. *)
Theorem injectors_agree :
  forall (values : dict string) (root : element),
    wf root -> ends_are_leaves root ->
    (forall fb, In fb (field_begins root) -> agreeable values root fb) ->
    let r2 := Week02c.fill_fields root values in
    let r3 := fst (Week03a.fill_fields root values) in
    map key (iter r2) = map key (iter r3) /\
    forall u, or_empty (text_of r2 u) = or_empty (text_of r3 u).
Proof.
  intros values root W L A. cbv zeta.
  destruct (runs_agree values root W L (field_begins root) root (root, false) A
              (same_markup_refl root) (same_markup_refl root) (fun u => eq_refl))
    as (M2 & M3 & T).
  split; [|exact T].
  unfold same_markup in M2, M3. unfold Week02c.fill_fields, Week03a.fill_fields.
  now rewrite M2, M3.
Qed.

Lemma injectors_agree_witness :
  let values := [("OUTER", "x"); ("INNER", "y")] in
  or_empty (text_of (Week02c.fill_fields nested values) 3)
  = or_empty (text_of (fst (Week03a.fill_fields nested values)) 3).
Proof.
  cbv zeta.
  destruct (injectors_agree [("OUTER", "x"); ("INNER", "y")] nested) as [_ T].
  - apply wf_check. vm_compute. reflexivity.
  - apply ends_are_leaves_check. vm_compute. reflexivity.
  - intros fb I. vm_compute in I.
    repeat (destruct I as [<-|I];
            [unfold agreeable; cbn; intros _;
             split; [discriminate | split; [reflexivity | right; vm_compute; discriminate]]|]).
    destruct I.
  - apply T.
Defined.

(** ** Replacing assets, for any payload *)

Lemma dict_set_keys_nodup {V : Type} (d : dict V) k v :
  NoDup (dict_keys d) -> NoDup (dict_keys (dict_set d k v)).
Proof.
  unfold dict_keys. induction d as [|[a b] d IH]; cbn [dict_set map]; intros N.
  - repeat constructor. intros [].
  - inversion N as [|? ? Na Nd]; subst.
    destruct (String.eqb_spec a k) as [->|Nk]; cbn [map].
    + now constructor.
    + constructor; [|auto]. intros I. apply in_map_iff in I as ([x y] & E & I).
      cbn [fst] in E. subst x. apply dict_set_in in I as [[-> _]|I]; [congruence|].
      apply Na. apply in_map_iff. exists (a, y). auto.
Qed.

Lemma split_payload_image_keys_nodup payload :
  NoDup (dict_keys (snd (Week03a.split_payload payload))).
Proof.
  unfold Week03a.split_payload.
  assert (G : forall acc, NoDup (dict_keys (snd acc)) ->
                          NoDup (dict_keys (snd (fold_left Week03a.classify payload acc)))).
  { induction payload as [|[k v] payload IH]; intros [tv iv] N; cbn [fold_left]; [exact N|].
    apply IH. cbn [Week03a.classify snd] in *.
    destruct v as [s|s|items shown|s]; cbn [snd]; auto.
    destruct (startswith k Week03a.IMG_PREFIX && dict_mem items "dataUrl"); cbn [snd]; auto.
    now apply dict_set_keys_nodup. }
  apply G. constructor.
Qed.

Lemma find_first_pair {A : Type} (p : A -> bool) pre x post :
  Forall (fun y => p y = false) pre -> p x = true ->
  find p (pre ++ x :: post) = Some x.
Proof.
  induction 1 as [|y pre Py _ IH]; intros Px; cbn [app find].
  - now rewrite Px.
  - rewrite Py. now apply IH.
Qed.

Section Replace.
Context `{Lxml} `{Base64}.

Lemma resolved_entry_keys all_xml oc l k :
  In k (dict_keys (flat_map (resolved_entry all_xml oc) l)) -> In k l.
Proof.
  unfold dict_keys. induction l as [|s l IH]; cbn [flat_map map]; [easy|].
  rewrite map_app. intros I. apply in_app_or in I as [I|I]; [|right; auto].
  left. unfold resolved_entry in I.
  destruct (Week03a.bindata_of_slot all_xml oc s); cbn in I; tauto.
Qed.

Lemma resolve_slots_in_order all_xml oc slots :
  NoDup slots ->
  Week03a.resolve_slots all_xml oc slots = flat_map (resolved_entry all_xml oc) slots.
Proof.
  intros N. unfold Week03a.resolve_slots.
  assert (G : forall l done,
             NoDup (done ++ l) ->
             fold_left
               (fun slot_to_bindata slot =>
                  match Week03a.bindata_of_slot all_xml oc slot with
                  | Some href => dict_set slot_to_bindata slot href
                  | None => slot_to_bindata
                  end) l (flat_map (resolved_entry all_xml oc) done)
             = flat_map (resolved_entry all_xml oc) (done ++ l)).
  { induction l as [|s l IH]; intros done Nd; cbn [fold_left].
    - now rewrite app_nil_r.
    - assert (Ns : ~ In s done).
      { apply NoDup_remove_2 in Nd. intros I. apply Nd. apply in_or_app. now left. }
      replace (done ++ s :: l) with ((done ++ [s]) ++ l) in * by (now rewrite <- app_assoc).
      rewrite <- (IH (done ++ [s]) Nd). f_equal.
      rewrite flat_map_app.
      assert (E1 : flat_map (resolved_entry all_xml oc) [s] = resolved_entry all_xml oc s)
        by apply app_nil_r.
      rewrite E1. unfold resolved_entry at 4.
      destruct (Week03a.bindata_of_slot all_xml oc s) as [h|]; [|now rewrite app_nil_r].
      apply dict_set_fresh. intros I. now apply resolved_entry_keys in I. }
  apply (G slots [] N).
Qed.

Lemma decode_images_keeps image_values : forall acc r k,
  Week03a.decode_images image_values acc = Ok r ->
  ~ In k (dict_keys image_values) -> dict_get r k = dict_get acc k.
Proof.
  induction image_values as [|[slot info] rest IH]; intros acc r k;
    cbn [Week03a.decode_images].
  - now intros [= <-].
  - destruct (dict_get info "dataUrl") as [v|]; [|discriminate].
    destruct (Week03a.decode_data_url (py_str v)) as [[mime raw]|e]; [|discriminate].
    destruct (Week03a.allowed_mime mime); [|discriminate].
    intros D N. rewrite (IH _ _ _ D).
    + apply dict_get_set_other. intros ->. apply N. now left.
    + intros I. apply N. now right.
Qed.

Lemma decode_images_bytes image_values : forall acc r slot info,
  NoDup (dict_keys image_values) ->
  Week03a.decode_images image_values acc = Ok r ->
  In (slot, info) image_values ->
  exists v mime raw,
    dict_get info "dataUrl" = Some v /\
    Week03a.decode_data_url (py_str v) = Ok (mime, raw) /\
    dict_get r slot = Some raw.
Proof.
  induction image_values as [|[s i] rest IH]; intros acc r slot info N D I; [destruct I|].
  cbn [Week03a.decode_images] in D. unfold dict_keys in N. cbn [map fst] in N.
  inversion N as [|? ? Ns Nr]; subst.
  destruct (dict_get i "dataUrl") as [v|] eqn:Gd; [|discriminate].
  destruct (Week03a.decode_data_url (py_str v)) as [[mime raw]|e] eqn:Dv; [|discriminate].
  destruct (Week03a.allowed_mime mime); [|discriminate].
  destruct I as [E|I].
  - injection E as <- <-. exists v, mime, raw. repeat split; auto.
    rewrite (decode_images_keeps rest _ r s D Ns). apply dict_get_set_same.
  - now apply (IH _ r slot info Nr D I).
Qed.
End Replace.

Section Replaced.
Context `{Lxml} `{Base64}.

(** X16.  For any payload: when the rewrite succeeds, a part under BinData whose
    name is what an image slot resolves to holds, in the output, the decoded
    bytes of the first such slot in submission order. *)
Theorem generate_replaces_resolved_asset :
  forall (zin : zipfile) (payload : dict pyval) (only_contents : bool) (out : zipfile)
         (name : string) (data : bytes) (slot : string) (earlier later : list string)
         (info : list (string * pyval)) (v : pyval) (mime : string) (raw : bytes),
    NoDup (map fst zin) ->
    Week03a.generate_submit_hwpx (Some zin) payload only_contents = Ok out ->
    In (name, data) zin ->
    candidate only_contents name = false ->
    startswith name "BinData/" = true ->
    dict_keys (snd (Week03a.split_payload payload)) = earlier ++ slot :: later ->
    (forall s, In s earlier ->
               Week03a.bindata_of_slot (Week03a.preload zin) only_contents s <> Some name) ->
    Week03a.bindata_of_slot (Week03a.preload zin) only_contents slot = Some name ->
    In (slot, info) (snd (Week03a.split_payload payload)) ->
    dict_get info "dataUrl" = Some v ->
    Week03a.decode_data_url (py_str v) = Ok (mime, raw) ->
    zread out name = Some raw.
Proof.
  intros zin payload oc out name data slot pre post info v mime raw
         N G I C B K Pre Res Ii Gd Dec.
  destruct (generate_ok_inv zin payload oc out G) as (s2i & D & ->).
  pose proof (split_payload_image_keys_nodup payload) as Nk.
  destruct (decode_images_bytes _ _ _ _ _ Nk D Ii) as (v' & mime' & raw' & Gd' & Dec' & Gs).
  assert (v' = v) by congruence. subst v'.
  assert (raw' = raw) by congruence. subst raw'.
  rewrite (zread_map _ zin name data N I). f_equal.
  unfold Week03a.rewrite_entry. unfold candidate in C. cbn [fst].
  rewrite C, B.
  rewrite (resolve_slots_in_order _ _ _ Nk), K, flat_map_app.
  assert (E1 : flat_map (resolved_entry (Week03a.preload zin) oc) (slot :: post)
               = (slot, name) :: flat_map (resolved_entry (Week03a.preload zin) oc) post).
  { cbn [flat_map]. unfold resolved_entry at 1. now rewrite Res. }
  rewrite E1, find_first_pair.
  - now rewrite Gs.
  - apply Forall_forall. intros [s h] Is. cbn [fst snd].
    apply in_flat_map in Is as (s' & Is' & Is).
    unfold resolved_entry in Is.
    destruct (Week03a.bindata_of_slot (Week03a.preload zin) oc s') as [h'|] eqn:R;
      [|destruct Is].
    destruct Is as [[= <- <-]|[]].
    destruct (String.eqb_spec h' name) as [->|]; [|reflexivity].
    exfalso. now apply (Pre s').
  - cbn [fst snd]. rewrite String.eqb_refl. unfold dict_mem. now rewrite Gs.
Qed.

(** X17.  Every begin marker that the injector acts on, in a part in scope that
    parses, is listed in the slot directory under its name, with the path of
    that part. *)
Theorem directory_lists_injected_slots :
  forall (zf : zipfile) (only_contents : bool) (values : dict string)
         (name : string) (data : bytes) (root fb : element) (v : string),
    NoDup (map fst zf) ->
    In (name, data) zf ->
    candidate only_contents name = true ->
    Week03a.xml_parse_strict data = Some root ->
    In fb (field_begins root) ->
    injected values fb = Some v ->
    exists slot ms,
      get fb "name" = Some slot /\
      dict_get (Week03a.build_slot_map_from_hwpx zf only_contents) slot = Some ms /\
      In (Week03a.mkSlotMapping slot name (get fb "id") (get fb "fieldid")) ms.
Proof.
  intros zf oc values name data root fb v N I C P If J.
  unfold injected in J.
  destruct (get fb "name") as [slot|] eqn:Gn; [|discriminate].
  destruct (get fb "id") as [bid|] eqn:Gi; [|discriminate].
  destruct (nonempty slot) eqn:Ns; [|discriminate].
  set (m := Week03a.mkSlotMapping slot name (Some bid) (get fb "fieldid")).
  assert (Im : In m (scanned zf oc)).
  { unfold scanned. apply in_flat_map. exists (name, data). split; [exact I|].
    unfold entry_mappings, Week03a.extract_slot_mappings_from_xml. cbn [fst].
    rewrite C, (data_of_in zf (name, data) N I). cbn [snd]. rewrite P.
    unfold Week03a.mappings_of. apply in_flat_map. exists fb. split.
    - unfold field_begins in If. apply filter_In in If as [Id Q].
      apply filter_In. split; [exact Id|].
      apply andb_prop in Q as [Q _]. exact Q.
    - rewrite Gn, Ns, Gi. now left. }
  assert (In' : In m (named slot (scanned zf oc))).
  { unfold named. apply filter_In. split; [exact Im|]. cbn. apply String.eqb_refl. }
  exists slot. rewrite build_as_fold.
  rewrite (fold_slot_map_add_group (scanned zf oc) [] [] (fun _ => eq_refl)).
  cbn [app]. unfold group.
  destruct (named slot (scanned zf oc)) as [|m0 l] eqn:E; [destruct In'|].
  exists (m0 :: l). repeat split. exact In'.
Qed.
End Replaced.

Lemma generate_replaces_witness :
  part (@Week03a.generate_submit_hwpx DemoZip.lxml DemoZip.base64
          (Some DemoZip.template)
          [("IMG_LOGO", DemoZip.photo DemoZip.png_url); ("NAME", PyStr "Alice");
           ("IMG_PHOTO", DemoZip.photo DemoZip.png_url)] true)
       "BinData/image1.png"
  = Some "hello".
Proof.
  destruct (@Week03a.generate_submit_hwpx DemoZip.lxml DemoZip.base64
              (Some DemoZip.template)
              [("IMG_LOGO", DemoZip.photo DemoZip.png_url); ("NAME", PyStr "Alice");
               ("IMG_PHOTO", DemoZip.photo DemoZip.png_url)] true)
    as [out|e] eqn:G; [|vm_compute in G; discriminate].
  cbn [part].
  apply (@generate_replaces_resolved_asset DemoZip.lxml DemoZip.base64
           DemoZip.template _ true out "BinData/image1.png" "old picture"
           "IMG_PHOTO" ["IMG_LOGO"] []
           [("filename", PyStr "a.png"); ("dataUrl", PyStr DemoZip.png_url)]
           (PyStr DemoZip.png_url) "image/png" "hello" NoDup_template G).
  - vm_compute. tauto.
  - reflexivity.
  - reflexivity.
  - reflexivity.
  - intros s [<-|[]]. vm_compute. discriminate.
  - vm_compute. reflexivity.
  - vm_compute. tauto.
  - reflexivity.
  - vm_compute. reflexivity.
Defined.

Lemma directory_lists_injected_witness :
  exists slot ms,
    get (Demo.fb 2 "NAME" "11" "CLICK_HERE") "name" = Some slot /\
    dict_get (@Week03a.build_slot_map_from_hwpx DemoZip.lxml DemoZip.template true) slot
    = Some ms /\
    In (Week03a.mkSlotMapping slot "Contents/section0.xml"
          (get (Demo.fb 2 "NAME" "11" "CLICK_HERE") "id")
          (get (Demo.fb 2 "NAME" "11" "CLICK_HERE") "fieldid")) ms.
Proof.
  apply (@directory_lists_injected_slots DemoZip.lxml DemoZip.template true
           [("NAME", "Alice")] "Contents/section0.xml" DemoZip.section0_xml
           Demo.section0 (Demo.fb 2 "NAME" "11" "CLICK_HERE") "Alice" NoDup_template).
  - vm_compute. tauto.
  - reflexivity.
  - vm_compute. reflexivity.
  - vm_compute. tauto.
  - reflexivity.
Defined.
